(** * Kanban board: the entity model, the board store and the import codec

    A shallow embedding of [types/task.js], [types/column.js],
    [hooks/useKanban.js] and [services/storage.js], and the properties of
    the board state model checked against it; then of the rest of these
    files, of [utils/idGenerator.js], [hooks/useLocalStorage.js],
    [hooks/useDragDrop.js] and of the handlers of the components, with
    further properties of the code.

    Conventions of the embedding.
    - A JavaScript object used as a dictionary ([tasks], [columns]) is a
      [gmap string _] of its own properties; a lookup [object[key]] that
      finds no own property sees the member of [Object.prototype] of
      that name, if there is one ([dict_get]); an array is a [list].
    - A function that can [throw] returns a [result]; the thrown [Error]
      is an [error] whose [message] is the text the source builds.
    - What the environment contributes to an operation is an input of
      it: [now] is [new Date().toISOString()] (one reading of the clock
      per operation), [generateTaskId()] / [generateColumnId()] hand over
      the identifier they produced, [window.confirm] the user's answer,
      and [Object.entries] the order in which an object holds its
      properties.
    - The store's state is a typed record; a board object whose
      properties have other types (it can only come from an import) is a
      raw [value].
    - JavaScript strings are [string]s of code units below 256; every
      character is one code unit. *)

From Stdlib Require Import ZArith String Ascii List Lia Bool.
From stdpp Require Import base option list gmap strings fin_maps.

Local Open Scope string_scope.
Local Open Scope Z_scope.

(** ** Results and errors *)

(** The texts of the [Error]s thrown by the source. *)
Inductive error : Type :=
| ValidationFailed (errors : list string)
    (* throw new Error(validation.errors.join(', ')) *)
| InvalidTaskData (errors : list string)
    (* `Invalid task data: ${validation.errors.join(', ')}` *)
| InvalidColumnData (errors : list string)
    (* `Invalid column data: ${validation.errors.join(', ')}` *)
| ColumnNotFound (columnId : string)       (* `Column ${columnId} not found` *)
| TaskNotFound (taskId : string)           (* `Task ${taskId} not found` *)
| TaskNotInAnyColumn (taskId : string)     (* `Task ${taskId} not found in any column` *)
| TargetColumnNotFound (columnId : string) (* `Target column ${columnId} not found` *)
| TaskNotInColumn                          (* 'Task not found in column' *)
| InvalidImportStructure                   (* 'Invalid import data structure' *)
| TypeError (what : string)                (* raised by the runtime on a bad property read *)
| SyntaxError (what : string).             (* raised by [JSON.parse] *)

Inductive result (A : Type) : Type :=
| Ok (a : A)
| Throw (e : error).
Arguments Ok {A} a.
Arguments Throw {A} e.

Global Instance result_ret : MRet result := λ A a, Ok a.
Global Instance result_bind : MBind result := λ A B k r,
  match r with
  | Ok a => k a
  | Throw e => Throw e
  end.

Definition is_ok {A} (r : result A) : bool :=
  match r with Ok _ => true | Throw _ => false end.

(** [Array.prototype.join(', ')] *)
Fixpoint join (sep : string) (l : list string) : string :=
  match l with
  | [] => ""
  | [x] => x
  | x :: rest => x ++ sep ++ join sep rest
  end.

Definition message (e : error) : string :=
  match e with
  | ValidationFailed errs => join ", " errs
  | InvalidTaskData errs => "Invalid task data: " ++ join ", " errs
  | InvalidColumnData errs => "Invalid column data: " ++ join ", " errs
  | ColumnNotFound c => "Column " ++ c ++ " not found"
  | TaskNotFound t => "Task " ++ t ++ " not found"
  | TaskNotInAnyColumn t => "Task " ++ t ++ " not found in any column"
  | TargetColumnNotFound c => "Target column " ++ c ++ " not found"
  | TaskNotInColumn => "Task not found in column"
  | InvalidImportStructure => "Invalid import data structure"
  | TypeError what => what
  | SyntaxError what => what
  end.

(** The error kinds of the specification.  The source throws plain
    [Error]s; the kind is read off the message family. *)
Inductive error_kind : Type :=
| ValidationError
| NotFoundError
| RuntimeError.

Definition kind (e : error) : error_kind :=
  match e with
  | ValidationFailed _ | InvalidTaskData _ | InvalidColumnData _
  | InvalidImportStructure => ValidationError
  | ColumnNotFound _ | TaskNotFound _ | TaskNotInAnyColumn _
  | TargetColumnNotFound _ | TaskNotInColumn => NotFoundError
  | TypeError _ | SyntaxError _ => RuntimeError
  end.

(** ** JavaScript strings *)

(** A string is falsy exactly when it is empty. *)
Definition truthy_str (s : string) : bool :=
  match s with
  | EmptyString => false
  | String _ _ => true
  end.

(** [x || dflt] for a property that is either [undefined] or a string. *)
Definition or_default (x : option string) (dflt : string) : string :=
  match x with
  | Some s => if truthy_str s then s else dflt
  | None => dflt
  end.

(** White space and line terminators removed by [String.prototype.trim],
    the code units below 256 among them: tab, line feed, vertical tab,
    form feed, carriage return, space and the no-break space U+00A0. *)
Definition is_white_space (a : ascii) : bool :=
  match nat_of_ascii a with
  | 9%nat | 10%nat | 11%nat | 12%nat | 13%nat | 32%nat | 160%nat => true
  | _ => false
  end.

Fixpoint trim_start (s : string) : string :=
  match s with
  | EmptyString => EmptyString
  | String a rest => if is_white_space a then trim_start rest else s
  end.

Fixpoint trim_end (s : string) : string :=
  match s with
  | EmptyString => EmptyString
  | String a rest =>
      match trim_end rest with
      | EmptyString => if is_white_space a then EmptyString else String a EmptyString
      | r => String a r
      end
  end.

Definition trim (s : string) : string := trim_end (trim_start s).

Definition str_length (s : string) : Z := Z.of_nat (String.length s).

(** ** Dates *)

(** What the source asks of the runtime's [Date]: the time value of
    [new Date(text)] in milliseconds ([None] is the invalid date, whose
    [getTime()] is [NaN]), and local midnight of the day of an instant
    ([setHours(0, 0, 0, 0)]). *)
Class JsDate : Type := {
  date_parse : string → option Z;
  start_of_day : Z → Z
}.

(** [a < b] on [Date]s; a comparison with [NaN] is false. *)
Definition date_lt (a : option Z) (b : Z) : bool :=
  match a with
  | Some x => x <? b
  | None => false
  end.

(** ** utils/constants.js *)

Definition PRIORITY_LOW : string := "low".
Definition PRIORITY_MEDIUM : string := "medium".
Definition PRIORITY_HIGH : string := "high".
Definition PRIORITY_LEVELS : list string :=
  [PRIORITY_LOW; PRIORITY_MEDIUM; PRIORITY_HIGH].

(** The [value]s of [COLUMN_COLORS]. *)
Definition COLUMN_COLORS : list string :=
  ["bg-gray-100"; "bg-blue-50"; "bg-green-50"; "bg-yellow-50";
   "bg-purple-50"; "bg-pink-50"; "bg-indigo-50"].

(** [Array.prototype.includes] on strings. *)
Definition includes (l : list string) (x : string) : bool :=
  existsb (String.eqb x) l.

(** ** Objects used as dictionaries *)

(** The property names of [Object.prototype] in a browser: a plain
    object inherits them, so [object[name]] finds a function there (for
    ['__proto__'] the prototype object itself) when the object has no
    own property of that name. *)
Definition OBJECT_PROTOTYPE_NAMES : list string :=
  ["constructor"; "hasOwnProperty"; "isPrototypeOf"; "propertyIsEnumerable";
   "toLocaleString"; "toString"; "valueOf"; "__proto__";
   "__defineGetter__"; "__defineSetter__"; "__lookupGetter__"; "__lookupSetter__"].

Definition is_prototype_name (k : string) : bool :=
  includes OBJECT_PROTOTYPE_NAMES k.

(** What [object[key]] gives: an own property, else the inherited member
    of that name, else [undefined].  An inherited member is a function or
    an object, so it is truthy, and it has none of the properties of a
    task or of a column. *)
Inductive property (A : Type) : Type :=
| Own (a : A)
| Inherited (name : string)
| Absent.
Arguments Own {A} a.
Arguments Inherited {A} name.
Arguments Absent {A}.

Definition dict_get {A} (m : gmap string A) (k : string) : property A :=
  match m !! k with
  | Some a => Own a
  | None => if is_prototype_name k then Inherited k else Absent
  end.

(** [Boolean(object[key])] *)
Definition is_defined {A} (p : property A) : bool :=
  match p with
  | Own _ | Inherited _ => true
  | Absent => false
  end.

(** ** JavaScript values

    What [JSON.parse] produces and what a caller can hand to
    [importBoardData].  Numbers are integers here; an object keeps its
    properties in insertion order. *)

#[warnings="-register-all"]
Inductive value : Type :=
| JUndefined
| JNull
| JBool (b : bool)
| JNum (n : Z)
| JStr (s : string)
| JArr (items : list value)
| JObj (props : list (string * value)).

(** [Boolean(v)], the test behind [!v]. *)
Definition truthy (v : value) : bool :=
  match v with
  | JUndefined | JNull => false
  | JBool b => b
  | JNum n => negb (n =? 0)
  | JStr s => truthy_str s
  | JArr _ | JObj _ => true
  end.

Fixpoint prop_lookup (k : string) (props : list (string * value)) : option value :=
  match props with
  | [] => None
  | (k', v) :: rest => if String.eqb k' k then Some v else prop_lookup k rest
  end.

(** [{ ...props, [k]: v }]: an existing property keeps its place. *)
Fixpoint prop_set (props : list (string * value)) (k : string) (v : value)
  : list (string * value) :=
  match props with
  | [] => [(k, v)]
  | (k', v') :: rest =>
      if String.eqb k' k then (k', v) :: rest else (k', v') :: prop_set rest k v
  end.

(** [v.k] for a property name [k] that no prototype defines ([data],
    [tasks], [columns], ...): reading from [undefined] or [null] throws,
    a primitive or an array has no such property. *)
Definition get (v : value) (k : string) : result value :=
  match v with
  | JUndefined => Throw (TypeError "Cannot read properties of undefined")
  | JNull => Throw (TypeError "Cannot read properties of null")
  | JObj props => Ok (default JUndefined (prop_lookup k props))
  | _ => Ok JUndefined
  end.

(** The own enumerable properties an object spread copies. *)
Definition own_props (v : value) : list (string * value) :=
  match v with
  | JObj props => props
  | _ => []
  end.

Definition is_array (v : value) : bool :=
  match v with
  | JArr _ => true
  | _ => false
  end.

(** *** Typed views of a value *)

Definition asString (v : value) : option string :=
  match v with
  | JStr s => Some s
  | _ => None
  end.

Definition asNumber (v : value) : option Z :=
  match v with
  | JNum n => Some n
  | _ => None
  end.

Definition asStrings (v : value) : option (list string) :=
  match v with
  | JArr items => mapM asString items
  | _ => None
  end.

Definition field (v : value) (k : string) : option value :=
  match v with
  | JObj props => prop_lookup k props
  | _ => None
  end.

(** An object whose every property value reads as an [A], as a dictionary. *)
Definition asDict {A} (f : value → option A) (v : value) : option (gmap string A) :=
  match v with
  | JObj props =>
      list_to_map <$> mapM (λ kv : string * value, (λ a, (kv.1, a)) <$> f kv.2) props
  | _ => None
  end.

(** ** utils/dateHelpers.js *)

Module dateHelpers.

(** [isOverdue(dueDate)] for a [dueDate] given as text, with [today] the
    instant [new Date()] returns. *)
Definition isOverdue `{JsDate} (dueDate : string) (today : Z) : bool :=
  if negb (truthy_str dueDate) then false
  else date_lt (start_of_day <$> date_parse dueDate) (start_of_day today).

End dateHelpers.

(** ** utils/idGenerator.js *)

Module idGenerator.

(** [generateId()], from [timestamp], the text of
    [Date.now().toString(36)], and [random], the text of
    [Math.random().toString(36).substr(2, 9)]. *)
Definition generateId (timestamp random : string) : string :=
  "id-" ++ timestamp ++ "-" ++ random.

Definition generateTaskId (timestamp random : string) : string :=
  "task-" ++ generateId timestamp random.

Definition generateColumnId (timestamp random : string) : string :=
  "column-" ++ generateId timestamp random.

End idGenerator.

(** ** types/task.js *)

Module TaskType.

(** The fields of a task; [toObject()] and [fromObject()] are the
    identity on this record. *)
Record t : Type := mk {
  id : string;
  title : string;
  description : string;
  priority : string;
  assignee : string;
  dueDate : string;
  createdAt : string;
  updatedAt : string
}.

(** The object handed to [update()]: a property is absent ([None]) or
    carries a new value. *)
Record updates : Type := mkUpdates {
  u_id : option string;
  u_title : option string;
  u_description : option string;
  u_priority : option string;
  u_assignee : option string;
  u_dueDate : option string;
  u_createdAt : option string
}.

(** [new TaskType()]: the defaults of the constructor. *)
Definition defaults (now : string) : t :=
  mk "" "" "" PRIORITY_MEDIUM "" "" now now.

(** [TaskType.fromObject(data)] of what a dictionary lookup gave: a
    stored task has every field, an inherited member has none of them. *)
Definition fromObject (data : property t) (now : string) : t :=
  match data with
  | Own x => x
  | Inherited _ | Absent => defaults now
  end.

Section WithDate.
Context `{JsDate}.

(** [validate().errors], in the order the checks push them. *)
Definition validate_errors (x : t) : list string :=
  (if negb (truthy_str (title x)) || (str_length (trim (title x)) =? 0)
   then ["Title is required"] else [])
  ++ (if truthy_str (title x) && (100 <? str_length (title x))
      then ["Title must be less than 100 characters"] else [])
  ++ (if truthy_str (description x) && (500 <? str_length (description x))
      then ["Description must be less than 500 characters"] else [])
  ++ (if truthy_str (priority x) && negb (includes PRIORITY_LEVELS (priority x))
      then ["Invalid priority level"] else [])
  ++ (if truthy_str (assignee x) && (50 <? str_length (assignee x))
      then ["Assignee name must be less than 50 characters"] else [])
  ++ (if truthy_str (dueDate x)
      then match date_parse (dueDate x) with
           | None => ["Invalid due date format"]
           | Some _ => []
           end
      else []).

(** [validate().isValid] *)
Definition isValid (x : t) : bool :=
  match validate_errors x with
  | [] => true
  | _ :: _ => false
  end.

(** [update(updates)]: merge, stamp [updatedAt], validate again. *)
Definition update (x : t) (u : updates) (now : string) : result t :=
  let updatedTask :=
    mk (default (id x) (u_id u))
       (default (title x) (u_title u))
       (default (description x) (u_description u))
       (default (priority x) (u_priority u))
       (default (assignee x) (u_assignee u))
       (default (dueDate x) (u_dueDate u))
       (default (createdAt x) (u_createdAt u))
       now in
  if isValid updatedTask then Ok updatedTask
  else Throw (InvalidTaskData (validate_errors updatedTask)).

(** [isOverdue()], with [today] the instant [new Date()] returns. *)
Definition isOverdue (x : t) (today : Z) : bool :=
  if negb (truthy_str (dueDate x)) then false
  else date_lt (start_of_day <$> date_parse (dueDate x)) (start_of_day today).

End WithDate.

End TaskType.

Module TaskFactory.

(** The form data of a task.  [f_id] is the [id] property [addTask]
    adds to it. *)
Record formData : Type := mkForm {
  f_id : option string;
  f_title : option string;
  f_description : option string;
  f_priority : option string;
  f_assignee : option string;
  f_dueDate : option string
}.

(** [{ ...taskData, id }] *)
Definition with_id (d : formData) (i : string) : formData :=
  mkForm (Some i) (f_title d) (f_description d) (f_priority d)
         (f_assignee d) (f_dueDate d).

(** [createFromForm(formData)].  The object literal it hands to the
    constructor has the five properties below and no other, so [id]
    takes the constructor's default [''] and both time stamps
    [new Date().toISOString()]. *)
Definition createFromForm (d : formData) (now : string) : TaskType.t :=
  TaskType.mk ""
              (or_default (f_title d) "")
              (or_default (f_description d) "")
              (or_default (f_priority d) PRIORITY_MEDIUM)
              (or_default (f_assignee d) "")
              (or_default (f_dueDate d) "")
              now now.

End TaskFactory.

(** ** types/column.js *)

(** The index at which [Array.prototype.splice(start, ...)] operates on an
    array of length [len]: a negative [start] counts from the end. *)
Definition splice_start (len start : Z) : Z :=
  if start <? 0 then Z.max (len + start) 0 else Z.min start len.

(** [a.splice(start, 0, x)] *)
Definition splice_insert (l : list string) (start : Z) (x : string) : list string :=
  let k := Z.to_nat (splice_start (Z.of_nat (length l)) start) in
  take k l ++ x :: drop k l.

(** [a.indexOf(x)], [None] for [-1]. *)
Fixpoint indexOf (l : list string) (x : string) : option nat :=
  match l with
  | [] => None
  | y :: rest => if String.eqb y x then Some 0%nat else S <$> indexOf rest x
  end.

(** [a.filter(id => id !== x)] *)
Definition without (l : list string) (x : string) : list string :=
  List.filter (λ y, negb (String.eqb y x)) l.

Module ColumnType.

Record t : Type := mk {
  id : string;
  title : string;
  color : string;
  taskIds : list string;
  createdAt : string;
  updatedAt : string;
  order : Z
}.

Record updates : Type := mkUpdates {
  u_id : option string;
  u_title : option string;
  u_color : option string;
  u_taskIds : option (list string);
  u_createdAt : option string;
  u_order : option Z
}.

(** [new ColumnType()]: the defaults of the constructor. *)
Definition defaults (now : string) : t :=
  mk "" "" "bg-gray-100" [] now now 0.

(** [ColumnType.fromObject(data)] of what a dictionary lookup gave. *)
Definition fromObject (data : property t) (now : string) : t :=
  match data with
  | Own x => x
  | Inherited _ | Absent => defaults now
  end.

(** [validate().errors].  [taskIds] is an array by construction, so the
    [Array.isArray] check never pushes. *)
Definition validate_errors (x : t) : list string :=
  (if negb (truthy_str (title x)) || (str_length (trim (title x)) =? 0)
   then ["Title is required"] else [])
  ++ (if truthy_str (title x) && (50 <? str_length (title x))
      then ["Title must be less than 50 characters"] else [])
  ++ (if truthy_str (color x) && negb (includes COLUMN_COLORS (color x))
      then ["Invalid column color"] else [])
  ++ (if 100 <? Z.of_nat (length (taskIds x))
      then ["Column cannot contain more than 100 tasks"] else []).

Definition isValid (x : t) : bool :=
  match validate_errors x with
  | [] => true
  | _ :: _ => false
  end.

Definition update (x : t) (u : updates) (now : string) : result t :=
  let updatedColumn :=
    mk (default (id x) (u_id u))
       (default (title x) (u_title u))
       (default (color x) (u_color u))
       (default (taskIds x) (u_taskIds u))
       (default (createdAt x) (u_createdAt u))
       now
       (default (order x) (u_order u)) in
  if isValid updatedColumn then Ok updatedColumn
  else Throw (InvalidColumnData (validate_errors updatedColumn)).

(** [moveTask(taskId, newIndex)]: move a task within the column. *)
Definition moveTask (x : t) (taskId : string) (newIndex : Z) (now : string)
  : result t :=
  if negb (includes (taskIds x) taskId) then Throw TaskNotInColumn
  else
    match indexOf (taskIds x) taskId with
    | None => Throw TaskNotInColumn
    | Some currentIndex =>
        let removed := delete currentIndex (taskIds x) in
        let newTaskIds := splice_insert removed newIndex taskId in
        update x (mkUpdates None None None (Some newTaskIds) None None) now
    end.

End ColumnType.

Module ColumnFactory.

(** The form data of a column, with the [id] and [order] properties
    [addColumn] adds to it. *)
Record formData : Type := mkForm {
  f_id : option string;
  f_order : option Z;
  f_title : option string;
  f_color : option string
}.

(** [{ ...columnData, id, order }] *)
Definition with_id_order (d : formData) (i : string) (o : Z) : formData :=
  mkForm (Some i) (Some o) (f_title d) (f_color d).

(** [createFromForm(formData)]: the constructor receives [title] and
    [color] only; [id], [taskIds] and [order] take its defaults [''],
    [[]] and [0]. *)
Definition createFromForm (d : formData) (now : string) : ColumnType.t :=
  ColumnType.mk ""
                (or_default (f_title d) "")
                (or_default (f_color d) "bg-gray-100")
                []
                now now
                0.

End ColumnFactory.

(** ** hooks/useKanban.js: the board store *)

Module useKanban.

Record Board : Type := mkBoard {
  tasks : gmap string TaskType.t;
  columns : gmap string ColumnType.t;
  columnOrder : list string;
  lastModified : string
}.

(** The board of a store with nothing persisted. *)
Definition emptyBoard (now : string) : Board := mkBoard ∅ ∅ [] now.

Definition set_lastModified (b : Board) (now : string) : Board :=
  mkBoard (tasks b) (columns b) (columnOrder b) now.

Definition set_taskIds (c : ColumnType.t) (ids : list string) (now : string)
  : ColumnType.t :=
  ColumnType.mk (ColumnType.id c) (ColumnType.title c) (ColumnType.color c)
                ids (ColumnType.createdAt c) now (ColumnType.order c).

(** [updateBoardData(updater)]: the state becomes the updater's result
    with [lastModified] stamped; an updater that throws leaves it. *)
Definition updateBoardData (updater : Board → result Board) (now : string)
    (prevData : Board) : result Board :=
  newData ← updater prevData;
  Ok (set_lastModified newData now).

(** [Object.entries(columns)] lists the columns in the order the object
    holds them (the order of insertion), which a [gmap] does not record.
    The operations that iterate receive that list as [entries];
    [enumerates entries cols] says that it lists every column once. *)
Definition enumerates (entries : list (string * ColumnType.t))
    (cols : gmap string ColumnType.t) : Prop :=
  entries ≡ₚ map_to_list cols.

(** The loop over [Object.entries(prevData.columns)] that looks for the
    first column whose [taskIds] include the task. *)
Definition findSourceColumn (entries : list (string * ColumnType.t)) (taskId : string)
  : option string :=
  fst <$> List.find (λ e, includes (ColumnType.taskIds (snd e)) taskId) entries.

Section WithDate.
Context `{JsDate}.

(** [addTask(columnId, taskData)].  When [columns[columnId]] is an
    inherited member, the test [!column] passes and the spread of its
    missing [taskIds] raises a [TypeError]. *)
Definition addTask (columnId : string) (taskData : TaskFactory.formData)
    (taskId : string) (now : string) (prevData : Board) : result Board :=
  let task := TaskFactory.createFromForm (TaskFactory.with_id taskData taskId) now in
  if negb (TaskType.isValid task)
  then Throw (ValidationFailed (TaskType.validate_errors task))
  else
    updateBoardData (λ prevData,
      match dict_get (columns prevData) columnId with
      | Absent => Throw (ColumnNotFound columnId)
      | Inherited _ => Throw (TypeError "column.taskIds is not iterable")
      | Own column =>
          Ok (mkBoard (<[taskId := task]> (tasks prevData))
                      (<[columnId :=
                           set_taskIds column (ColumnType.taskIds column ++ [taskId]) now]>
                         (columns prevData))
                      (columnOrder prevData)
                      (lastModified prevData))
      end) now prevData.

(** [updateTask(taskId, updates)].  When [tasks[taskId]] is an inherited
    member, [TaskType.fromObject] makes a task of the constructor's
    defaults from it, and the updated task is stored under [taskId]. *)
Definition updateTask (taskId : string) (updates : TaskType.updates)
    (now : string) (prevData : Board) : result Board :=
  updateBoardData (λ prevData,
    match dict_get (tasks prevData) taskId with
    | Absent => Throw (TaskNotFound taskId)
    | existingTask =>
        updatedTask ← TaskType.update (TaskType.fromObject existingTask now) updates now;
        Ok (mkBoard (<[taskId := updatedTask]> (tasks prevData))
                    (columns prevData)
                    (columnOrder prevData)
                    (lastModified prevData))
    end) now prevData.

End WithDate.

(** [confirmed] is the answer of [window.confirm]. *)
Definition deleteTask (confirmed : bool) (entries : list (string * ColumnType.t))
    (taskId : string) (now : string) (prevData : Board) : result Board :=
  if negb confirmed then Ok prevData
  else
    updateBoardData (λ prevData,
      match findSourceColumn entries taskId with
      | None => Throw (TaskNotInAnyColumn taskId)
      | Some sourceColumnId =>
          if negb (truthy_str sourceColumnId) then Throw (TaskNotInAnyColumn taskId)
          else
            match columns prevData !! sourceColumnId with
            | None => Throw (TypeError "sourceColumn is undefined")
            | Some sourceColumn =>
                let newTaskIds := without (ColumnType.taskIds sourceColumn) taskId in
                Ok (mkBoard (delete taskId (tasks prevData))
                            (<[sourceColumnId := set_taskIds sourceColumn newTaskIds now]>
                               (columns prevData))
                            (columnOrder prevData)
                            (lastModified prevData))
            end
      end) now prevData.

(** [moveTask(taskId, targetColumnId)].  When [columns[targetColumnId]]
    is an inherited member, the test [!targetColumn] passes and the
    spread of its missing [taskIds] raises a [TypeError]. *)
Definition moveTask (entries : list (string * ColumnType.t))
    (taskId targetColumnId : string) (now : string) (prevData : Board) : result Board :=
  updateBoardData (λ prevData,
    match findSourceColumn entries taskId with
    | None => Throw (TaskNotFound taskId)
    | Some sourceColumnId =>
        if negb (truthy_str sourceColumnId) then Throw (TaskNotFound taskId)
        else if String.eqb sourceColumnId targetColumnId then Ok prevData
        else
          match columns prevData !! sourceColumnId,
                dict_get (columns prevData) targetColumnId with
          | _, Absent => Throw (TargetColumnNotFound targetColumnId)
          | None, _ => Throw (TypeError "sourceColumn is undefined")
          | Some _, Inherited _ => Throw (TypeError "targetColumn.taskIds is not iterable")
          | Some sourceColumn, Own targetColumn =>
              let newSourceTaskIds := without (ColumnType.taskIds sourceColumn) taskId in
              let newTargetTaskIds := (ColumnType.taskIds targetColumn ++ [taskId])%list in
              Ok (mkBoard (tasks prevData)
                          (<[targetColumnId := set_taskIds targetColumn newTargetTaskIds now]>
                             (<[sourceColumnId := set_taskIds sourceColumn newSourceTaskIds now]>
                                (columns prevData)))
                          (columnOrder prevData)
                          (lastModified prevData))
          end
    end) now prevData.

Definition addColumn (columnData : ColumnFactory.formData) (columnId : string)
    (now : string) (boardData : Board) : result Board :=
  let column :=
    ColumnFactory.createFromForm
      (ColumnFactory.with_id_order columnData columnId
         (Z.of_nat (length (columnOrder boardData)))) now in
  if negb (ColumnType.isValid column)
  then Throw (ValidationFailed (ColumnType.validate_errors column))
  else
    updateBoardData (λ prevData,
      Ok (mkBoard (tasks prevData)
                  (<[columnId := column]> (columns prevData))
                  (columnOrder prevData ++ [columnId])
                  (lastModified prevData))) now boardData.

(** [updateColumn(columnId, updates)]; an inherited member is treated as
    in [updateTask]. *)
Definition updateColumn (columnId : string) (updates : ColumnType.updates)
    (now : string) (prevData : Board) : result Board :=
  updateBoardData (λ prevData,
    match dict_get (columns prevData) columnId with
    | Absent => Throw (ColumnNotFound columnId)
    | existingColumn =>
        updatedColumn ← ColumnType.update (ColumnType.fromObject existingColumn now)
                                           updates now;
        Ok (mkBoard (tasks prevData)
                    (<[columnId := updatedColumn]> (columns prevData))
                    (columnOrder prevData)
                    (lastModified prevData))
    end) now prevData.

(** [column.taskIds?.forEach(taskId => { delete newTasks[taskId] })] *)
Definition delete_all (ids : list string) (m : gmap string TaskType.t)
  : gmap string TaskType.t :=
  fold_left (λ acc taskId, delete taskId acc) ids m.

(** [column.taskIds] of what the lookup gave; an inherited member has no
    [taskIds], and [column.taskIds?.forEach] then does nothing. *)
Definition listed_taskIds (column : property ColumnType.t) : list string :=
  match column with
  | Own c => ColumnType.taskIds c
  | Inherited _ | Absent => []
  end.

(** [deleteColumn(columnId)].  When [columns[columnId]] is an inherited
    member, the test [!column] passes, no task is removed and
    [delete newColumns[columnId]] finds no own property. *)
Definition deleteColumn (confirmed : bool) (columnId : string) (now : string)
    (boardData : Board) : result Board :=
  match dict_get (columns boardData) columnId with
  | Absent => Throw (ColumnNotFound columnId)
  | column =>
      if negb confirmed then Ok boardData
      else
        updateBoardData (λ prevData,
          Ok (mkBoard (delete_all (listed_taskIds column) (tasks prevData))
                      (delete columnId (columns prevData))
                      (without (columnOrder prevData) columnId)
                      (lastModified prevData))) now boardData
  end.

Definition reorderColumns (newColumnOrder : list string) (now : string)
    (prevData : Board) : result Board :=
  updateBoardData (λ prevData,
    Ok (mkBoard (tasks prevData) (columns prevData) newColumnOrder
                (lastModified prevData))) now prevData.

Definition clearBoard (confirmed : bool) (now : string) (prevData : Board)
  : result Board :=
  if negb confirmed then Ok prevData
  else updateBoardData (λ _, Ok (mkBoard ∅ ∅ [] now)) now prevData.

(** [getTasksForColumn(columnId)]: [map] to what [tasks[taskId]] gives,
    then [filter(Boolean)]; a task object is truthy, and so is an
    inherited member. *)
Definition getTasksForColumn (boardData : Board) (columnId : string)
  : list (property TaskType.t) :=
  match dict_get (columns boardData) columnId with
  | Absent => []
  | column =>
      let mapped := map (dict_get (tasks boardData)) (listed_taskIds column) in
      List.filter is_defined mapped
  end.

(** *** Statistics *)

(** A value of [tasksByPriority]: a count, or, under the name of an
    inherited member, the text of that member followed by as many
    characters ['1'] as there were tasks (the sum [member + 1] is a
    string concatenation). *)
Inductive tally : Type :=
| Count (n : Z)
| MemberText (name : string) (ones : nat).

Record BoardStats : Type := mkStats {
  totalTasks : nat;
  totalColumns : nat;
  tasksByPriority : gmap string tally;
  overdueTasks : nat;
  stats_lastModified : string
}.

(** [acc[task.priority] = (acc[task.priority] || 0) + 1] on an
    accumulator that started as [{}].  The assignment to ['__proto__']
    goes to the setter of [Object.prototype], which ignores a string, so
    it leaves no property. *)
Definition count_task (acc : gmap string tally) (priority : string) : gmap string tally :=
  match acc !! priority with
  | Some (Count n) => <[priority := Count (n + 1)]> acc
  | Some (MemberText name ones) => <[priority := MemberText name (S ones)]> acc
  | None =>
      if String.eqb priority "__proto__" then acc
      else if is_prototype_name priority then <[priority := MemberText priority 1]> acc
      else <[priority := Count 1]> acc
  end.

(** [Object.values(boardData.tasks)], in the order of the keys; the
    statistics count and do not depend on the order. *)
Definition task_values (boardData : Board) : list TaskType.t :=
  snd <$> map_to_list (tasks boardData).

Section WithDate.
Context `{JsDate}.

(** The predicate [getBoardStats] filters with: the due date against
    the present instant [new Date()]. *)
Definition stats_overdue (today : Z) (task : TaskType.t) : bool :=
  if negb (truthy_str (TaskType.dueDate task)) then false
  else date_lt (date_parse (TaskType.dueDate task)) today.

Definition getBoardStats (boardData : Board) (today : Z) : BoardStats :=
  mkStats
    (size (tasks boardData))
    (size (columns boardData))
    (fold_left (λ acc task, count_task acc (TaskType.priority task))
               (task_values boardData) ∅)
    (length (List.filter (stats_overdue today) (task_values boardData)))
    (lastModified boardData).

End WithDate.

(** *** Import *)

(** [{ ...data, lastModified: new Date().toISOString() }] on a raw object. *)
Definition stamp (data : value) (now : string) : value :=
  JObj (prop_set (own_props data) "lastModified" (JStr now)).

(** [importBoardData(importData)].  The new state is the spread of
    [importData] with [lastModified] stamped (once by the updater, once
    by [updateBoardData]), whatever its properties are; it is returned
    as the raw object. *)
Definition importBoardData (importData : value) (now : string) : result value :=
  if negb (truthy importData) then Throw InvalidImportStructure
  else
    importTasks ← get importData "tasks";
    if negb (truthy importTasks) then Throw InvalidImportStructure
    else
      importColumns ← get importData "columns";
      if negb (truthy importColumns) then Throw InvalidImportStructure
      else
        Ok (stamp (stamp importData now) now).

(** The typed reading of a board object. *)
Definition asTask (v : value) : option TaskType.t :=
  i ← field v "id" ≫= asString;
  t ← field v "title" ≫= asString;
  d ← field v "description" ≫= asString;
  p ← field v "priority" ≫= asString;
  a ← field v "assignee" ≫= asString;
  due ← field v "dueDate" ≫= asString;
  c ← field v "createdAt" ≫= asString;
  u ← field v "updatedAt" ≫= asString;
  Some (TaskType.mk i t d p a due c u).

Definition asColumn (v : value) : option ColumnType.t :=
  i ← field v "id" ≫= asString;
  t ← field v "title" ≫= asString;
  col ← field v "color" ≫= asString;
  ids ← field v "taskIds" ≫= asStrings;
  c ← field v "createdAt" ≫= asString;
  u ← field v "updatedAt" ≫= asString;
  o ← field v "order" ≫= asNumber;
  Some (ColumnType.mk i t col ids c u o).

Definition asBoard (v : value) : option Board :=
  ts ← field v "tasks" ≫= asDict asTask;
  cs ← field v "columns" ≫= asDict asColumn;
  co ← field v "columnOrder" ≫= asStrings;
  lm ← field v "lastModified" ≫= asString;
  Some (mkBoard ts cs co lm).

(** The state after an operation: the new state when it returned, the
    previous one when it threw. *)
Definition commit {S} (prevData : S) (r : result S) : S :=
  match r with
  | Ok newData => newData
  | Throw _ => prevData
  end.

End useKanban.

(** ** services/storage.js *)

(** [JSON.parse]: the parsed value, or the message of the [SyntaxError]. *)
Class JsJSON : Type := {
  JSON_parse : string → string + value
}.

Module StorageService.

(** [loadBoardData()], from what [this.load(key)] returned ([null] when
    nothing is stored or the stored text does not parse). *)
Definition loadBoardData (data : value) : value :=
  if negb (truthy data) then JNull
  else
    match get data "tasks", get data "columns", get data "columnOrder" with
    | Ok t, Ok c, Ok co =>
        if negb (truthy t) || negb (truthy c) || negb (is_array co) then JNull
        else data
    | _, _, _ => JNull
    end.

End StorageService.

Module ImportExportService.

(** The two shapes [importFromJSON] returns:
    [{ success: false, error }] and
    [{ success: true, data, version, exportedAt }]. *)
Inductive importResult : Type :=
| Failure (error : string)
| Success (data version exportedAt : value).

Definition success (r : importResult) : bool :=
  match r with
  | Failure _ => false
  | Success _ _ _ => true
  end.

Section WithJSON.
Context `{JsJSON}.

(** The body of the [try] block. *)
Definition importFromJSON_try (jsonString : string) : result importResult :=
  importData ← match JSON_parse jsonString with
               | inl msg => Throw (SyntaxError msg)
               | inr v => Ok v
               end;
  data ← get importData "data";
  if negb (truthy data)
  then Ok (Failure "Invalid file format: Missing required data structure")
  else
    dataTasks ← get data "tasks";
    if negb (truthy dataTasks)
    then Ok (Failure "Invalid file format: Missing required data structure")
    else
      dataColumns ← get data "columns";
      if negb (truthy dataColumns)
      then Ok (Failure "Invalid file format: Missing required data structure")
      else
        version ← get importData "version";
        exportedAt ← get importData "exportedAt";
        Ok (Success data version exportedAt).

(** [importFromJSON(jsonString)]: the [catch] turns a thrown error
    into a failure result. *)
Definition importFromJSON (jsonString : string) : importResult :=
  match importFromJSON_try jsonString with
  | Ok r => r
  | Throw e => Failure ("Invalid JSON format: " ++ message e)
  end.

End WithJSON.

End ImportExportService.

(** ** A concrete runtime for closed examples

    Local time is UTC and [new Date(text)] reads the date-only form
    [YYYY-MM-DD] (what a date input produces) as midnight UTC of that
    day; any other text is an invalid date in this instance. *)

Definition MS_PER_DAY : Z := 86400000.

Definition digit (a : ascii) : option Z :=
  let n := Z.of_nat (nat_of_ascii a) in
  if (48 <=? n) && (n <=? 57) then Some (n - 48) else None.

Fixpoint digits (s : string) (acc : Z) : option Z :=
  match s with
  | EmptyString => Some acc
  | String a rest =>
      match digit a with
      | Some d => digits rest (10 * acc + d)
      | None => None
      end
  end.

Definition is_leap_year (y : Z) : bool :=
  ((y mod 4 =? 0) && negb (y mod 100 =? 0)) || (y mod 400 =? 0).

Definition days_in_month (y m : Z) : Z :=
  if m =? 2 then (if is_leap_year y then 29 else 28)
  else if (m =? 4) || (m =? 6) || (m =? 9) || (m =? 11) then 30
  else 31.

(** Days between 1970-01-01 and the civil date [y]-[m]-[d]. *)
Definition days_from_civil (y m d : Z) : Z :=
  let y' := if m <=? 2 then y - 1 else y in
  let era := y' / 400 in
  let yoe := y' - era * 400 in
  let mp := if 2 <? m then m - 3 else m + 9 in
  let doy := (153 * mp + 2) / 5 + d - 1 in
  let doe := yoe * 365 + yoe / 4 - yoe / 100 + doy in
  era * 146097 + doe - 719468.

Definition parse_iso_date (s : string) : option Z :=
  if negb (Nat.eqb (String.length s) 10) then None
  else
    match digits (substring 0 4 s) 0, String.get 4 s,
          digits (substring 5 2 s) 0, String.get 7 s,
          digits (substring 8 2 s) 0 with
    | Some y, Some "-"%char, Some m, Some "-"%char, Some d =>
        if (1 <=? m) && (m <=? 12) && (1 <=? d) && (d <=? days_in_month y m)
        then Some (days_from_civil y m d * MS_PER_DAY)
        else None
    | _, _, _, _, _ => None
    end.

Definition utc_runtime : JsDate :=
  {| date_parse := parse_iso_date;
     start_of_day := λ t, t - t mod MS_PER_DAY |}.

(** ** Reachable boards *)

Import useKanban.

(** A call of one of the store's operations, with what the environment
    contributes to it (generated identifier, confirmation, clock). *)
Inductive operation : Type :=
| AddTask (columnId : string) (taskData : TaskFactory.formData)
          (generatedId : string) (now : string)
| UpdateTask (taskId : string) (updates : TaskType.updates) (now : string)
| DeleteTask (confirmed : bool) (taskId : string) (now : string)
| MoveTask (taskId targetColumnId : string) (now : string)
| AddColumn (columnData : ColumnFactory.formData) (generatedId : string) (now : string)
| UpdateColumn (columnId : string) (updates : ColumnType.updates) (now : string)
| DeleteColumn (confirmed : bool) (columnId : string) (now : string)
| ReorderColumns (newColumnOrder : list string) (now : string)
| Clear (confirmed : bool) (now : string)
| ImportSnapshot (importData : value) (now : string).

(** An identifier the store has not used. *)
Definition fresh_id (b : Board) (i : string) : Prop :=
  tasks b !! i = None ∧ columns b !! i = None ∧ (i ∉ columnOrder b) ∧
  (∀ c col, columns b !! c = Some col → i ∉ (ColumnType.taskIds col)).

(** The identifier of a new task or column comes from the generator
    and is unused. *)
Definition generates_fresh (o : operation) (b : Board) : Prop :=
  match o with
  | AddTask _ _ i _ =>
      (∃ timestamp random, i = idGenerator.generateTaskId timestamp random) ∧ fresh_id b i
  | AddColumn _ i _ =>
      (∃ timestamp random, i = idGenerator.generateColumnId timestamp random) ∧ fresh_id b i
  | _ => True
  end.

(** The claimed invariant of a board. *)
Definition columnOrder_matches_columns (b : Board) : Prop :=
  NoDup (columnOrder b) ∧ ∀ c, c ∈ columnOrder b ↔ is_Some (columns b !! c).

Definition owns (b : Board) (c t : string) : Prop :=
  ∃ col, columns b !! c = Some col ∧ t ∈ ColumnType.taskIds col.

Definition every_task_in_one_column (b : Board) : Prop :=
  ∀ t, is_Some (tasks b !! t) → ∃ c, owns b c t ∧ ∀ c', owns b c' t → c' = c.

Definition board_invariant (b : Board) : Prop :=
  columnOrder_matches_columns b ∧ every_task_in_one_column b.

Section Reachability.
Context `{JsDate}.

(** [performs o b b']: operation [o] on state [b] returns and leaves
    state [b'].  The operations that iterate over the columns may meet
    them in any order.  An import leaves the object it built, read as a
    board. *)
Definition performs (o : operation) (b b' : Board) : Prop :=
  match o with
  | AddTask c d i now => addTask c d i now b = Ok b'
  | UpdateTask t u now => updateTask t u now b = Ok b'
  | DeleteTask confirmed t now =>
      ∃ entries, enumerates entries (columns b) ∧
                 deleteTask confirmed entries t now b = Ok b'
  | MoveTask t c now =>
      ∃ entries, enumerates entries (columns b) ∧ moveTask entries t c now b = Ok b'
  | AddColumn d i now => addColumn d i now b = Ok b'
  | UpdateColumn c u now => updateColumn c u now b = Ok b'
  | DeleteColumn confirmed c now => deleteColumn confirmed c now b = Ok b'
  | ReorderColumns newOrder now => reorderColumns newOrder now b = Ok b'
  | Clear confirmed now => clearBoard confirmed now b = Ok b'
  | ImportSnapshot data now =>
      ∃ v, importBoardData data now = Ok v ∧ asBoard v = Some b'
  end.

Inductive reachable : Board → Prop :=
| reachable_empty now : reachable (emptyBoard now)
| reachable_step o b b' :
    reachable b → generates_fresh o b → performs o b b' → reachable b'.

(** What the store does not check and the invariant needs of a call:
    [updateTask] and [updateColumn] are given an identifier that is not
    the name of a member of [Object.prototype]; the patch of
    [updateColumn], if it carries [taskIds], lists the identifiers the
    column lists (as the patch [{ ...column, title }] of the column
    component does); [reorderColumns] is given a permutation of the
    present order; [importBoardData] is given a board that satisfies the
    invariant. *)
Definition respects_invariant (o : operation) (b : Board) : Prop :=
  match o with
  | UpdateTask t _ _ => is_prototype_name t = false
  | UpdateColumn c u _ =>
      is_prototype_name c = false ∧
      ∀ ids col, ColumnType.u_taskIds u = Some ids → columns b !! c = Some col →
                 ∀ t, t ∈ ids ↔ t ∈ ColumnType.taskIds col
  | ReorderColumns newOrder _ => newOrder ≡ₚ (columnOrder b)
  | ImportSnapshot data _ => ∃ d, asBoard data = Some d ∧ board_invariant d
  | _ => True
  end.

Inductive reachable_checked : Board → Prop :=
| reachable_checked_empty now : reachable_checked (emptyBoard now)
| reachable_checked_step o b b' :
    reachable_checked b → generates_fresh o b → respects_invariant o b →
    performs o b b' → reachable_checked b'.

End Reachability.

(** ** components/KanbanBoard/index.jsx: the import handler *)

Section ImportHandler.
Context `{JsJSON}.

(** The [reader.onload] callback of [handleImport], on the raw state:
    a failed import only alerts; a successful one asks for
    confirmation and calls [importBoardData], whose error the
    surrounding [try] catches. *)
Definition handleImport (text : string) (confirmed : bool) (now : string)
    (boardData : value) : value :=
  match ImportExportService.importFromJSON text with
  | ImportExportService.Success data _ _ =>
      if confirmed then commit boardData (importBoardData data now) else boardData
  | ImportExportService.Failure _ => boardData
  end.

End ImportHandler.

(** ** The specification's wording of some checks *)

(** The structural check on import data as the store performs it: an
    object whose [tasks] and [columns] properties are truthy. *)
Definition has_tasks_and_columns (data : value) : bool :=
  match field data "tasks", field data "columns" with
  | Some t, Some c => truthy t && truthy c
  | _, _ => false
  end.

(** [columnOrder] is present and an array. *)
Definition has_columnOrder_array (data : value) : bool :=
  match field data "columnOrder" with
  | Some (JArr _) => true
  | _ => false
  end.

(** The three properties present with the types of a board: [tasks] and
    [columns] objects, [columnOrder] an array. *)
Definition well_typed_snapshot (data : value) : bool :=
  match field data "tasks", field data "columns", field data "columnOrder" with
  | Some (JObj _), Some (JObj _), Some (JArr _) => true
  | _, _, _ => false
  end.

(** The [data] field of an envelope when it contains both [tasks] and
    [columns]; a property holding a falsy value counts as missing. *)
Definition board_data_of (envelope : value) : option value :=
  data ← field envelope "data";
  if has_tasks_and_columns data then Some data else None.

(** Reinsertion at [newIndex] clamped into [[0, length]]. *)
Definition reinsert_clamped (rest : list string) (newIndex : Z) (taskId : string)
  : list string :=
  let k := Z.to_nat (Z.max 0 (Z.min newIndex (Z.of_nat (length rest)))) in
  take k rest ++ taskId :: drop k rest.

(** The number of tasks for which [isOverdue()] is true. *)
Definition count_isOverdue `{JsDate} (b : Board) (today : Z) : nat :=
  length (List.filter (λ task, TaskType.isOverdue task today) (task_values b)).

(** ** Sample data *)

Definition column_1 : string := idGenerator.generateColumnId "mhj4x1zz" "p0o9i8u7y".
Definition column_2 : string := idGenerator.generateColumnId "mhj4x5b3" "w2e4r6t8y".
Definition task_1 : string := idGenerator.generateTaskId "mhj4x2a0" "k3f9q1z7b".

Definition todo_form : ColumnFactory.formData :=
  ColumnFactory.mkForm None None (Some "To Do") (Some "bg-gray-100").

Definition doing_form : ColumnFactory.formData :=
  ColumnFactory.mkForm None None (Some "Doing") (Some "bg-blue-50").

Definition write_spec_form : TaskFactory.formData :=
  TaskFactory.mkForm None (Some "Write spec") None None None None.

Definition todo_column (ids : list string) (updated : string) : ColumnType.t :=
  ColumnType.mk "" "To Do" "bg-gray-100" ids "t1" updated 0.

(** The empty board after [addColumn(todo_form)] at ["t1"]. *)
Definition board_todo : Board :=
  mkBoard ∅ {[ column_1 := todo_column [] "t1" ]} [column_1] "t1".

(** [board_todo] after [addTask(column_1, write_spec_form)] at ["t2"]. *)
Definition board_one_task : Board :=
  mkBoard {[ task_1 := TaskType.mk "" "Write spec" "" "medium" "" "" "t2" "t2" ]}
          {[ column_1 := todo_column [task_1] "t2" ]}
          [column_1] "t2".

(** [board_one_task] with a column that also lists an identifier
    ["constructor"], under which there is no task. *)
Definition board_dangling_constructor : Board :=
  mkBoard {[ task_1 := TaskType.mk "" "Write spec" "" "medium" "" "" "t2" "t2" ]}
          {[ column_1 := todo_column ["constructor"; task_1] "t2" ]}
          [column_1] "t2".

(** A board whose [columnOrder] names a column that does not exist. *)
Definition board_ghost_order : Board := mkBoard ∅ ∅ ["ghost"] "t1".

(** A board with one task, due on 2026-11-03. *)
Definition task_due_2026_11_03 : TaskType.t :=
  TaskType.mk "" "Write spec" "" "medium" "" "2026-11-03" "t2" "t2".

Definition board_due_today : Board :=
  mkBoard {[ task_1 := task_due_2026_11_03 ]}
          {[ column_1 := todo_column [task_1] "t2" ]}
          [column_1] "t2".

(** 2026-11-03T00:00:00.000Z and 2026-11-03T12:00:00.000Z *)
Definition midnight_2026_11_03 : Z := days_from_civil 2026 11 3 * MS_PER_DAY.
Definition noon_2026_11_03 : Z := midnight_2026_11_03 + 12 * 3600 * 1000.

Definition column_abc : ColumnType.t :=
  ColumnType.mk column_1 "To Do" "bg-gray-100" ["a"; "b"; "c"] "t0" "t0" 0.

(** Import data whose [tasks] is a number. *)
Definition data_numeric_tasks : value :=
  JObj [("tasks", JNum 1); ("columns", JObj []); ("columnOrder", JArr [])].

(** Import data without [columnOrder]. *)
Definition data_no_columnOrder : value :=
  JObj [("tasks", JObj []); ("columns", JObj [])].

(** A well-typed board object whose order names a missing column. *)
Definition data_ghost_order : value :=
  JObj [("tasks", JObj []); ("columns", JObj []);
        ("columnOrder", JArr [JStr "ghost"]); ("lastModified", JStr "t0")].

(** * The rest of the code *)

(** ** Outcomes *)

(** A call that can also throw an [Error] the store's operations do not
    throw, given by its text. *)
Inductive outcome (A : Type) : Type :=
| Returns (a : A)
| Raises (e : error)
| RaisesText (text : string).
Arguments Returns {A} a.
Arguments Raises {A} e.
Arguments RaisesText {A} text.

Definition outcome_of {A} (r : result A) : outcome A :=
  match r with
  | Ok a => Returns a
  | Throw e => Raises e
  end.

(** ** types/column.js: [addTask], [removeTask] and the default columns *)

(** [ColumnType.addTask(taskId)] *)
Definition ColumnType_addTask (x : ColumnType.t) (taskId : string) (now : string)
  : outcome ColumnType.t :=
  if negb (truthy_str taskId) then RaisesText "Task ID must be a valid string"
  else if includes (ColumnType.taskIds x) taskId then Returns x
  else
    outcome_of
      (ColumnType.update x
         (ColumnType.mkUpdates None None None
            (Some (ColumnType.taskIds x ++ [taskId])%list) None None) now).

(** [ColumnType.removeTask(taskId)] *)
Definition ColumnType_removeTask (x : ColumnType.t) (taskId : string) (now : string)
  : result ColumnType.t :=
  ColumnType.update x
    (ColumnType.mkUpdates None None None
       (Some (without (ColumnType.taskIds x) taskId)) None None) now.

(** [new ColumnType({ title, color })] *)
Definition ColumnType_titled (title color : string) (now : string) : ColumnType.t :=
  ColumnType.mk "" title color [] now now 0.

(** [ColumnFactory.createDefaultSet()] *)
Definition ColumnFactory_createDefaultSet (now : string) : list ColumnType.t :=
  [ColumnType_titled "To Do" "bg-slate-100" now;
   ColumnType_titled "In Progress" "bg-blue-50" now;
   ColumnType_titled "Review" "bg-yellow-50" now;
   ColumnType_titled "Done" "bg-green-50" now].

(** ** utils/idGenerator.js: [isValidId] *)

(** Regular expressions, matched against a whole text (the pattern of
    the source is anchored at both ends) by derivatives. *)
Module Regex.

Inductive t : Type :=
| Never
| Empty
| Char (accepts : ascii → bool)
| Seq (r1 r2 : t)
| Alt (r1 r2 : t)
| Star (r : t).

Fixpoint nullable (r : t) : bool :=
  match r with
  | Never => false
  | Empty => true
  | Char _ => false
  | Seq r1 r2 => nullable r1 && nullable r2
  | Alt r1 r2 => nullable r1 || nullable r2
  | Star _ => true
  end.

Fixpoint derive (a : ascii) (r : t) : t :=
  match r with
  | Never => Never
  | Empty => Never
  | Char accepts => if accepts a then Empty else Never
  | Seq r1 r2 =>
      if nullable r1 then Alt (Seq (derive a r1) r2) (derive a r2)
      else Seq (derive a r1) r2
  | Alt r1 r2 => Alt (derive a r1) (derive a r2)
  | Star r0 => Seq (derive a r0) (Star r0)
  end.

Fixpoint test (r : t) (s : string) : bool :=
  match s with
  | EmptyString => nullable r
  | String a rest => test (derive a r) rest
  end.

(** The text [s] itself. *)
Fixpoint literal (s : string) : t :=
  match s with
  | EmptyString => Empty
  | String a rest => Seq (Char (Ascii.eqb a)) (literal rest)
  end.

(** [r+] *)
Definition plus (r : t) : t := Seq r (Star r).

End Regex.

(** [\w]: a letter, a digit or the underscore. *)
Definition is_word_char (a : ascii) : bool :=
  let n := nat_of_ascii a in
  ((48 <=? n)%nat && (n <=? 57)%nat) || ((65 <=? n)%nat && (n <=? 90)%nat)
  || ((97 <=? n)%nat && (n <=? 122)%nat) || (n =? 95)%nat.

(** [/^(id|task|column)-\w+-\w+$/] *)
Definition VALID_ID_PATTERN : Regex.t :=
  Regex.Seq (Regex.Alt (Regex.literal "id")
                       (Regex.Alt (Regex.literal "task") (Regex.literal "column")))
    (Regex.Seq (Regex.literal "-")
       (Regex.Seq (Regex.plus (Regex.Char is_word_char))
          (Regex.Seq (Regex.literal "-")
                     (Regex.plus (Regex.Char is_word_char))))).

(** [isValidId(id)] for a string [id]. *)
Definition isValidId (id : string) : bool :=
  if negb (truthy_str id) then false else Regex.test VALID_ID_PATTERN id.

(** ** components/KanbanBoard/Modals/AddTaskModal.jsx *)

Module AddTaskModal.

(** The state of the form: five texts, as in [DEFAULT_VALUES.TASK]. *)
Record formData : Type := mkForm {
  title : string;
  description : string;
  priority : string;
  assignee : string;
  dueDate : string
}.

(** The object [onAddTask] receives: the form's own five properties. *)
Definition taskData (f : formData) : TaskFactory.formData :=
  TaskFactory.mkForm None (Some (title f)) (Some (description f)) (Some (priority f))
                     (Some (assignee f)) (Some (dueDate f)).

(** What a [handleSubmit] leaves: the errors of a rejected form, what
    the callback returned before the modal closed, or the [submit] error
    that was caught. *)
Inductive submitted (A : Type) : Type :=
| Rejected (errors : list (string * string))
| Closed (a : A)
| SubmitError (text : string).
Arguments Rejected {A} errors.
Arguments Closed {A} a.
Arguments SubmitError {A} text.

Section WithDate.
Context `{JsDate}.

(** [newErrors] of [validate()], as the list of its properties;
    [new Date().setHours(0, 0, 0, 0)] is the time value of local midnight
    of [today]. *)
Definition newErrors (f : formData) (today : Z) : list (string * string) :=
  ((if negb (truthy_str (trim (title f)))
    then [("title", "Task title is required")]
    else if 100 <? str_length (title f)
         then [("title", "Title must be less than 100 characters")] else [])
   ++ (if truthy_str (description f) && (500 <? str_length (description f))
       then [("description", "Description must be less than 500 characters")] else [])
   ++ (if truthy_str (assignee f) && (50 <? str_length (assignee f))
       then [("assignee", "Assignee name must be less than 50 characters")] else [])
   ++ (if truthy_str (dueDate f)
       then match date_parse (dueDate f) with
            | None => [("dueDate", "Invalid date format")]
            | Some d => if d <? start_of_day today
                        then [("dueDate", "Due date cannot be in the past")] else []
            end
       else []))%list.

(** [validate()]: [Object.keys(newErrors).length === 0] *)
Definition validate (f : formData) (today : Z) : bool :=
  Nat.eqb (length (newErrors f today)) 0.

(** [handleSubmit()], with the [onAddTask] and [columnId] the modal was
    given: a rejected form calls nothing and shows its errors; when the
    callback returns the modal closes; when it throws, the message is
    shown under [submit]. *)
Definition handleSubmit {A} (f : formData) (columnId : string) (today : Z)
    (onAddTask : string → TaskFactory.formData → result A) : submitted A :=
  if negb (validate f today) then Rejected (newErrors f today)
  else
    match onAddTask columnId (taskData f) with
    | Ok a => Closed a
    | Throw e =>
        SubmitError (if truthy_str (message e) then message e else "Failed to add task")
    end.

End WithDate.

End AddTaskModal.

(** ** components/KanbanBoard/Modals/AddColumnModal.jsx *)

Module AddColumnModal.

(** The state of the form, as in [DEFAULT_VALUES.COLUMN]. *)
Record formData : Type := mkForm {
  title : string;
  color : string
}.

Definition columnData (f : formData) : ColumnFactory.formData :=
  ColumnFactory.mkForm None None (Some (title f)) (Some (color f)).

Definition newErrors (f : formData) : list (string * string) :=
  ((if negb (truthy_str (trim (title f)))
    then [("title", "Column title is required")]
    else if 50 <? str_length (title f)
         then [("title", "Title must be less than 50 characters")] else [])
   ++ (if negb (includes COLUMN_COLORS (color f))
       then [("color", "Please select a valid color")] else []))%list.

Definition validate (f : formData) : bool :=
  Nat.eqb (length (newErrors f)) 0.

(** [handleSubmit()], with the [onAddColumn] the modal was given. *)
Definition handleSubmit {A} (f : formData)
    (onAddColumn : ColumnFactory.formData → result A) : AddTaskModal.submitted A :=
  if negb (validate f) then AddTaskModal.Rejected (newErrors f)
  else
    match onAddColumn (columnData f) with
    | Ok a => AddTaskModal.Closed a
    | Throw e =>
        AddTaskModal.SubmitError
          (if truthy_str (message e) then message e else "Failed to add column")
    end.

End AddColumnModal.

(** ** components/KanbanBoard/Task/TaskEditor.jsx *)

Module TaskEditor.

Section WithDate.
Context `{JsDate}.

(** [newErrors] of [validate()]; the form has the five texts of
    [AddTaskModal.formData]. *)
Definition newErrors (f : AddTaskModal.formData) : list (string * string) :=
  ((if negb (truthy_str (trim (AddTaskModal.title f)))
    then [("title", "Title is required")]
    else if 100 <? str_length (AddTaskModal.title f)
         then [("title", "Title must be less than 100 characters")] else [])
   ++ (if truthy_str (AddTaskModal.description f)
          && (500 <? str_length (AddTaskModal.description f))
       then [("description", "Description must be less than 500 characters")] else [])
   ++ (if truthy_str (AddTaskModal.assignee f)
          && (50 <? str_length (AddTaskModal.assignee f))
       then [("assignee", "Assignee name must be less than 50 characters")] else [])
   ++ (if truthy_str (AddTaskModal.dueDate f)
       then match date_parse (AddTaskModal.dueDate f) with
            | None => [("dueDate", "Invalid date format")]
            | Some _ => []
            end
       else []))%list.

Definition validate (f : AddTaskModal.formData) : bool :=
  Nat.eqb (length (newErrors f)) 0.

End WithDate.

(** The object [onSave] receives, as the patch of [updateTask]. *)
Definition updatedData (f : AddTaskModal.formData) : TaskType.updates :=
  TaskType.mkUpdates None (Some (AddTaskModal.title f))
                     (Some (AddTaskModal.description f))
                     (Some (AddTaskModal.priority f))
                     (Some (AddTaskModal.assignee f))
                     (Some (AddTaskModal.dueDate f)) None.

(** [handleSave()]: [onSave(formData)] when the form validates; [None]
    when it does not and nothing is called. *)
Definition handleSave `{JsDate} {A} (f : AddTaskModal.formData)
    (onSave : TaskType.updates → A) : option A :=
  if validate f then Some (onSave (updatedData f)) else None.

End TaskEditor.

(** ** components/KanbanBoard/Task/Task.jsx: the handlers of a card *)

Module TaskCard.

(** [handleDragStart]: [onDragStart?.(task.id)] *)
Definition handleDragStart {A} (task : TaskType.t) (onDragStart : string → A) : A :=
  onDragStart (TaskType.id task).

(** [handleEdit(updatedData)]: [onEdit?.(task.id, updatedData)] *)
Definition handleEdit {A} (task : TaskType.t) (onEdit : string → TaskType.updates → A)
    (updatedData : TaskType.updates) : A :=
  onEdit (TaskType.id task) updatedData.

(** [handleDelete()]: [onDelete?.(task.id)] once the user confirmed. *)
Definition handleDelete {A} (task : TaskType.t) (confirmed : bool) (onDelete : string → A)
  : option A :=
  if confirmed then Some (onDelete (TaskType.id task)) else None.

End TaskCard.

(** ** components/KanbanBoard/Column/Column.jsx: the handlers of a column *)

Module Column.

(** [handleDrop]: [onDrop?.(taskId, column.id)], with [taskId] the text
    read from the drag data. *)
Definition handleDrop {A} (column : ColumnType.t) (taskId : string)
    (onDrop : string → string → A) : A :=
  onDrop taskId (ColumnType.id column).

(** [{ ...column, title: trimmedTitle }], as the patch of [updateColumn];
    its [updatedAt] is overwritten by [update()]. *)
Definition retitled (column : ColumnType.t) (trimmedTitle : string) : ColumnType.updates :=
  ColumnType.mkUpdates (Some (ColumnType.id column)) (Some trimmedTitle)
                       (Some (ColumnType.color column)) (Some (ColumnType.taskIds column))
                       (Some (ColumnType.createdAt column)) (Some (ColumnType.order column)).

(** What [handleSaveTitle] leaves: a title error, or what
    [onEditColumn] returned. *)
Inductive saved (A : Type) : Type :=
| TitleError (text : string)
| Edited (a : A).
Arguments TitleError {A} text.
Arguments Edited {A} a.

Definition handleSaveTitle {A} (column : ColumnType.t) (editTitle : string)
    (onEditColumn : string → ColumnType.updates → A) : saved A :=
  let trimmedTitle := trim editTitle in
  if negb (truthy_str trimmedTitle) then TitleError "Column title is required"
  else if 50 <? str_length trimmedTitle
       then TitleError "Title must be less than 50 characters"
       else Edited (onEditColumn (ColumnType.id column) (retitled column trimmedTitle)).

(** [handleDeleteColumn]: [onDeleteColumn?.(column.id)] once the user
    confirmed. *)
Definition handleDeleteColumn {A} (column : ColumnType.t) (confirmed : bool)
    (onDeleteColumn : string → A) : option A :=
  if confirmed then Some (onDeleteColumn (ColumnType.id column)) else None.

(** The 'Add task' buttons: [onAddTask?.(column.id)] *)
Definition addTaskClicked {A} (column : ColumnType.t) (onAddTask : string → A) : A :=
  onAddTask (ColumnType.id column).

End Column.

(** ** hooks/useDragDrop.js *)

Module useDragDrop.

(** The three state cells; [None] is [null]. *)
Record state : Type := mkState {
  draggedItem : option string;
  draggedOverTarget : option string;
  dragType : option string
}.

Definition initial : state := mkState None None None.

(** [DRAG_TYPES.TASK] *)
Definition DRAG_TYPE_TASK : string := "task".

(** [handleDragStart(itemId, type = DRAG_TYPES.TASK)]; [None] is an
    omitted [type]. *)
Definition handleDragStart (itemId : string) (type : option string) (st : state) : state :=
  mkState (Some itemId) (draggedOverTarget st) (Some (default DRAG_TYPE_TASK type)).

Definition handleDragOver (targetId : string) (st : state) : state :=
  mkState (draggedItem st) (Some targetId) (dragType st).

Definition handleDragLeave (st : state) : state :=
  mkState (draggedItem st) None (dragType st).

(** [handleDrop(onDrop, itemId, targetId)]: the call of [onDrop] it
    makes, if [hasOnDrop], and the state it leaves. *)
Definition handleDrop (hasOnDrop : bool) (itemId targetId : string) (st : state)
  : option (string * string * option string) * state :=
  ((if hasOnDrop then Some (itemId, targetId, dragType st) else None), initial).

Definition resetDragState (st : state) : state := initial.

Definition isDragging (st : state) (itemId : string) : bool :=
  bool_decide (draggedItem st = Some itemId).

Definition isDraggedOver (st : state) (targetId : string) : bool :=
  bool_decide (draggedOverTarget st = Some targetId).

(** The events of a gesture. *)
Inductive event : Type :=
| DragStart (itemId : string) (type : option string)
| DragOver (targetId : string)
| DragLeave
| Drop (hasOnDrop : bool) (itemId targetId : string)
| Reset.

Definition handle (e : event) (st : state) : state :=
  match e with
  | DragStart itemId type => handleDragStart itemId type st
  | DragOver targetId => handleDragOver targetId st
  | DragLeave => handleDragLeave st
  | Drop hasOnDrop itemId targetId => snd (handleDrop hasOnDrop itemId targetId st)
  | Reset => resetDragState st
  end.

(** The state after a sequence of events, first event first. *)
Definition run (events : list event) (st : state) : state :=
  fold_left (λ s e, handle e s) events st.

(** [useValidatedDragDrop]: [handleDrop] behind [canDrop]. *)
Section Validated.
Variable canDrop : string → string → option string → bool.

(** The call of [onDrop] or of [onInvalidDrop] it makes, and the state
    it leaves. *)
Definition validated_handleDrop (hasOnDrop : bool) (itemId targetId : string) (st : state)
  : (option (string * string * option string) + (string * string * option string)) * state :=
  if canDrop itemId targetId (dragType st)
  then (inl (fst (handleDrop hasOnDrop itemId targetId st)),
        snd (handleDrop hasOnDrop itemId targetId st))
  else (inr (itemId, targetId, dragType st), resetDragState st).

End Validated.

End useDragDrop.

(** ** services/storage.js: [AutoSaveService] *)

Module AutoSaveService.

(** The fields of the service; [hasCallback] says that [saveCallback] is
    a function, [timeoutId] is [None] for [null]. *)
Record service : Type := mkService {
  hasCallback : bool;
  interval : Z;
  timeoutId : option positive;
  enabled : bool
}.

(** The service with the runtime's timers: the identifiers of the timers
    that have not fired nor been cleared, the identifier the next
    [setTimeout] returns (a positive number), and how many times the
    callback has run. *)
Record world : Type := mkWorld {
  svc : service;
  pending : gset positive;
  nextTimer : positive;
  saves : nat
}.


(** [cancel()] *)
Definition cancel (w : world) : world :=
  match timeoutId (svc w) with
  | Some id =>
      mkWorld (mkService (hasCallback (svc w)) (interval (svc w)) None (enabled (svc w)))
              (pending w ∖ {[ id ]}) (nextTimer w) (saves w)
  | None => w
  end.

(** [schedule()] *)
Definition schedule (w : world) : world :=
  if negb (enabled (svc w)) then w
  else
    let w1 := cancel w in
    let id := nextTimer w1 in
    mkWorld (mkService (hasCallback (svc w1)) (interval (svc w1)) (Some id) (enabled (svc w1)))
            (pending w1 ∪ {[ id ]}) (Pos.succ id) (saves w1).

Definition enable (w : world) : world :=
  mkWorld (mkService (hasCallback (svc w)) (interval (svc w)) (timeoutId (svc w)) true)
          (pending w) (nextTimer w) (saves w).

(** [disable()]: [this.enabled = false; this.cancel()] *)
Definition disable (w : world) : world :=
  cancel (mkWorld (mkService (hasCallback (svc w)) (interval (svc w))
                             (timeoutId (svc w)) false)
                  (pending w) (nextTimer w) (saves w)).

Definition setInterval (newInterval : Z) (w : world) : world :=
  mkWorld (mkService (hasCallback (svc w)) newInterval (timeoutId (svc w)) (enabled (svc w)))
          (pending w) (nextTimer w) (saves w).

(** [destroy()]: [this.cancel(); this.enabled = false; this.saveCallback = null] *)
Definition destroy (w : world) : world :=
  let w1 := cancel w in
  mkWorld (mkService false (interval (svc w1)) (timeoutId (svc w1)) false)
          (pending w1) (nextTimer w1) (saves w1).

(** The runtime fires the pending timer [id]: the arrow function of
    [schedule] calls [saveCallback] if it is a function then. *)
Definition fire (id : positive) (w : world) : world :=
  if bool_decide (id ∈ pending w)
  then mkWorld (svc w) (pending w ∖ {[ id ]}) (nextTimer w)
               (if hasCallback (svc w) then S (saves w) else saves w)
  else w.

Inductive event : Type :=
| Schedule
| Cancel
| Enable
| Disable
| SetInterval (newInterval : Z)
| Destroy
| Fire (id : positive).

Definition handle (e : event) (w : world) : world :=
  match e with
  | Schedule => schedule w
  | Cancel => cancel w
  | Enable => enable w
  | Disable => disable w
  | SetInterval z => setInterval z w
  | Destroy => destroy w
  | Fire id => fire id w
  end.

Definition run (events : list event) (w : world) : world :=
  fold_left (λ s e, handle e s) events w.


End AutoSaveService.

(** ** services/storage.js: [StorageService] over [localStorage] *)

(** [JSON.stringify] of a value other than [undefined], plain and with
    [(value, null, 2)]. *)
Class JsJSONText : Type := {
  JSON_stringify : value → string;
  JSON_stringify_pretty : value → string
}.

(** [localStorage]: whether it can be used at all (touching it throws
    when it cannot), and whether [setItem] takes a text under a key given
    what is stored (it throws when the quota is exceeded). *)
Class JsLocalStorage : Type := {
  storage_available : bool;
  storage_accepts : gmap string string → string → string → bool
}.

Definition KANBAN_DATA : string := "kanban_board_data".
Definition USER_PREFERENCES : string := "kanban_user_preferences".

Module Storage.

Section WithRuntime.
Context `{JsJSON} `{JsJSONText} `{JsLocalStorage}.

(** The text [setItem] stores for [JSON.stringify(data)]; [undefined]
    becomes the text ["undefined"]. *)
Definition serialized (data : value) : string :=
  match data with
  | JUndefined => "undefined"
  | _ => JSON_stringify data
  end.

(** [save(key, data)]: the returned flag and what is stored afterwards. *)
Definition save (key : string) (data : value) (store : gmap string string)
  : bool * gmap string string :=
  if storage_available && storage_accepts store key (serialized data)
  then (true, <[key := serialized data]> store)
  else (false, store).

(** [load(key)] *)
Definition load (key : string) (store : gmap string string) : value :=
  if negb storage_available then JNull
  else
    match store !! key with
    | None => JNull
    | Some serializedData =>
        match JSON_parse serializedData with
        | inr data => data
        | inl _ => JNull
        end
    end.

(** [remove(key)] *)
Definition remove (key : string) (store : gmap string string)
  : bool * gmap string string :=
  if storage_available then (true, delete key store) else (false, store).

(** [saveBoardData(boardData)] *)
Definition saveBoardData (boardData : value) (now : string) (store : gmap string string)
  : bool * gmap string string :=
  save KANBAN_DATA (JObj (prop_set (own_props boardData) "lastSaved" (JStr now))) store.

(** [loadBoardData()] *)
Definition loadBoardData (store : gmap string string) : value :=
  StorageService.loadBoardData (load KANBAN_DATA store).

Definition loadUserPreferences (store : gmap string string) : value :=
  load USER_PREFERENCES store.

(** [clearAllData()]: both [remove] calls catch their own errors, so the
    flag is [true]. *)
Definition clearAllData (store : gmap string string) : bool * gmap string string :=
  let store1 := snd (remove KANBAN_DATA store) in
  let store2 := snd (remove USER_PREFERENCES store1) in
  (true, store2).

End WithRuntime.

End Storage.

(** ** services/storage.js: [ImportExportService.exportToJSON] *)

Definition ImportExportService_exportToJSON `{JsJSONText} (boardData : value)
    (now : string) : string :=
  JSON_stringify_pretty
    (JObj [("version", JStr "1.0"); ("exportedAt", JStr now); ("data", boardData)]).

(** ** hooks/useLocalStorage.js *)

Module useLocalStorage.

Section WithRuntime.
Context `{JsJSON} `{JsJSONText} `{JsLocalStorage}.

(** The first state of [useLocalStorage(key, initialValue)]: what
    [StorageService.load(key)] returns unless it is [null]. *)
Definition initial (key : string) (initialValue : value)
    (store : gmap string string) : value :=
  match Storage.load key store with
  | JNull => initialValue
  | item => item
  end.

(** [persistedData] of [useKanbanStorage()] *)
Definition useKanbanStorage_initial (store : gmap string string) : value :=
  initial KANBAN_DATA
    (JObj [("tasks", JObj []); ("columns", JObj []); ("columnOrder", JArr [])]) store.

(** [saveBoardData(data)] of [useKanbanStorage()]: [setValue] with the
    stamped object, which saves it under the key; what is stored
    afterwards. *)
Definition useKanbanStorage_saveBoardData (data : value) (now : string)
    (store : gmap string string) : gmap string string :=
  snd (Storage.save KANBAN_DATA
         (JObj (prop_set (own_props data) "lastSaved" (JStr now))) store).

End WithRuntime.

End useLocalStorage.

(** ** hooks/useKanban.js: the first state *)

(** [x || dflt] on values *)
Definition or_value (x dflt : value) : value :=
  if truthy x then x else dflt.

(** The first [boardData] of [useKanban()], from [persistedData]. *)
Definition useKanban_initial (persistedData : value) (now : string) : result value :=
  persistedTasks ← get persistedData "tasks";
  persistedColumns ← get persistedData "columns";
  persistedColumnOrder ← get persistedData "columnOrder";
  persistedLastModified ← get persistedData "lastModified";
  Ok (JObj [("tasks", or_value persistedTasks (JObj []));
            ("columns", or_value persistedColumns (JObj []));
            ("columnOrder", or_value persistedColumnOrder (JArr []));
            ("lastModified", or_value persistedLastModified (JStr now))]).

(** ** A concrete JSON for closed examples

    A printer and a parser of JSON texts for integers, strings without
    control characters, arrays and objects.  The printer drops an object
    property that is [undefined], as [JSON.stringify] does. *)

Module SampleJSON.

Definition QUOTE : ascii := ascii_of_nat 34.
Definition BACKSLASH : ascii := ascii_of_nat 92.
Definition NEWLINE : ascii := ascii_of_nat 10.

Fixpoint escape (s : string) : string :=
  match s with
  | EmptyString => EmptyString
  | String a rest =>
      if Ascii.eqb a QUOTE || Ascii.eqb a BACKSLASH
      then String BACKSLASH (String a (escape rest))
      else String a (escape rest)
  end.

Definition print_string (s : string) : string :=
  String QUOTE (escape s ++ String QUOTE EmptyString).

Fixpoint print_digits (fuel : nat) (n : N) (acc : string) : string :=
  match fuel with
  | O => acc
  | S fuel' =>
      let acc' := String (ascii_of_N (48 + n mod 10)) acc in
      if (n / 10 =? 0)%N then acc' else print_digits fuel' (n / 10)%N acc'
  end.

Definition print_number (n : Z) : string :=
  let digits := print_digits (S (N.to_nat (N.log2 (Z.abs_N n)))) (Z.abs_N n) EmptyString in
  if n <? 0 then String "-"%char digits else digits.

Fixpoint spaces (n : nat) : string :=
  match n with
  | O => EmptyString
  | S n' => String " "%char (spaces n')
  end.

(** The line break before an item at nesting [depth]; nothing in the
    plain form. *)
Definition line (pretty : bool) (depth : nat) : string :=
  if pretty then String NEWLINE (spaces (2 * depth)) else EmptyString.

Definition is_undefined (v : value) : bool :=
  match v with
  | JUndefined => true
  | _ => false
  end.

Fixpoint print (pretty : bool) (depth : nat) (v : value) : string :=
  match v with
  | JUndefined | JNull => "null"
  | JBool true => "true"
  | JBool false => "false"
  | JNum n => print_number n
  | JStr s => print_string s
  | JArr items =>
      match items with
      | [] => "[]"
      | _ =>
          "[" ++ line pretty (S depth)
          ++ join ("," ++ line pretty (S depth)) (map (print pretty (S depth)) items)
          ++ line pretty depth ++ "]"
      end
  | JObj props =>
      let members :=
        (fix go (l : list (string * value)) : list string :=
           match l with
           | [] => []
           | (k, x) :: rest =>
               if is_undefined x then go rest
               else (print_string k ++ ":" ++ (if pretty then " " else "")
                     ++ print pretty (S depth) x) :: go rest
           end) props in
      match members with
      | [] => "{}"
      | _ =>
          "{" ++ line pretty (S depth)
          ++ join ("," ++ line pretty (S depth)) members
          ++ line pretty depth ++ "}"
      end
  end.

(** The white space of the JSON grammar: tab, line feed, carriage return
    and space. *)
Definition is_json_white_space (a : ascii) : bool :=
  match nat_of_ascii a with
  | 9%nat | 10%nat | 13%nat | 32%nat => true
  | _ => false
  end.

Fixpoint skip_ws (s : string) : string :=
  match s with
  | EmptyString => EmptyString
  | String a rest => if is_json_white_space a then skip_ws rest else s
  end.

(** The text up to the closing quote, with its escapes undone, and what
    follows the quote. *)
Fixpoint parse_string_body (s : string) : option (string * string) :=
  match s with
  | EmptyString => None
  | String a rest =>
      if Ascii.eqb a QUOTE then Some (EmptyString, rest)
      else if Ascii.eqb a BACKSLASH then
        match rest with
        | String b rest' =>
            match parse_string_body rest' with
            | Some (body, after) => Some (String b body, after)
            | None => None
            end
        | EmptyString => None
        end
      else
        match parse_string_body rest with
        | Some (body, after) => Some (String a body, after)
        | None => None
        end
  end.

Fixpoint parse_digits (s : string) (acc : Z) : Z * string :=
  match s with
  | EmptyString => (acc, s)
  | String a rest =>
      match digit a with
      | Some d => parse_digits rest (10 * acc + d)
      | None => (acc, s)
      end
  end.

Definition starts_with_digit (s : string) : bool :=
  match s with
  | String a _ => bool_decide (is_Some (digit a))
  | EmptyString => false
  end.

Definition expect (word : string) (v : value) (s : string) : option (value * string) :=
  if String.prefix word s
  then Some (v, substring (String.length word) (String.length s - String.length word) s)
  else None.

Fixpoint parse_value (fuel : nat) (s : string) : option (value * string) :=
  match fuel with
  | O => None
  | S fuel' =>
      match skip_ws s with
      | EmptyString => None
      | String a rest as text =>
          if Ascii.eqb a QUOTE then
            match parse_string_body rest with
            | Some (body, after) => Some (JStr body, after)
            | None => None
            end
          else if Ascii.eqb a "["%char then
            match skip_ws rest with
            | String "]"%char after => Some (JArr [], after)
            | _ =>
                match parse_elements fuel' rest with
                | Some (items, after) => Some (JArr items, after)
                | None => None
                end
            end
          else if Ascii.eqb a "{"%char then
            match skip_ws rest with
            | String "}"%char after => Some (JObj [], after)
            | _ =>
                match parse_members fuel' rest with
                | Some (props, after) => Some (JObj props, after)
                | None => None
                end
            end
          else if Ascii.eqb a "-"%char then
            if starts_with_digit rest
            then let '(n, after) := parse_digits rest 0 in Some (JNum (- n), after)
            else None
          else if starts_with_digit text
          then let '(n, after) := parse_digits text 0 in Some (JNum n, after)
          else
            match expect "null" JNull text with
            | Some r => Some r
            | None =>
                match expect "true" (JBool true) text with
                | Some r => Some r
                | None => expect "false" (JBool false) text
                end
            end
      end
  end
with parse_elements (fuel : nat) (s : string) : option (list value * string) :=
  match fuel with
  | O => None
  | S fuel' =>
      match parse_value fuel' s with
      | Some (item, after) =>
          match skip_ws after with
          | String ","%char more =>
              match parse_elements fuel' more with
              | Some (items, rest) => Some (item :: items, rest)
              | None => None
              end
          | String "]"%char rest => Some ([item], rest)
          | _ => None
          end
      | None => None
      end
  end
with parse_members (fuel : nat) (s : string) : option (list (string * value) * string) :=
  match fuel with
  | O => None
  | S fuel' =>
      match skip_ws s with
      | String a rest =>
          if Ascii.eqb a QUOTE then
            match parse_string_body rest with
            | Some (key, after) =>
                match skip_ws after with
                | String ":"%char more =>
                    match parse_value fuel' more with
                    | Some (x, after') =>
                        match skip_ws after' with
                        | String ","%char more' =>
                            match parse_members fuel' more' with
                            | Some (props, rest') => Some ((key, x) :: props, rest')
                            | None => None
                            end
                        | String "}"%char rest' => Some ([(key, x)], rest')
                        | _ => None
                        end
                    | None => None
                    end
                | _ => None
                end
            | None => None
            end
          else None
      | EmptyString => None
      end
  end.

Definition parse (s : string) : string + value :=
  match parse_value (2 * String.length s + 2) s with
  | Some (v, rest) =>
      match skip_ws rest with
      | EmptyString => inr v
      | String _ _ => inl "Unexpected non-whitespace character after JSON"
      end
  | None => inl "Unexpected token in JSON"
  end.

Definition json : JsJSON := {| JSON_parse := parse |}.

Definition text : JsJSONText :=
  {| JSON_stringify := print false 0; JSON_stringify_pretty := print true 0 |}.

End SampleJSON.

(** A [localStorage] that is available and takes a text of up to 5000
    characters. *)
Definition roomy_storage : JsLocalStorage :=
  {| storage_available := true;
     storage_accepts := λ _ _ text, (String.length text <=? 5000)%nat |}.

(** The texts a regular expression denotes. *)
Inductive matches : Regex.t → string → Prop :=
| matches_empty : matches Regex.Empty ""
| matches_char accepts a : accepts a = true → matches (Regex.Char accepts) (String a "")
| matches_seq r1 r2 s1 s2 :
    matches r1 s1 → matches r2 s2 → matches (Regex.Seq r1 r2) (s1 ++ s2)
| matches_alt_l r1 r2 s : matches r1 s → matches (Regex.Alt r1 r2) s
| matches_alt_r r1 r2 s : matches r2 s → matches (Regex.Alt r1 r2) s
| matches_star_nil r : matches (Regex.Star r) ""
| matches_star_cons r s1 s2 :
    matches r s1 → matches (Regex.Star r) s2 → matches (Regex.Star r) (s1 ++ s2).

(** A non-empty text of [\w] characters. *)
Fixpoint all_word_chars (s : string) : bool :=
  match s with
  | EmptyString => true
  | String a rest => is_word_char a && all_word_chars rest
  end.

Definition is_word (s : string) : bool := truthy_str s && all_word_chars s.

Fixpoint count_dashes (s : string) : nat :=
  match s with
  | EmptyString => 0
  | String a rest => (if Ascii.eqb a "-"%char then 1 else 0) + count_dashes rest
  end.

(** ** Properties of a board that the operations are checked against *)

(** Every stored task passes [validate()]. *)
Definition every_task_valid `{JsDate} (b : Board) : Prop :=
  ∀ t x, tasks b !! t = Some x → TaskType.isValid x = true.

Definition is_import (o : operation) : bool :=
  match o with
  | ImportSnapshot _ _ => true
  | _ => false
  end.

(** The number of tasks of a priority. *)
Definition count_priority (p : string) (values : list TaskType.t) : nat :=
  length (List.filter (λ x, String.eqb (TaskType.priority x) p) values).

(** What one more task of priority [p] makes of the property [p] of
    [tasksByPriority]. *)
Definition count_once (p : string) (entry : option tally) : option tally :=
  match entry with
  | Some (Count n) => Some (Count (n + 1))
  | Some (MemberText name ones) => Some (MemberText name (S ones))
  | None =>
      if String.eqb p "__proto__" then None
      else if is_prototype_name p then Some (MemberText p 1)
      else Some (Count 1)
  end.

(** A column that lists 100 tasks. *)
Definition column_full : ColumnType.t :=
  todo_column (replicate 100 "t") "t1".

Definition board_full : Board :=
  mkBoard ∅ {[ column_1 := column_full ]} [column_1] "t1".

(** The add-task form filled in with a title. *)
Definition write_spec_entry : AddTaskModal.formData :=
  AddTaskModal.mkForm "Write spec" "" "medium" "" "".

(** [board_one_task] as the object the store holds. *)
Definition board_one_task_object : value :=
  JObj [("tasks",
         JObj [(task_1,
                JObj [("id", JStr ""); ("title", JStr "Write spec");
                      ("description", JStr ""); ("priority", JStr "medium");
                      ("assignee", JStr ""); ("dueDate", JStr "");
                      ("createdAt", JStr "t2"); ("updatedAt", JStr "t2")])]);
        ("columns",
         JObj [(column_1,
                JObj [("id", JStr ""); ("title", JStr "To Do");
                      ("color", JStr "bg-gray-100"); ("taskIds", JArr [JStr task_1]);
                      ("createdAt", JStr "t1"); ("updatedAt", JStr "t2");
                      ("order", JNum 0)])]);
        ("columnOrder", JArr [JStr column_1]);
        ("lastModified", JStr "t2")].




(** * Properties *)

(** ** Lists of identifiers *)

Lemma includes_elem_of (l : list string) (x : string) :
  includes l x = true ↔ x ∈ l.
Proof.
  unfold includes. rewrite existsb_exists. split.
  - intros (y & Hy & Heq). apply String.eqb_eq in Heq. subst y.
    by apply list_elem_of_In.
  - intros Hx. exists x. split; [by apply list_elem_of_In | apply String.eqb_refl].
Qed.

Lemma includes_not_elem_of (l : list string) (x : string) :
  includes l x = false ↔ x ∉ l.
Proof.
  rewrite <- includes_elem_of. destruct (includes l x); split; congruence.
Qed.

Lemma elem_of_without (l : list string) (x y : string) :
  y ∈ without l x ↔ y ∈ l ∧ y ≠ x.
Proof.
  unfold without. rewrite !list_elem_of_In, filter_In, negb_true_iff.
  by rewrite String.eqb_neq.
Qed.

Lemma NoDup_without (l : list string) (x : string) :
  NoDup l → NoDup (without l x).
Proof.
  intros Hl. apply NoDup_ListNoDup. apply List.NoDup_filter.
  by apply NoDup_ListNoDup.
Qed.

(** ** Generated identifiers *)

Lemma generateTaskId_nonempty (timestamp random : string) :
  idGenerator.generateTaskId timestamp random ≠ "".
Proof. done. Qed.

Lemma generateColumnId_nonempty (timestamp random : string) :
  idGenerator.generateColumnId timestamp random ≠ "".
Proof. done. Qed.

(** ** The source column of a task *)

Lemma enumerates_map_to_list (cols : gmap string ColumnType.t) :
  enumerates (map_to_list cols) cols.
Proof. unfold enumerates. reflexivity. Qed.

Lemma elem_of_enumerates entries cols c col :
  enumerates entries cols → (c, col) ∈ entries ↔ cols !! c = Some col.
Proof. intros Henum. unfold enumerates in Henum. by rewrite Henum, elem_of_map_to_list. Qed.

Lemma findSourceColumn_Some entries cols t c :
  enumerates entries cols → findSourceColumn entries t = Some c →
  ∃ col, cols !! c = Some col ∧ t ∈ ColumnType.taskIds col.
Proof.
  unfold findSourceColumn. intros Henum Hf.
  destruct (List.find _ _) as [[c' col]|] eqn:Hfind; simplify_eq/=.
  apply find_some in Hfind as [Hin Hinc]. simpl in Hinc.
  exists col. split.
  - apply (elem_of_enumerates entries); [done|]. by apply list_elem_of_In.
  - by apply includes_elem_of.
Qed.

Lemma findSourceColumn_None entries cols t :
  enumerates entries cols → findSourceColumn entries t = None →
  ∀ c col, cols !! c = Some col → t ∉ ColumnType.taskIds col.
Proof.
  unfold findSourceColumn. intros Henum Hf c col Hc.
  destruct (List.find _ _) as [e|] eqn:Hfind; [done|].
  apply includes_not_elem_of.
  apply (find_none _ _ Hfind (c, col)).
  apply list_elem_of_In. by apply (elem_of_enumerates entries cols).
Qed.

(** When one column only lists the task, the loop finds it in whatever
    order it meets the columns. *)
Lemma findSourceColumn_owner entries cols t c col :
  enumerates entries cols →
  cols !! c = Some col → t ∈ ColumnType.taskIds col →
  (∀ c' col', cols !! c' = Some col' → t ∈ ColumnType.taskIds col' → c' = c) →
  findSourceColumn entries t = Some c.
Proof.
  intros Henum Hc Ht Huniq.
  destruct (findSourceColumn entries t) as [c'|] eqn:Hf.
  - apply (findSourceColumn_Some entries cols) in Hf as (col' & Hc' & Ht'); [|done].
    f_equal. by eapply Huniq.
  - exfalso. by eapply (findSourceColumn_None entries cols).
Qed.

(** ** Lookups in a dictionary *)

Lemma dict_get_Some {A} (m : gmap string A) (k : string) (a : A) :
  m !! k = Some a → dict_get m k = Own a.
Proof. unfold dict_get. by intros ->. Qed.

Lemma dict_get_Own {A} (m : gmap string A) (k : string) (a : A) :
  dict_get m k = Own a ↔ m !! k = Some a.
Proof.
  unfold dict_get. destruct (m !! k); [|destruct (is_prototype_name k)]; split; congruence.
Qed.

Lemma dict_get_Inherited {A} (m : gmap string A) (k name : string) :
  dict_get m k = Inherited name ↔ m !! k = None ∧ is_prototype_name k = true ∧ name = k.
Proof.
  unfold dict_get. destruct (m !! k) as [a|]; [split; [done | by intros [? _]]|].
  destruct (is_prototype_name k); split.
  - intros Heq. by simplify_eq.
  - by intros (_ & _ & ->).
  - done.
  - by intros (_ & ? & _).
Qed.

Lemma dict_get_Absent {A} (m : gmap string A) (k : string) :
  dict_get m k = Absent ↔ m !! k = None ∧ is_prototype_name k = false.
Proof.
  unfold dict_get. destruct (m !! k) as [a|]; [split; [done | by intros [? _]]|].
  destruct (is_prototype_name k); split; try done. by intros [_ ?].
Qed.

(** A key that is no member of [Object.prototype] is looked up among the
    own properties only. *)
Lemma dict_get_plain {A} (m : gmap string A) (k : string) :
  is_prototype_name k = false →
  dict_get m k = match m !! k with Some a => Own a | None => Absent end.
Proof. unfold dict_get. by intros ->. Qed.

Lemma dict_get_found {A} (m : gmap string A) (k : string) :
  is_prototype_name k = false → dict_get m k ≠ Absent →
  ∃ a, m !! k = Some a ∧ dict_get m k = Own a.
Proof.
  intros Hplain. rewrite (dict_get_plain m k Hplain).
  destruct (m !! k) as [a|]; [by exists a | done].
Qed.

Lemma listed_taskIds_lookup (cols : gmap string ColumnType.t) (c : string) :
  listed_taskIds (dict_get cols c) = from_option ColumnType.taskIds [] (cols !! c).
Proof. unfold dict_get. destruct (cols !! c); [done|]. by destruct (is_prototype_name c). Qed.

(** ** What a returning operation leaves *)

Lemma updateBoardData_Ok updater now b b' :
  updateBoardData updater now b = Ok b' →
  ∃ newData, updater b = Ok newData ∧ b' = set_lastModified newData now.
Proof.
  unfold updateBoardData. destruct (updater b) as [newData|e]; simpl; [|done].
  intros [= <-]. eauto.
Qed.

Section Operations.
Context `{JsDate}.

Lemma addTask_Ok c d i now b b' :
  addTask c d i now b = Ok b' →
  let task := TaskFactory.createFromForm (TaskFactory.with_id d i) now in
  ∃ col, columns b !! c = Some col ∧ TaskType.isValid task = true ∧
    b' = mkBoard (<[i := task]> (tasks b))
                 (<[c := set_taskIds col (ColumnType.taskIds col ++ [i]) now]> (columns b))
                 (columnOrder b) now.
Proof.
  intros Hrun task. unfold addTask in Hrun. fold task in Hrun.
  destruct (TaskType.isValid task) eqn:Hvalid; simpl in Hrun; [|done].
  apply updateBoardData_Ok in Hrun as (newData & Hupd & ->).
  destruct (dict_get (columns b) c) as [col| |] eqn:Hc; [|done..].
  apply dict_get_Own in Hc. injection Hupd as <-. by exists col.
Qed.

Lemma updateTask_Ok t u now b b' :
  updateTask t u now b = Ok b' →
  ∃ updatedTask,
    dict_get (tasks b) t ≠ Absent ∧
    TaskType.update (TaskType.fromObject (dict_get (tasks b) t) now) u now
      = Ok updatedTask ∧
    b' = mkBoard (<[t := updatedTask]> (tasks b)) (columns b) (columnOrder b) now.
Proof.
  unfold updateTask. intros Hrun.
  apply updateBoardData_Ok in Hrun as (newData & Hupd & ->).
  destruct (dict_get (tasks b) t) as [existingTask|name|] eqn:Ht; [| |done].
  - destruct (TaskType.update _ u now) as [updatedTask|] eqn:Hu; [|done].
    simpl in Hupd. injection Hupd as <-. by exists updatedTask.
  - destruct (TaskType.update _ u now) as [updatedTask|] eqn:Hu; [|done].
    simpl in Hupd. injection Hupd as <-. by exists updatedTask.
Qed.

End Operations.

Lemma deleteTask_Ok entries t now b b' :
  deleteTask true entries t now b = Ok b' →
  ∃ c col, findSourceColumn entries t = Some c ∧ columns b !! c = Some col ∧
    b' = mkBoard (delete t (tasks b))
                 (<[c := set_taskIds col (without (ColumnType.taskIds col) t) now]> (columns b))
                 (columnOrder b) now.
Proof.
  unfold deleteTask. simpl. intros Hrun.
  apply updateBoardData_Ok in Hrun as (newData & Hupd & ->).
  destruct (findSourceColumn entries t) as [c|] eqn:Hfind; [|done].
  destruct (truthy_str c); simpl in Hupd; [|done].
  destruct (columns b !! c) as [col|] eqn:Hc; [|done].
  injection Hupd as <-. by exists c, col.
Qed.

Lemma moveTask_Ok entries t target now b b' :
  enumerates entries (columns b) →
  moveTask entries t target now b = Ok b' →
  ∃ c col, findSourceColumn entries t = Some c ∧ columns b !! c = Some col ∧
    ((c = target ∧ b' = set_lastModified b now) ∨
     (c ≠ target ∧ ∃ targetColumn, columns b !! target = Some targetColumn ∧
        b' = mkBoard (tasks b)
               (<[target := set_taskIds targetColumn
                              (ColumnType.taskIds targetColumn ++ [t]) now]>
                  (<[c := set_taskIds col (without (ColumnType.taskIds col) t) now]>
                     (columns b)))
               (columnOrder b) now)).
Proof.
  unfold moveTask. intros Henum Hrun.
  apply updateBoardData_Ok in Hrun as (newData & Hupd & ->).
  destruct (findSourceColumn entries t) as [c|] eqn:Hfind; [|done].
  destruct (findSourceColumn_Some _ _ _ _ Henum Hfind) as (col & Hc & _).
  exists c, col. split_and!; [done..|].
  destruct (truthy_str c); simpl in Hupd; [|done].
  destruct (String.eqb c target) eqn:Heq.
  - apply String.eqb_eq in Heq. injection Hupd as <-. by left.
  - apply String.eqb_neq in Heq. right. split; [done|].
    rewrite Hc in Hupd.
    destruct (dict_get (columns b) target) as [targetColumn| |] eqn:Ht; [|done..].
    apply dict_get_Own in Ht. injection Hupd as <-. by exists targetColumn.
Qed.

Lemma addColumn_Ok d i now b b' :
  addColumn d i now b = Ok b' →
  let column :=
    ColumnFactory.createFromForm
      (ColumnFactory.with_id_order d i (Z.of_nat (length (columnOrder b)))) now in
  ColumnType.isValid column = true ∧
  b' = mkBoard (tasks b) (<[i := column]> (columns b)) (columnOrder b ++ [i]) now.
Proof.
  intros Hrun column. unfold addColumn in Hrun. fold column in Hrun.
  destruct (ColumnType.isValid column); simpl in Hrun; [|done].
  by injection Hrun as <-.
Qed.

Lemma updateColumn_Ok c u now b b' :
  updateColumn c u now b = Ok b' →
  ∃ updatedColumn,
    dict_get (columns b) c ≠ Absent ∧
    ColumnType.update (ColumnType.fromObject (dict_get (columns b) c) now) u now
      = Ok updatedColumn ∧
    b' = mkBoard (tasks b) (<[c := updatedColumn]> (columns b)) (columnOrder b) now.
Proof.
  unfold updateColumn. intros Hrun.
  apply updateBoardData_Ok in Hrun as (newData & Hupd & ->).
  destruct (dict_get (columns b) c) as [existingColumn|name|] eqn:Hc; [| |done].
  - destruct (ColumnType.update _ u now) as [updatedColumn|] eqn:Hu; [|done].
    simpl in Hupd. injection Hupd as <-. by exists updatedColumn.
  - destruct (ColumnType.update _ u now) as [updatedColumn|] eqn:Hu; [|done].
    simpl in Hupd. injection Hupd as <-. by exists updatedColumn.
Qed.

Lemma deleteColumn_Ok c now b b' :
  deleteColumn true c now b = Ok b' →
  dict_get (columns b) c ≠ Absent ∧
  b' = mkBoard (delete_all (listed_taskIds (dict_get (columns b) c)) (tasks b))
               (delete c (columns b)) (without (columnOrder b) c) now.
Proof.
  unfold deleteColumn. destruct (dict_get (columns b) c) as [column|name|]; [| |done].
  - simpl. by intros [= <-].
  - simpl. by intros [= <-].
Qed.

Lemma ColumnType_update_taskIds x u now y :
  ColumnType.update x u now = Ok y →
  ColumnType.taskIds y = default (ColumnType.taskIds x) (ColumnType.u_taskIds u).
Proof.
  unfold ColumnType.update. destruct (ColumnType.isValid _); [|done].
  by intros [= <-].
Qed.

Lemma lookup_delete_all ids (m : gmap string TaskType.t) t :
  delete_all ids m !! t = if bool_decide (t ∈ ids) then None else m !! t.
Proof.
  unfold delete_all. revert m. induction ids as [|i ids IH]; intros m.
  - cbn [fold_left]. by rewrite bool_decide_eq_false_2 by apply not_elem_of_nil.
  - cbn [fold_left]. rewrite IH. destruct (decide (t = i)) as [->|Hne].
    + rewrite (bool_decide_eq_true_2 (i ∈ i :: ids)) by left.
      case_bool_decide; [done|]. apply lookup_delete_eq.
    + rewrite lookup_delete_ne by done.
      rewrite (bool_decide_ext (t ∈ i :: ids) (t ∈ ids)); [done|].
      rewrite elem_of_cons. split; [by intros [?|?] | by right].
Qed.

(** ** The invariant is kept *)

Lemma owns_insert ts cs co lm c col c' t :
  owns (mkBoard ts (<[c := col]> cs) co lm) c' t ↔
  (c' = c ∧ t ∈ ColumnType.taskIds col) ∨ (c' ≠ c ∧ owns (mkBoard ts cs co lm) c' t).
Proof.
  unfold owns. simpl. destruct (decide (c' = c)) as [->|Hne].
  - rewrite lookup_insert_eq. split.
    + intros (col' & [= <-] & Ht). by left.
    + intros [[_ Ht]|[Hne _]]; [by exists col | done].
  - rewrite lookup_insert_ne by done. split.
    + intros Ho. by right.
    + intros [[Heq _]|[_ Ho]]; done.
Qed.

Lemma columnOrder_matches_same_keys b b' :
  columnOrder b' = columnOrder b →
  (∀ c, is_Some (columns b' !! c) ↔ is_Some (columns b !! c)) →
  columnOrder_matches_columns b → columnOrder_matches_columns b'.
Proof.
  intros Horder Hkeys [Hnodup Hiff]. split; rewrite Horder; [done|].
  intros c. by rewrite Hkeys.
Qed.

Lemma is_Some_insert_existing {A} (m : gmap string A) k x k' :
  is_Some (m !! k) → is_Some (<[k := x]> m !! k') ↔ is_Some (m !! k').
Proof.
  intros Hk. destruct (decide (k = k')) as [->|Hne].
  - rewrite lookup_insert_eq. split; [done | by eexists].
  - by rewrite lookup_insert_ne.
Qed.

Lemma every_task_same_membership b b' :
  (∀ t, is_Some (tasks b' !! t) → is_Some (tasks b !! t)) →
  (∀ c t, is_Some (tasks b' !! t) → owns b' c t ↔ owns b c t) →
  every_task_in_one_column b → every_task_in_one_column b'.
Proof.
  intros Hsub Hsame Hinv t Ht.
  destruct (Hinv t (Hsub t Ht)) as (c & Hc & Huniq).
  exists c. split; [by apply Hsame|].
  intros c' Hc'. apply Huniq. by apply Hsame.
Qed.

Lemma set_lastModified_invariant b now :
  board_invariant b → board_invariant (set_lastModified b now).
Proof.
  intros [Horder Htasks]. split.
  - by apply (columnOrder_matches_same_keys b).
  - by apply (every_task_same_membership b).
Qed.

Section Preservation.
Context `{JsDate}.

Lemma addTask_invariant c d i now b b' :
  fresh_id b i → addTask c d i now b = Ok b' →
  board_invariant b → board_invariant b'.
Proof.
  intros (Hti & Hci & Hoi & Hfresh) Hrun [Horder Htasks].
  apply addTask_Ok in Hrun as (col & Hc & _ & ->). split.
  - eapply columnOrder_matches_same_keys; [| |exact Horder]; [done|].
    intros c'. simpl. by apply is_Some_insert_existing.
  - intros t Ht. simpl in Ht. destruct (decide (t = i)) as [->|Hne].
    + exists c. split.
      * apply owns_insert. left. split; [done|]. simpl.
        apply elem_of_app. right. by left.
      * intros c' Hc'. apply owns_insert in Hc' as [[-> _]|[_ (col' & Hcol' & Hin)]];
          [done|]. simpl in Hcol'. by destruct (Hfresh c' col' Hcol').
    + rewrite lookup_insert_ne in Ht by done.
      destruct (Htasks t Ht) as (c0 & Hown & Huniq).
      assert (Hkeep : ∀ c', owns (mkBoard (<[i:=TaskFactory.createFromForm
                 (TaskFactory.with_id d i) now]> (tasks b))
                 (<[c:=set_taskIds col (ColumnType.taskIds col ++ [i]) now]> (columns b))
                 (columnOrder b) now) c' t ↔ owns b c' t).
      { intros c'. rewrite owns_insert. unfold owns. simpl. split.
        - intros [[-> Hin]|[_ Ho]]; [|done].
          exists col. split; [done|].
          apply elem_of_app in Hin as [Hin|Hin]; [done|].
          apply list_elem_of_singleton in Hin. done.
        - intros (col' & Hcol' & Hin). destruct (decide (c' = c)) as [->|Hne'].
          + left. split; [done|]. rewrite Hc in Hcol'. injection Hcol' as <-.
            apply elem_of_app. by left.
          + right. split; [done|]. by exists col'. }
      exists c0. split; [by apply Hkeep|].
      intros c' Hc'. apply Huniq. by apply Hkeep.
Qed.

Lemma updateTask_invariant t u now b b' :
  is_prototype_name t = false →
  updateTask t u now b = Ok b' → board_invariant b → board_invariant b'.
Proof.
  intros Hplain Hrun [Horder Htasks].
  apply updateTask_Ok in Hrun as (new & Hfound & _ & ->).
  destruct (dict_get_found _ _ Hplain Hfound) as (old & Hold & _). split.
  - by apply (columnOrder_matches_same_keys b).
  - apply (every_task_same_membership b); [|done..].
    intros t'. simpl. by apply is_Some_insert_existing.
Qed.

End Preservation.

Lemma deleteTask_invariant confirmed entries t now b b' :
  deleteTask confirmed entries t now b = Ok b' → board_invariant b → board_invariant b'.
Proof.
  destruct confirmed; [|by intros [= <-]].
  intros Hrun [Horder Htasks].
  apply deleteTask_Ok in Hrun as (c & col & _ & Hc & ->). split.
  - eapply columnOrder_matches_same_keys; [| |exact Horder]; [done|].
    intros c'. simpl. by apply is_Some_insert_existing.
  - apply (every_task_same_membership b); [| |done].
    + intros t'. simpl. intros Ht'. destruct (decide (t' = t)) as [->|Hne].
      * rewrite lookup_delete_eq in Ht'. by destruct Ht'.
      * by rewrite lookup_delete_ne in Ht'.
    + intros c' t'. simpl. intros Ht'.
      assert (t' ≠ t) as Hne.
      { intros ->. rewrite lookup_delete_eq in Ht'. by destruct Ht'. }
      rewrite owns_insert. unfold owns. simpl. split.
      * intros [[-> Hin]|[_ Ho]]; [|done].
        apply elem_of_without in Hin as [Hin _]. by exists col.
      * intros (col' & Hcol' & Hin). destruct (decide (c' = c)) as [->|Hne'].
        -- left. split; [done|]. rewrite Hc in Hcol'. injection Hcol' as <-.
           by apply elem_of_without.
        -- right. split; [done|]. by exists col'.
Qed.

Lemma moveTask_invariant entries t target now b b' :
  enumerates entries (columns b) →
  moveTask entries t target now b = Ok b' → board_invariant b → board_invariant b'.
Proof.
  intros Henum Hrun Hinv.
  apply (moveTask_Ok _ _ _ _ _ _ Henum) in Hrun
    as (c & col & Hfind & Hc & [[-> ->]|[Hne Hmove]]).
  { by apply set_lastModified_invariant. }
  destruct Hmove as (tcol & Htarget & ->). destruct Hinv as [Horder Htasks].
  apply (findSourceColumn_Some entries (columns b)) in Hfind as (col0 & Hc0 & Htc); [|done].
  rewrite Hc in Hc0. injection Hc0 as <-. split.
  - eapply columnOrder_matches_same_keys; [| |exact Horder]; [done|].
    intros c'. simpl. rewrite is_Some_insert_existing.
    + by apply is_Some_insert_existing.
    + rewrite lookup_insert_ne by done. by eexists.
  - intros t' Ht'. simpl in Ht'.
    destruct (Htasks t' Ht') as (c0 & Hown & Huniq).
    destruct (decide (t' = t)) as [->|Hnet].
    + assert (c0 = c) as -> by (symmetry; apply Huniq; by exists col).
      exists target. split.
      * apply owns_insert. left. split; [done|]. simpl.
        apply elem_of_app. right. by left.
      * intros c'. rewrite !owns_insert. simpl.
        intros [[-> _]|[Hne1 [[-> Hin]|[Hne2 Ho]]]]; [done| |].
        -- apply elem_of_without in Hin as [_ Hin]. done.
        -- destruct Hne2. by apply Huniq.
    + assert (Hkeep : ∀ c', owns (mkBoard (tasks b)
                 (<[target:=set_taskIds tcol (ColumnType.taskIds tcol ++ [t]) now]>
                    (<[c:=set_taskIds col (without (ColumnType.taskIds col) t) now]>
                       (columns b))) (columnOrder b) now) c' t' ↔ owns b c' t').
      { intros c'. rewrite !owns_insert. unfold owns. simpl. split.
        - intros [[-> Hin]|[Hne1 [[-> Hin]|[Hne2 Ho]]]]; [| |done].
          + exists tcol. split; [done|].
            apply elem_of_app in Hin as [Hin|Hin]; [done|].
            apply list_elem_of_singleton in Hin. done.
          + exists col. split; [done|]. by apply elem_of_without in Hin as [Hin _].
        - intros (col' & Hcol' & Hin). destruct (decide (c' = target)) as [->|Hne1].
          + left. split; [done|]. rewrite Htarget in Hcol'. injection Hcol' as <-.
            apply elem_of_app. by left.
          + right. split; [done|]. destruct (decide (c' = c)) as [->|Hne2].
            * left. split; [done|]. rewrite Hc in Hcol'. injection Hcol' as <-.
              by apply elem_of_without.
            * right. split; [done|]. by exists col'. }
      exists c0. split; [by apply Hkeep|].
      intros c' Hc'. apply Huniq. by apply Hkeep.
Qed.
Lemma addColumn_invariant d i now b b' :
  fresh_id b i → addColumn d i now b = Ok b' →
  board_invariant b → board_invariant b'.
Proof.
  intros (_ & Hci & Hoi & _) Hrun [[Hnodup Hkeys] Htasks].
  apply addColumn_Ok in Hrun as [_ ->]. split; [split|]; simpl.
  - apply NoDup_app. split_and!; [done| |apply NoDup_singleton].
    intros c Hc ->%list_elem_of_singleton. done.
  - intros c. rewrite elem_of_app, list_elem_of_singleton, Hkeys.
    destruct (decide (c = i)) as [->|Hne].
    + rewrite lookup_insert_eq. split; [by eexists | by right].
    + rewrite lookup_insert_ne by done. split; [by intros [?|?] | by left].
  - intros t Ht. simpl in Ht. destruct (Htasks t Ht) as (c & Hown & Huniq).
    assert (Hkeep : ∀ c', owns (mkBoard (tasks b)
        (<[i:=ColumnFactory.createFromForm
                (ColumnFactory.with_id_order d i (Z.of_nat (length (columnOrder b)))) now]>
           (columns b)) (columnOrder b ++ [i]) now) c' t ↔ owns b c' t).
    { intros c'. rewrite owns_insert. unfold owns. simpl. split.
      - intros [[_ Hin]|[_ Ho]]; [|done]. by apply elem_of_nil in Hin.
      - intros (col' & Hcol' & Hin). right. split; [|by exists col'].
        intros ->. by rewrite Hci in Hcol'. }
    exists c. split; [by apply Hkeep|].
    intros c' Hc'. apply Huniq. by apply Hkeep.
Qed.

Lemma updateColumn_invariant c u now b b' :
  is_prototype_name c = false →
  (∀ ids col, ColumnType.u_taskIds u = Some ids → columns b !! c = Some col →
              ∀ t, t ∈ ids ↔ t ∈ ColumnType.taskIds col) →
  updateColumn c u now b = Ok b' → board_invariant b → board_invariant b'.
Proof.
  intros Hplain Hu Hrun [Horder Htasks].
  apply updateColumn_Ok in Hrun as (new & Hfound & Hupd & ->).
  destruct (dict_get_found _ _ Hplain Hfound) as (old & Hold & Hown).
  rewrite Hown in Hupd. cbn [ColumnType.fromObject] in Hupd.
  apply ColumnType_update_taskIds in Hupd.
  assert (∀ t, t ∈ ColumnType.taskIds new ↔ t ∈ ColumnType.taskIds old) as Hsame.
  { intros t. rewrite Hupd. destruct (ColumnType.u_taskIds u) as [ids|] eqn:Hids; [|done].
    by apply (Hu ids old). }
  split.
  - eapply columnOrder_matches_same_keys; [| |exact Horder]; [done|].
    intros c'. simpl. by apply is_Some_insert_existing.
  - apply (every_task_same_membership b); [done| |done].
    intros c' t _. rewrite owns_insert. unfold owns. simpl. rewrite Hsame. split.
    + intros [[-> Hin]|[_ Ho]]; [by exists old | done].
    + intros (col' & Hcol' & Hin). destruct (decide (c' = c)) as [->|Hne].
      * left. split; [done|]. rewrite Hold in Hcol'. by injection Hcol' as <-.
      * right. split; [done|]. by exists col'.
Qed.

Lemma deleteColumn_invariant confirmed c now b b' :
  deleteColumn confirmed c now b = Ok b' → board_invariant b → board_invariant b'.
Proof.
  destruct confirmed.
  2:{ unfold deleteColumn. destruct (dict_get (columns b) c); [| |done]; by intros [= <-]. }
  intros Hrun [[Hnodup Hkeys] Htasks].
  apply deleteColumn_Ok in Hrun as (_ & ->). rewrite listed_taskIds_lookup.
  split; [split|]; simpl.
  - by apply NoDup_without.
  - intros c'. rewrite elem_of_without, Hkeys.
    destruct (decide (c' = c)) as [->|Hne].
    + rewrite lookup_delete_eq. split; [by intros [_ ?] | by intros [? ?]].
    + rewrite lookup_delete_ne by done. split; [by intros [? _] | done].
  - apply (every_task_same_membership b); [| |done]; simpl.
    + intros t. rewrite lookup_delete_all. by case_bool_decide; [intros [? ?]|].
    + intros c' t. rewrite lookup_delete_all. case_bool_decide as Hin; [by intros [? ?]|].
      intros _. unfold owns. simpl. destruct (decide (c' = c)) as [->|Hne].
      * rewrite lookup_delete_eq. split; [by intros (? & ? & _)|].
        intros (col' & Hcol' & Hin'). rewrite Hcol' in Hin. done.
      * by rewrite lookup_delete_ne.
Qed.

Lemma reorderColumns_invariant newOrder now b b' :
  newOrder ≡ₚ columnOrder b →
  reorderColumns newOrder now b = Ok b' → board_invariant b → board_invariant b'.
Proof.
  intros Hperm [= <-] [[Hnodup Hkeys] Htasks]. split; [split|]; simpl.
  - by rewrite Hperm.
  - intros c. by rewrite Hperm.
  - by apply (every_task_same_membership b).
Qed.

Lemma emptyBoard_invariant now : board_invariant (emptyBoard now).
Proof.
  unfold emptyBoard. split; [split|]; cbn [columnOrder columns tasks].
  - apply NoDup_nil_2.
  - intros c. rewrite lookup_empty. split; [by intros ?%elem_of_nil | by intros [? ?]].
  - intros t [x Hx]. cbn [tasks] in Hx. by rewrite lookup_empty in Hx.
Qed.

Lemma clearBoard_invariant confirmed now b b' :
  clearBoard confirmed now b = Ok b' → board_invariant b → board_invariant b'.
Proof.
  destruct confirmed; intros [= <-]; [|done]. intros _.
  apply (emptyBoard_invariant now).
Qed.

(** ** Importing a typed board *)

Lemma prop_lookup_set k k' props v :
  prop_lookup k (prop_set props k' v) =
  if String.eqb k' k then Some v else prop_lookup k props.
Proof.
  induction props as [|[k0 v0] props IH]; simpl.
  - done.
  - destruct (String.eqb k0 k') eqn:E0; simpl.
    + apply String.eqb_eq in E0. subst k0. by destruct (String.eqb k' k).
    + rewrite IH. destruct (String.eqb k0 k) eqn:E1; [|done].
      apply String.eqb_eq in E1. subst k0. by rewrite String.eqb_sym, E0.
Qed.

Lemma asDict_truthy {A} (f : value → option A) v m : asDict f v = Some m → truthy v = true.
Proof. by destruct v. Qed.

Lemma importBoardData_asBoard data d now :
  asBoard data = Some d →
  ∃ v, importBoardData data now = Ok v ∧ asBoard v = Some (set_lastModified d now).
Proof.
  unfold asBoard. intros Hd.
  destruct data as [| | | | | |props]; try done. simpl in Hd.
  destruct (prop_lookup "tasks" props) as [vt|] eqn:Ht; [|done]. simpl in Hd.
  destruct (asDict asTask vt) as [ts|] eqn:Hts; [|done]. simpl in Hd.
  destruct (prop_lookup "columns" props) as [vc|] eqn:Hc; [|done]. simpl in Hd.
  destruct (asDict asColumn vc) as [cs|] eqn:Hcs; [|done]. simpl in Hd.
  destruct (prop_lookup "columnOrder" props) as [vo|] eqn:Ho; [|done]. simpl in Hd.
  destruct (asStrings vo) as [co|] eqn:Hco; [|done]. simpl in Hd.
  destruct (prop_lookup "lastModified" props) as [vl|] eqn:Hl; [|done]. simpl in Hd.
  destruct (asString vl) as [lm|] eqn:Hlm; [|done]. simpl in Hd.
  injection Hd as <-.
  eexists. split.
  - unfold importBoardData. simpl. rewrite Ht, Hc. simpl.
    rewrite (asDict_truthy _ _ _ Hts), (asDict_truthy _ _ _ Hcs). simpl. done.
  - unfold stamp. simpl. rewrite !prop_lookup_set. simpl.
    rewrite Ht. simpl. rewrite Hts. simpl. rewrite Hc. simpl. rewrite Hcs. simpl.
    rewrite Ho. simpl. rewrite Hco. simpl. done.
Qed.

Section Reachable.
Context `{JsDate}.

Lemma performs_invariant o b b' :
  generates_fresh o b → respects_invariant o b → performs o b b' →
  board_invariant b → board_invariant b'.
Proof.
  destruct o; simpl; intros Hfresh Hresp Hrun Hinv.
  - destruct Hfresh as [_ Hfresh]. by eapply addTask_invariant.
  - by eapply updateTask_invariant.
  - destruct Hrun as (entries & _ & Hrun). by eapply deleteTask_invariant.
  - destruct Hrun as (entries & Henum & Hrun). by eapply moveTask_invariant.
  - destruct Hfresh as [_ Hfresh]. by eapply addColumn_invariant.
  - destruct Hresp as [Hplain Hids]. by eapply updateColumn_invariant.
  - by eapply deleteColumn_invariant.
  - by eapply reorderColumns_invariant.
  - by eapply clearBoard_invariant.
  - destruct Hresp as (d & Hd & Hdinv). destruct Hrun as (v & Hv & Hb').
    destruct (importBoardData_asBoard _ _ now Hd) as (v' & Hv' & Hd').
    rewrite Hv in Hv'. injection Hv' as <-. rewrite Hb' in Hd'. injection Hd' as ->.
    by apply set_lastModified_invariant.
Qed.

End Reachable.

(** ** C1: the board invariant over reachable states *)

(** C1, as amended.  Every board reached from the empty board by the
    store's operations satisfies the invariant ([columnOrder] is
    duplicate-free and has exactly the keys of [columns]; every stored
    task identifier is listed by exactly one column), provided each
    generated identifier is unused, [updateTask] and [updateColumn] are
    given an identifier that is not the name of a member of
    [Object.prototype], the patch of [updateColumn] lists, if it carries
    [taskIds], the identifiers the column lists, [reorderColumns] is
    given a permutation of the present order and [importBoardData] is
    given a typed board that satisfies the invariant. *)
Theorem reachable_checked_invariant `{JsDate} (b : Board) :
  reachable_checked b → board_invariant b.
Proof.
  induction 1 as [now|o b b' _ IH Hfresh Hresp Hrun].
  - apply emptyBoard_invariant.
  - by eapply performs_invariant.
Qed.

Lemma board_todo_reachable_checked : reachable_checked (H:=utc_runtime) board_todo.
Proof.
  apply (reachable_checked_step (AddColumn todo_form column_1 "t1") (emptyBoard "t0")).
  - apply reachable_checked_empty.
  - split; [by exists "mhj4x1zz", "p0o9i8u7y"|].
    split_and!; [reflexivity | reflexivity | apply not_elem_of_nil |].
    intros c col Hc. cbn [emptyBoard columns] in Hc. by rewrite lookup_empty in Hc.
  - exact I.
  - vm_compute. reflexivity.
Defined.

Lemma reachable_checked_invariant_witness :
  reachable_checked (H:=utc_runtime) board_one_task ∧ board_invariant board_one_task.
Proof.
  assert (reachable_checked (H:=utc_runtime) board_one_task) as Hreach.
  { apply (reachable_checked_step (AddTask column_1 write_spec_form task_1 "t2")
             board_todo).
    - apply board_todo_reachable_checked.
    - split; [by exists "mhj4x2a0", "k3f9q1z7b"|].
      split_and!; [reflexivity | reflexivity | |].
      + intros [Heq|Hin]%elem_of_cons; [discriminate | by apply elem_of_nil in Hin].
      + intros c col Hc. cbn [board_todo columns] in Hc.
        apply lookup_singleton_Some in Hc as [_ <-]. apply not_elem_of_nil.
    - exact I.
    - vm_compute. reflexivity. }
  split; [exact Hreach | exact (reachable_checked_invariant board_one_task Hreach)].
Defined.

(** C1, counterexample.  [reorderColumns(["ghost"])] on the empty board
    returns, and leaves a [columnOrder] that names a column [columns]
    does not have. *)
Lemma reachable_breaks_invariant :
  reachable (H:=utc_runtime) board_ghost_order ∧ ¬ board_invariant board_ghost_order.
Proof.
  split.
  - apply (reachable_step (ReorderColumns ["ghost"] "t1") (emptyBoard "t0")).
    + apply reachable_empty.
    + exact I.
    + reflexivity.
  - intros [[_ Hkeys] _]. destruct (proj1 (Hkeys "ghost")) as [col Hcol].
    + by left.
    + cbn [board_ghost_order columns] in Hcol. by rewrite lookup_empty in Hcol.
Qed.

(** The same state is reached by importing a well-typed board object. *)
Lemma import_breaks_invariant :
  performs (H:=utc_runtime) (ImportSnapshot data_ghost_order "t1") (emptyBoard "t0")
           board_ghost_order.
Proof. eexists. split; [reflexivity | vm_compute; reflexivity]. Qed.

(** [updateColumn] with [taskIds] in the patch makes a column list a task
    that another column lists. *)
Lemma updateColumn_taskIds_breaks_invariant :
  let b := mkBoard {[ task_1 := TaskType.mk "" "Write spec" "" "medium" "" "" "t2" "t2" ]}
                   {[ column_1 := todo_column [task_1] "t2";
                      column_2 := todo_column [] "t1" ]}
                   [column_1; column_2] "t3" in
  ∃ b', updateColumn column_2
          (ColumnType.mkUpdates None None None (Some [task_1]) None None) "t4" b = Ok b'
        ∧ owns b' column_1 task_1 ∧ owns b' column_2 task_1.
Proof.
  eexists. split; [vm_compute; reflexivity|].
  split; eexists; (split; [vm_compute; reflexivity | by left]).
Qed.

(** [updateTask("constructor", { title })] finds the function every
    object inherits under that name, makes a task of it and stores it,
    listed by no column. *)
Lemma updateTask_prototype_name_breaks_invariant :
  tasks board_one_task !! "constructor" = None ∧
  ∃ b', updateTask (H:=utc_runtime) "constructor"
          (TaskType.mkUpdates None (Some "x") None None None None None) "t3" board_one_task
        = Ok b' ∧
        is_Some (tasks b' !! "constructor") ∧ ¬ board_invariant b'.
Proof.
  split; [reflexivity|].
  destruct (updateTask (H:=utc_runtime) "constructor"
              (TaskType.mkUpdates None (Some "x") None None None None None) "t3"
              board_one_task) as [b'|e] eqn:Hrun; [|by vm_compute in Hrun].
  exists b'. split; [reflexivity|].
  apply updateTask_Ok in Hrun as (updatedTask & _ & _ & ->).
  assert (is_Some (<["constructor" := updatedTask]> (tasks board_one_task) !! "constructor"))
    as Hstored by (rewrite lookup_insert_eq; by eexists).
  split; [exact Hstored|].
  intros [_ Htasks]. destruct (Htasks "constructor" Hstored) as (c & (col & Hc & Hin) & _).
  cbn [columns board_one_task] in Hc. apply lookup_singleton_Some in Hc as [_ <-].
  apply elem_of_cons in Hin as [Heq|Hin]; [discriminate | by apply elem_of_nil in Hin].
Qed.

(** The patch [{ ...column, title }] that the column component hands to
    [updateColumn] carries the column's own [taskIds]; it meets the
    condition on patches. *)
Lemma retitled_respects_invariant (b : Board) (c title now : string)
    (column : ColumnType.t) :
  is_prototype_name c = false → columns b !! c = Some column →
  respects_invariant (UpdateColumn c (Column.retitled column title) now) b.
Proof.
  intros Hplain Hc. split; [done|]. intros ids col [= <-] Hcol.
  rewrite Hc in Hcol. by injection Hcol as <-.
Qed.

(** ** C2: reordering columns *)

(** C2, as amended.  [reorderColumns(newOrder)] never fails: for every
    list, a permutation of the present order or not, it replaces
    [columnOrder] verbatim, leaves [tasks] and [columns] as they are and
    stamps [lastModified]. *)
Theorem reorderColumns_replaces_verbatim (newOrder : list string) (now : string) (b : Board) :
  reorderColumns newOrder now b = Ok (mkBoard (tasks b) (columns b) newOrder now).
Proof. reflexivity. Qed.

(** C2, counterexample.  On a board with columns [column_1] and
    [column_2], [reorderColumns([column_1])], a list missing one
    existing column, returns and changes [columnOrder]. *)
Lemma reorderColumns_accepts_missing_column :
  let b := mkBoard ∅ {[ column_1 := todo_column [] "t1"; column_2 := todo_column [] "t2" ]}
                   [column_1; column_2] "t2" in
  ¬ ([column_1] ≡ₚ columnOrder b) ∧
  ∃ b', reorderColumns [column_1] "t3" b = Ok b' ∧
        commit b (reorderColumns [column_1] "t3" b) = b' ∧
        columnOrder b' = [column_1] ∧ columnOrder b' ≠ columnOrder b.
Proof.
  split.
  - intros Hperm. apply Permutation_length in Hperm. discriminate.
  - eexists. split_and!; [reflexivity | reflexivity | reflexivity | discriminate].
Qed.

(** On a board whose order matches its columns, the order still matches
    after [reorderColumns(newOrder)] exactly when [newOrder] is a
    permutation of the present order. *)
Lemma reorderColumns_matches_iff_permutation (newOrder : list string) (now : string)
    (b : Board) :
  columnOrder_matches_columns b →
  columnOrder_matches_columns (mkBoard (tasks b) (columns b) newOrder now) ↔
  newOrder ≡ₚ columnOrder b.
Proof.
  intros [Hnodup Hkeys]. unfold columnOrder_matches_columns. simpl. split.
  - intros [Hnodup' Hkeys']. apply NoDup_Permutation; [done..|].
    intros c. by rewrite Hkeys, Hkeys'.
  - intros Hperm. split; [by rewrite Hperm|]. intros c. by rewrite Hperm.
Qed.

(** ** C3: importing a snapshot *)

Lemma prop_set_idemp props k v :
  prop_set (prop_set props k v) k v = prop_set props k v.
Proof.
  induction props as [|[k0 v0] props IH]; simpl.
  - by rewrite String.eqb_refl.
  - destruct (String.eqb k0 k) eqn:E; simpl; rewrite E; [done | by rewrite IH].
Qed.

Lemma has_tasks_and_columns_object data :
  has_tasks_and_columns data = true → ∃ props, data = JObj props.
Proof. destruct data; try done. by eexists. Qed.

(** C3, as amended.  [importBoardData(data)] throws
    ['Invalid import data structure'] (a validation error; the prior
    board stays) when [data] is not an object whose [tasks] and [columns]
    properties are both truthy.  When they are truthy, of whatever type,
    and [columnOrder] is an array, it returns, and the new board is
    [data]'s own properties with [lastModified] stamped.  Nothing is said
    of data whose [columnOrder] is missing or not an array. *)
Theorem importBoardData_structural_check (data : value) (now : string) :
  (has_tasks_and_columns data = false →
     importBoardData data now = Throw InvalidImportStructure ∧
     kind InvalidImportStructure = ValidationError ∧
     ∀ prevData, commit prevData (importBoardData data now) = prevData) ∧
  (has_tasks_and_columns data = true → has_columnOrder_array data = true →
     importBoardData data now =
       Ok (JObj (prop_set (own_props data) "lastModified" (JStr now)))).
Proof.
  assert (has_tasks_and_columns data = false →
          importBoardData data now = Throw InvalidImportStructure) as Hfail.
  { unfold has_tasks_and_columns, importBoardData, field.
    destruct data as [| |[]|n|s| |props]; simpl; try done.
    - by destruct (n =? 0).
    - by destruct s.
    - destruct (prop_lookup "tasks" props) as [t|]; simpl; [|done].
      destruct (truthy t); simpl; [|done].
      destruct (prop_lookup "columns" props) as [c|]; simpl; [|done].
      by destruct (truthy c). }
  split.
  - intros Hno. split_and!; [by apply Hfail | done |].
    intros prevData. by rewrite Hfail.
  - intros Hyes _. destruct (has_tasks_and_columns_object _ Hyes) as [props ->].
    unfold has_tasks_and_columns, field in Hyes. unfold importBoardData, stamp. simpl.
    destruct (prop_lookup "tasks" props) as [t|]; [|done].
    destruct (prop_lookup "columns" props) as [c|]; [|done].
    apply andb_true_iff in Hyes as [Ht Hc]. simpl. rewrite Ht. simpl. rewrite Hc. simpl.
    by rewrite prop_set_idemp.
Qed.

Lemma importBoardData_structural_check_witness :
  has_tasks_and_columns JNull = false ∧
  importBoardData JNull "t1" = Throw InvalidImportStructure ∧
  has_tasks_and_columns data_ghost_order = true ∧
  importBoardData data_ghost_order "t1" =
    Ok (JObj [("tasks", JObj []); ("columns", JObj []);
              ("columnOrder", JArr [JStr "ghost"]); ("lastModified", JStr "t1")]).
Proof.
  split_and!.
  - reflexivity.
  - apply (importBoardData_structural_check JNull "t1"). reflexivity.
  - reflexivity.
  - apply (importBoardData_structural_check data_ghost_order "t1"); reflexivity.
Defined.

(** C3, counterexample.  Import data whose [tasks] is the number 1 is
    not a well-typed snapshot, yet [importBoardData] returns and the
    board becomes that object. *)
Lemma importBoardData_accepts_mistyped_tasks :
  well_typed_snapshot data_numeric_tasks = false ∧
  importBoardData data_numeric_tasks "t1" =
    Ok (JObj [("tasks", JNum 1); ("columns", JObj []); ("columnOrder", JArr []);
              ("lastModified", JStr "t1")]).
Proof. split; reflexivity. Qed.

(** Import data without [columnOrder] is accepted as well, while
    [StorageService.loadBoardData] rejects the same object. *)
Lemma importBoardData_accepts_missing_columnOrder :
  well_typed_snapshot data_no_columnOrder = false ∧
  is_ok (importBoardData data_no_columnOrder "t1") = true ∧
  StorageService.loadBoardData data_no_columnOrder = JNull.
Proof. split_and!; reflexivity. Qed.

(** ** C4: adding a task *)

Section AddTask.
Context `{JsDate}.

(** What [addTask] does on an existing column with valid task data:
    the generated identifier goes last in the column's [taskIds] and
    keys the new task in [tasks]; the task's own [id] field is the
    empty string, because [TaskFactory.createFromForm] does not pass
    the [id] it is given to the constructor. *)
Lemma addTask_existing_column c d i now b col :
  columns b !! c = Some col →
  TaskType.isValid (TaskFactory.createFromForm (TaskFactory.with_id d i) now) = true →
  ∃ b' task col',
    addTask c d i now b = Ok b' ∧
    tasks b' !! i = Some task ∧ TaskType.id task = "" ∧
    columns b' !! c = Some col' ∧
    ColumnType.taskIds col' = (ColumnType.taskIds col ++ [i])%list ∧
    columnOrder b' = columnOrder b.
Proof.
  intros Hc Hvalid. unfold addTask, updateBoardData.
  rewrite Hvalid, (dict_get_Some _ _ _ Hc). simpl.
  eexists _, _, _. split_and!; [reflexivity | | | | |]; simpl.
  - apply lookup_insert_eq.
  - reflexivity.
  - apply lookup_insert_eq.
  - reflexivity.
  - reflexivity.
Qed.

(** On a column identifier the board does not have, [addTask] throws
    'Column ... not found', unless the identifier names a member of
    [Object.prototype]: then the lookup finds that member and the spread
    of its missing [taskIds] raises a [TypeError]. *)
Lemma addTask_unknown_column c d i now b :
  columns b !! c = None →
  TaskType.isValid (TaskFactory.createFromForm (TaskFactory.with_id d i) now) = true →
  (is_prototype_name c = false →
   addTask c d i now b = Throw (ColumnNotFound c) ∧
   kind (ColumnNotFound c) = NotFoundError) ∧
  (is_prototype_name c = true →
   ∃ what, addTask c d i now b = Throw (TypeError what)).
Proof.
  intros Hc Hvalid. unfold addTask, updateBoardData, dict_get. rewrite Hvalid, Hc.
  split; intros ->; [done | by eexists].
Qed.

End AddTask.

(** C4, at the failing input.  [addTask(column_1, {title: "Write spec"})]
    with generated identifier [task_1] on [board_todo] stores under
    [task_1] a task whose [id] is the empty string. *)
Theorem addTask_stores_empty_id :
  fresh_id board_todo task_1 ∧
  addTask (H:=utc_runtime) column_1 write_spec_form task_1 "t2" board_todo
    = Ok board_one_task ∧
  TaskType.id <$> tasks board_one_task !! task_1 = Some "" ∧
  task_1 ≠ "" ∧
  ColumnType.taskIds <$> columns board_one_task !! column_1 = Some [task_1].
Proof.
  split_and!; [|vm_compute; reflexivity| vm_compute; reflexivity | discriminate
               | vm_compute; reflexivity].
  split_and!; [reflexivity | reflexivity | |].
  - intros [Heq|Hin]%elem_of_cons; [discriminate | by apply elem_of_nil in Hin].
  - intros c col Hc. cbn [board_todo columns] in Hc.
    apply lookup_singleton_Some in Hc as [_ <-]. apply not_elem_of_nil.
Qed.

(** ** C5: moving a task to the column that holds it *)

(** C5, as amended.  When column [c] (a non-empty identifier) is the one
    column that lists task [t], [moveTask(t, c)] returns a board with the
    [tasks], [columns] and [columnOrder] of the input and [lastModified]
    stamped with the present time. *)
Theorem moveTask_same_column (b : Board) (entries : list (string * ColumnType.t))
    (t c now : string) :
  enumerates entries (columns b) →
  c ≠ "" → owns b c t → (∀ c', owns b c' t → c' = c) →
  moveTask entries t c now b = Ok (set_lastModified b now).
Proof.
  intros Henum Hc (col & Hcol & Ht) Huniq. unfold moveTask, updateBoardData.
  rewrite (findSourceColumn_owner entries (columns b) t c col Henum Hcol Ht).
  - assert (truthy_str c = true) as Htruthy by by destruct c.
    cbn -[String.eqb truthy_str]. by rewrite Htruthy, String.eqb_refl.
  - intros c' col' Hcol' Ht'. apply Huniq. by exists col'.
Qed.

Lemma moveTask_same_column_witness :
  moveTask (map_to_list (columns board_one_task)) task_1 column_1 "t3" board_one_task
  = Ok (set_lastModified board_one_task "t3").
Proof.
  apply (moveTask_same_column board_one_task _ task_1 column_1 "t3").
  - apply enumerates_map_to_list.
  - discriminate.
  - exists (todo_column [task_1] "t2"). split; [reflexivity | by left].
  - intros c' (col & Hcol & _). cbn [board_one_task columns] in Hcol.
    by apply lookup_singleton_Some in Hcol as [<- _].
Defined.

(** C5, counterexample.  [moveTask(task_1, column_1)] on a board
    whose [column_1] holds [task_1] and whose [lastModified] is ["t2"]
    returns a board whose [lastModified] is ["t3"]. *)
Lemma moveTask_same_column_restamps :
  owns board_one_task column_1 task_1 ∧
  enumerates [(column_1, todo_column [task_1] "t2")] (columns board_one_task) ∧
  ∃ b', moveTask [(column_1, todo_column [task_1] "t2")]
                 task_1 column_1 "t3" board_one_task = Ok b' ∧
        lastModified b' = "t3" ∧ lastModified board_one_task = "t2" ∧
        b' ≠ board_one_task.
Proof.
  split_and!.
  - exists (todo_column [task_1] "t2"). split; [reflexivity | by left].
  - unfold enumerates. cbn [board_one_task columns]. by rewrite map_to_list_singleton.
  - eexists. split_and!; [vm_compute; reflexivity | reflexivity | reflexivity |].
    intros Heq. apply (f_equal lastModified) in Heq. discriminate.
Qed.

(** ** C6: the overdue count of the statistics *)

Lemma length_filter_Permutation {A} (P : A → bool) (l l' : list A) :
  l ≡ₚ l' → length (List.filter P l) = length (List.filter P l').
Proof.
  induction 1 as [|x l l' _ IH|x y l|l l' l'' _ IH1 _ IH2]; simpl.
  - done.
  - destruct (P x); simpl; by rewrite IH.
  - by destruct (P x), (P y).
  - by rewrite IH1.
Qed.

(** The overdue count does not depend on the order in which
    [Object.values] lists the tasks. *)
Lemma overdueTasks_any_order `{JsDate} (b : Board) (today : Z) (values : list TaskType.t) :
  values ≡ₚ task_values b →
  length (List.filter (stats_overdue today) values) = overdueTasks (getBoardStats b today).
Proof. intros Hperm. simpl. by apply length_filter_Permutation. Qed.

(** The two predicates of the source that strip the time of day agree. *)
Lemma isOverdue_dateHelpers `{JsDate} (task : TaskType.t) (today : Z) :
  TaskType.isOverdue task today = dateHelpers.isOverdue (TaskType.dueDate task) today.
Proof. reflexivity. Qed.

(** C6, at the failing input.  At noon of 2026-11-03 (UTC), on a board
    whose one task is due 2026-11-03 (read as midnight of that day):
    [getBoardStats] reports one overdue task, while [isOverdue()] is
    false for the task, so that no task is overdue. *)
Theorem getBoardStats_counts_task_due_today :
  date_parse (JsDate:=utc_runtime) "2026-11-03" = Some midnight_2026_11_03 ∧
  task_values board_due_today = [task_due_2026_11_03] ∧
  TaskType.isOverdue (H:=utc_runtime) task_due_2026_11_03 noon_2026_11_03 = false ∧
  dateHelpers.isOverdue (H:=utc_runtime) "2026-11-03" noon_2026_11_03 = false ∧
  count_isOverdue (H:=utc_runtime) board_due_today noon_2026_11_03 = 0%nat ∧
  overdueTasks (getBoardStats (H:=utc_runtime) board_due_today noon_2026_11_03) = 1%nat.
Proof. split_and!; vm_compute; reflexivity. Qed.

(** ** C7: adding a column *)

(** What [addColumn] does with valid column data: the generated
    identifier goes last in [columnOrder] and keys the new column, whose
    [order] is 0 whatever the length of [columnOrder]. *)
Lemma addColumn_valid d i now b :
  ColumnType.isValid
    (ColumnFactory.createFromForm
       (ColumnFactory.with_id_order d i (Z.of_nat (length (columnOrder b)))) now) = true →
  ∃ b' column,
    addColumn d i now b = Ok b' ∧
    columns b' !! i = Some column ∧ ColumnType.order column = 0 ∧
    ColumnType.taskIds column = [] ∧
    columnOrder b' = (columnOrder b ++ [i])%list ∧ tasks b' = tasks b.
Proof.
  intros Hvalid. unfold addColumn, updateBoardData. rewrite Hvalid. simpl.
  eexists _, _. split_and!; [reflexivity | apply lookup_insert_eq | done..].
Qed.

(** C7, at the failing input.  [addColumn({title: "Doing", color:
    "bg-blue-50"})] on [board_todo], whose [columnOrder] has length 1,
    stores a column whose [order] is 0. *)
Theorem addColumn_stores_order_zero :
  length (columnOrder board_todo) = 1%nat ∧
  ∃ b', addColumn doing_form column_2 "t2" board_todo = Ok b' ∧
        columnOrder b' = [column_1; column_2] ∧
        ColumnType.order <$> columns b' !! column_2 = Some 0.
Proof.
  split; [reflexivity|]. eexists. split_and!; vm_compute; reflexivity.
Qed.

(** ** C8: moving a task within its column *)

Lemma indexOf_elem_of (l : list string) (x : string) :
  x ∈ l → ∃ i, indexOf l x = Some i ∧ (i < length l)%nat.
Proof.
  induction l as [|y l IH]; [by intros ?%elem_of_nil|].
  intros Hx. simpl. destruct (String.eqb y x) eqn:E.
  - exists 0%nat. split; [done | lia].
  - apply String.eqb_neq in E. apply elem_of_cons in Hx as [->|Hx]; [done|].
    destruct (IH Hx) as (i & -> & Hi). exists (S i). split; [done | lia].
Qed.

Lemma length_delete_lt (l : list string) (i : nat) :
  (i < length l)%nat → S (length (delete i l)) = length l.
Proof.
  revert i. induction l as [|y l IH]; intros [|i] Hi; simpl in *; try lia.
  rewrite IH; lia.
Qed.

Lemma splice_start_bounds (len start : Z) :
  0 ≤ len → 0 ≤ splice_start len start ≤ len.
Proof. unfold splice_start. destruct (start <? 0) eqn:E; lia. Qed.

Lemma ColumnType_validate_errors_ext (x y : ColumnType.t) :
  ColumnType.title y = ColumnType.title x →
  ColumnType.color y = ColumnType.color x →
  length (ColumnType.taskIds y) = length (ColumnType.taskIds x) →
  ColumnType.validate_errors y = ColumnType.validate_errors x.
Proof. unfold ColumnType.validate_errors. by intros -> -> ->. Qed.

Lemma ColumnType_update_taskIds_only (x : ColumnType.t) (ids : list string) (now : string) :
  length ids = length (ColumnType.taskIds x) → ColumnType.isValid x = true →
  ColumnType.update x (ColumnType.mkUpdates None None None (Some ids) None None) now
  = Ok (set_taskIds x ids now).
Proof.
  intros Hlen Hvalid. unfold ColumnType.update.
  cbn -[ColumnType.isValid ColumnType.validate_errors].
  fold (set_taskIds x ids now).
  assert (ColumnType.isValid (set_taskIds x ids now) = true) as ->; [|done].
  unfold ColumnType.isValid in *.
  by rewrite (ColumnType_validate_errors_ext x (set_taskIds x ids now)).
Qed.

(** Clamping into [[0, length]] with the length before the removal
    reinserts at the same place. *)
Lemma reinsert_clamped_length_before (rest : list string) (newIndex : Z) (taskId : string) :
  let k := Z.to_nat (Z.max 0 (Z.min newIndex (Z.of_nat (length rest) + 1))) in
  (take k rest ++ taskId :: drop k rest)%list = reinsert_clamped rest newIndex taskId.
Proof.
  unfold reinsert_clamped. cbv zeta.
  destruct (decide (newIndex ≤ Z.of_nat (length rest))) as [Hle|Hgt].
  - by replace (Z.min newIndex (Z.of_nat (length rest) + 1))
      with (Z.min newIndex (Z.of_nat (length rest))) by lia.
  - rewrite !take_ge, !drop_ge by lia. done.
Qed.

(** C8, as amended.  [moveTask(taskId, newIndex)] of a column throws
    ['Task not found in column'] when the column does not list the task.
    On a column that lists it and passes [validate()], it removes the
    identifier at its first index and reinserts it where [splice] puts
    it: at [newIndex] clamped into [[0, length]] when [newIndex] is not
    negative, at [max(length + newIndex, 0)] when it is ([length] being
    that of the list after the removal); the other identifiers keep
    their order.  On a column that lists it and fails [validate()], it
    throws the validation error of [update()], with the errors of the
    column. *)
Theorem ColumnType_moveTask_splices (x : ColumnType.t) (taskId : string)
    (newIndex : Z) (now : string) :
  (taskId ∉ ColumnType.taskIds x →
     ColumnType.moveTask x taskId newIndex now = Throw TaskNotInColumn ∧
     kind TaskNotInColumn = NotFoundError) ∧
  (taskId ∈ ColumnType.taskIds x → ColumnType.isValid x = true →
     ∃ y currentIndex,
       ColumnType.moveTask x taskId newIndex now = Ok y ∧
       indexOf (ColumnType.taskIds x) taskId = Some currentIndex ∧
       let rest := delete currentIndex (ColumnType.taskIds x) in
       let len := Z.of_nat (length rest) in
       let k := Z.to_nat (if newIndex <? 0 then Z.max (len + newIndex) 0
                          else Z.max 0 (Z.min newIndex len)) in
       ColumnType.taskIds y = (take k rest ++ taskId :: drop k rest)%list ∧
       delete k (ColumnType.taskIds y) = rest ∧
       (0 ≤ newIndex → ColumnType.taskIds y = reinsert_clamped rest newIndex taskId) ∧
       y = set_taskIds x (ColumnType.taskIds y) now) ∧
  (taskId ∈ ColumnType.taskIds x → ColumnType.isValid x = false →
     ColumnType.moveTask x taskId newIndex now
       = Throw (InvalidColumnData (ColumnType.validate_errors x)) ∧
     ColumnType.validate_errors x ≠ [] ∧
     kind (InvalidColumnData (ColumnType.validate_errors x)) = ValidationError).
Proof.
  split_and!.
  - intros Hnot%includes_not_elem_of. unfold ColumnType.moveTask. by rewrite Hnot.
  - intros Hin Hvalid. destruct (indexOf_elem_of _ _ Hin) as (i & Hi & Hlt).
    apply includes_elem_of in Hin.
    set (rest := delete i (ColumnType.taskIds x)).
    set (len := Z.of_nat (length rest)).
    assert (splice_start len newIndex =
            if newIndex <? 0 then Z.max (len + newIndex) 0
            else Z.max 0 (Z.min newIndex len)) as Hk.
    { unfold splice_start. destruct (newIndex <? 0) eqn:E; lia. }
    pose proof (splice_start_bounds len newIndex ltac:(lia)) as Hbounds.
    set (k := Z.to_nat (splice_start len newIndex)) in *.
    assert (length (take k rest) = k) as Htake by (rewrite length_take; lia).
    set (ids := (take k rest ++ taskId :: drop k rest)%list).
    assert (length ids = length (ColumnType.taskIds x)) as Hlen.
    { unfold ids. rewrite length_app, Htake. simpl. rewrite length_drop.
      pose proof (length_delete_lt _ _ Hlt). fold rest in H. lia. }
    exists (set_taskIds x ids now), i.
    assert (ColumnType.moveTask x taskId newIndex now = Ok (set_taskIds x ids now)) as Hrun.
    { unfold ColumnType.moveTask. rewrite Hin, Hi. cbn [negb].
      unfold splice_insert. fold rest len k ids.
      by apply ColumnType_update_taskIds_only. }
    split; [exact Hrun|]. split; [exact Hi|].
    cbv zeta. fold rest len. rewrite <- Hk. fold k.
    change (ColumnType.taskIds (set_taskIds x ids now)) with ids.
    split_and!.
    + done.
    + unfold ids. rewrite <- Htake at 1. rewrite delete_middle. apply take_drop.
    + intros Hpos. unfold reinsert_clamped. fold len.
      replace (Z.to_nat (Z.max 0 (Z.min newIndex len))) with k; [done|].
      unfold k, splice_start. destruct (newIndex <? 0) eqn:E; lia.
    + done.
  - intros Hin Hinvalid. destruct (indexOf_elem_of _ _ Hin) as (i & Hi & Hlt).
    apply includes_elem_of in Hin. unfold ColumnType.moveTask. rewrite Hin, Hi. cbn [negb].
    set (ids := splice_insert (delete i (ColumnType.taskIds x)) newIndex taskId).
    assert (length ids = length (ColumnType.taskIds x)) as Hlen.
    { unfold ids, splice_insert. rewrite length_app, length_take. cbn [length].
      rewrite length_drop. pose proof (length_delete_lt _ _ Hlt). lia. }
    unfold ColumnType.update. cbn -[ColumnType.isValid ColumnType.validate_errors].
    fold (set_taskIds x ids now).
    assert (ColumnType.validate_errors (set_taskIds x ids now)
            = ColumnType.validate_errors x) as Herrs
      by by apply ColumnType_validate_errors_ext.
    unfold ColumnType.isValid in *. rewrite Herrs.
    destruct (ColumnType.validate_errors x); done.
Qed.

Lemma ColumnType_moveTask_splices_witness :
  ColumnType.moveTask column_abc "z" 1 "t1" = Throw TaskNotInColumn ∧
  ColumnType.moveTask (ColumnType.mk "" "" "bg-gray-100" ["a"; "b"] "t0" "t0" 0) "a" 1 "t1"
    = Throw (InvalidColumnData ["Title is required"]) ∧
  ∃ y, ColumnType.moveTask column_abc "a" 1 "t1" = Ok y ∧
       ColumnType.taskIds y = ["b"; "a"; "c"].
Proof.
  split_and!.
  - apply (ColumnType_moveTask_splices column_abc "z" 1 "t1"). vm_compute.
    intros Hin. by repeat (apply elem_of_cons in Hin as [Heq|Hin]; [discriminate|]);
      apply elem_of_nil in Hin.
  - apply (proj2 (proj2 (ColumnType_moveTask_splices
                           (ColumnType.mk "" "" "bg-gray-100" ["a"; "b"] "t0" "t0" 0)
                           "a" 1 "t1"))); [by left | reflexivity].
  - destruct (proj1 (proj2 (ColumnType_moveTask_splices column_abc "a" 1 "t1")))
      as (y & i & Hrun & Hi & Hids & _).
    + by left.
    + reflexivity.
    + exists y. split; [exact Hrun|].
      assert (i = 0%nat) as -> by (vm_compute in Hi; congruence).
      exact Hids.
Defined.

(** C8, counterexample.  On [taskIds = ["a"; "b"; "c"]],
    [moveTask("a", -1)] leaves [["b"; "a"; "c"]]; clamping [-1] into
    [[0, length]] would reinsert ["a"] at the front. *)
Lemma ColumnType_moveTask_negative_index :
  ∃ y, ColumnType.moveTask column_abc "a" (-1) "t1" = Ok y ∧
       ColumnType.taskIds y = ["b"; "a"; "c"] ∧
       reinsert_clamped ["b"; "c"] (-1) "a" = ["a"; "b"; "c"] ∧
       ColumnType.taskIds y ≠ reinsert_clamped ["b"; "c"] (-1) "a".
Proof.
  eexists. split_and!; [vm_compute; reflexivity | reflexivity | reflexivity | discriminate].
Qed.

(** A column that fails [validate()] (here, no title) makes [moveTask]
    throw the validation error of [update]. *)
Lemma ColumnType_moveTask_invalid_column :
  ColumnType.moveTask (ColumnType.mk "" "" "bg-gray-100" ["a"; "b"] "t0" "t0" 0) "a" 1 "t1"
  = Throw (InvalidColumnData ["Title is required"]).
Proof. reflexivity. Qed.

(** ** C9: the import codec *)

(** An envelope without [data], or whose [data] has no [tasks] or no
    [columns], has no board data; one whose [data] holds objects under
    both has. *)
Lemma board_data_of_missing (envelope : value) :
  field envelope "data" = None ∨
  (∃ data, field envelope "data" = Some data ∧
           (field data "tasks" = None ∨ field data "columns" = None)) →
  board_data_of envelope = None.
Proof.
  unfold board_data_of, has_tasks_and_columns.
  intros [Hd | (data & Hd & Hmiss)]; rewrite Hd; simpl; [done|].
  destruct Hmiss as [-> | ->]; [done|]. by destruct (field data "tasks").
Qed.

Lemma board_data_of_objects (envelope data : value) tasksProps columnsProps :
  field envelope "data" = Some data →
  field data "tasks" = Some (JObj tasksProps) →
  field data "columns" = Some (JObj columnsProps) →
  board_data_of envelope = Some data.
Proof.
  unfold board_data_of, has_tasks_and_columns. intros -> Ht Hc. simpl.
  by rewrite Ht, Hc.
Qed.

Section Codec.
Context `{JsJSON}.

Import ImportExportService.

Lemma importFromJSON_try_envelope (text : string) (envelope : value) :
  JSON_parse text = inr envelope →
  match board_data_of envelope with
  | Some data =>
      ∃ version exportedAt,
        importFromJSON_try text = Ok (Success data version exportedAt)
  | None =>
      (∃ error, importFromJSON_try text = Throw error) ∨
      importFromJSON_try text =
        Ok (Failure "Invalid file format: Missing required data structure")
  end.
Proof.
  intros Hparse. unfold importFromJSON_try, board_data_of. rewrite Hparse.
  destruct envelope as [| |b|n|s|items|props]; simpl; eauto.
  destruct (prop_lookup "data" props) as [data|]; simpl; [|by right].
  unfold has_tasks_and_columns.
  destruct data as [| |[]|n|s|items|dprops]; simpl; eauto.
  - destruct (n =? 0); simpl; eauto.
  - destruct s; simpl; eauto.
  - destruct (prop_lookup "tasks" dprops) as [t|]; simpl; [|by right].
    destruct (truthy t); simpl; [|destruct (prop_lookup "columns" dprops); by right].
    destruct (prop_lookup "columns" dprops) as [c|]; simpl; [|by right].
    destruct (truthy c); simpl; [|by right]. eauto.
Qed.

(** C9.  [importFromJSON(text)] returns a failure with a non-empty
    message when [text] does not parse or when the parsed envelope has
    no [data] field containing both [tasks] and [columns], and then the
    import handler leaves the board as it is; otherwise it returns
    success together with the envelope's inner [data] as parsed. *)
Theorem importFromJSON_outcome (text : string) :
  match JSON_parse text with
  | inl msg =>
      importFromJSON text = Failure ("Invalid JSON format: " ++ msg) ∧
      ∀ confirmed now boardData, handleImport text confirmed now boardData = boardData
  | inr envelope =>
      match board_data_of envelope with
      | Some data =>
          field envelope "data" = Some data ∧
          ∃ version exportedAt, importFromJSON text = Success data version exportedAt
      | None =>
          (∃ error, importFromJSON text = Failure error ∧ truthy_str error = true) ∧
          ∀ confirmed now boardData, handleImport text confirmed now boardData = boardData
      end
  end.
Proof.
  destruct (JSON_parse text) as [msg|envelope] eqn:Hparse.
  - assert (importFromJSON text = Failure ("Invalid JSON format: " ++ msg)) as Hfail.
    { unfold importFromJSON, importFromJSON_try. by rewrite Hparse. }
    split; [done|]. intros confirmed now boardData. unfold handleImport. by rewrite Hfail.
  - pose proof (importFromJSON_try_envelope text envelope Hparse) as Htry.
    destruct (board_data_of envelope) as [data|] eqn:Hdata.
    + split.
      * unfold board_data_of in Hdata.
        destruct (field envelope "data") as [d|]; [|done]. simpl in Hdata.
        destruct (has_tasks_and_columns d); by simplify_eq.
      * destruct Htry as (version & exportedAt & Htry).
        exists version, exportedAt. unfold importFromJSON. by rewrite Htry.
    + assert (∃ error, importFromJSON text = Failure error ∧ truthy_str error = true)
        as (error & Hfail & Herror).
      { unfold importFromJSON. destruct Htry as [[e ->]| ->]; eauto. }
      split; [by exists error|].
      intros confirmed now boardData. unfold handleImport. by rewrite Hfail.
Qed.

End Codec.

(** ** C10: the tasks of a column *)

Lemma filter_is_defined_plain (m : gmap string TaskType.t) (ids : list string) :
  Forall (λ taskId, is_prototype_name taskId = false) ids →
  List.filter is_defined (map (dict_get m) ids) = Own <$> omap (λ taskId, m !! taskId) ids.
Proof.
  induction 1 as [|taskId ids Hplain _ IH]; [done|]. cbn [map List.filter].
  rewrite (dict_get_plain m taskId Hplain).
  change (omap (λ taskId0, m !! taskId0) (taskId :: ids))
    with (match m !! taskId with
          | Some task => task :: omap (λ taskId0, m !! taskId0) ids
          | None => omap (λ taskId0, m !! taskId0) ids
          end).
  destruct (m !! taskId) as [task|]; cbn [is_defined]; [|exact IH].
  rewrite fmap_cons. by f_equal.
Qed.

(** An unknown column has no tasks; so has a column identifier that
    names a member of [Object.prototype], which has no [taskIds]. *)
Lemma getTasksForColumn_unknown_column (b : Board) (columnId : string) :
  columns b !! columnId = None → getTasksForColumn b columnId = [].
Proof.
  intros Hc. unfold getTasksForColumn, dict_get. rewrite Hc.
  by destruct (is_prototype_name columnId).
Qed.

(** Where no identifier of the column names a member of
    [Object.prototype], [getTasksForColumn] returns the tasks found under
    the column's [taskIds], in that order, an identifier without an entry
    in [tasks] being skipped. *)
Lemma getTasksForColumn_plain_identifiers (b : Board) (columnId : string)
    (column : ColumnType.t) :
  columns b !! columnId = Some column →
  Forall (λ taskId, is_prototype_name taskId = false) (ColumnType.taskIds column) →
  getTasksForColumn b columnId
  = Own <$> omap (λ taskId, tasks b !! taskId) (ColumnType.taskIds column).
Proof.
  intros Hc Hplain. unfold getTasksForColumn. rewrite (dict_get_Some _ _ _ Hc).
  cbn [listed_taskIds]. by apply filter_is_defined_plain.
Qed.

(** It never yields [undefined]. *)
Lemma getTasksForColumn_defined (b : Board) (columnId : string) :
  Forall (λ entry, is_defined entry = true) (getTasksForColumn b columnId).
Proof.
  unfold getTasksForColumn.
  destruct (dict_get (columns b) columnId); [| |constructor];
    apply Forall_forall; intros entry Hin%list_elem_of_In%filter_In; by destruct Hin.
Qed.

(** A dangling identifier is skipped. *)
Example getTasksForColumn_skips_dangling :
  getTasksForColumn
    (mkBoard {[ task_1 := TaskType.mk "" "Write spec" "" "medium" "" "" "t2" "t2" ]}
             {[ column_1 := todo_column ["gone"; task_1] "t2" ]} [column_1] "t2")
    column_1
  = [Own (TaskType.mk "" "Write spec" "" "medium" "" "" "t2" "t2")].
Proof. vm_compute. reflexivity. Qed.

(** C10, at the failing input.  On a board whose column lists the
    identifier ["constructor"], under which [tasks] has no entry,
    [tasks["constructor"]] is the function every object inherits;
    [filter(Boolean)] keeps it, and [getTasksForColumn] returns it before
    the column's one task instead of skipping the identifier. *)
Theorem getTasksForColumn_keeps_inherited_member :
  tasks board_dangling_constructor !! "constructor" = None ∧
  getTasksForColumn board_dangling_constructor column_1
  = [Inherited "constructor";
     Own (TaskType.mk "" "Write spec" "" "medium" "" "" "t2" "t2")].
Proof. split; vm_compute; reflexivity. Qed.

(** * Further properties *)

(** ** Validation of tasks and columns *)

Lemma str_length_zero (s : string) : (str_length s =? 0) = negb (truthy_str s).
Proof. by destruct s. Qed.

Lemma trim_start_empty (s : string) : trim_start s = "" → trim s = "".
Proof. unfold trim. by intros ->. Qed.

Lemma trim_empty_string : trim "" = "".
Proof. reflexivity. Qed.

Lemma truthy_trim_truthy (s : string) : truthy_str (trim s) = true → truthy_str s = true.
Proof. by destruct s. Qed.

(** The test of both [validate()] methods on the title. *)
Lemma title_required_test (s : string) :
  negb (truthy_str s) || (str_length (trim s) =? 0) = negb (truthy_str (trim s)).
Proof.
  rewrite str_length_zero. destruct (truthy_str s) eqn:E; simpl; [done|].
  destruct s; [done | discriminate].
Qed.

Lemma length_guard (s : string) (n : Z) :
  0 ≤ n → truthy_str s && (n <? str_length s) = (n <? str_length s).
Proof.
  intros Hn. destruct s; simpl; [|done].
  symmetry. apply Z.ltb_ge. unfold str_length. simpl. lia.
Qed.

Lemma app_nil_iff {A} (l1 l2 : list A) : (l1 ++ l2)%list = [] ↔ l1 = [] ∧ l2 = [].
Proof. split; [apply app_eq_nil | by intros [-> ->]]. Qed.

Lemma if_singleton_nil {A} (b : bool) (x : A) : (if b then [x] else []) = [] ↔ b = false.
Proof. by destruct b. Qed.

Section TaskValidity.
Context `{JsDate}.

Lemma TaskType_isValid_nil (x : TaskType.t) :
  TaskType.isValid x = true ↔ TaskType.validate_errors x = [].
Proof. unfold TaskType.isValid. by destruct (TaskType.validate_errors x). Qed.

(** When [validate()] of a task pushes no error. *)
Lemma TaskType_validate_errors_nil (x : TaskType.t) :
  TaskType.validate_errors x = [] ↔
  trim (TaskType.title x) ≠ "" ∧
  str_length (TaskType.title x) ≤ 100 ∧
  str_length (TaskType.description x) ≤ 500 ∧
  (TaskType.priority x = "" ∨ TaskType.priority x ∈ PRIORITY_LEVELS) ∧
  str_length (TaskType.assignee x) ≤ 50 ∧
  (TaskType.dueDate x = "" ∨ is_Some (date_parse (TaskType.dueDate x))).
Proof.
  unfold TaskType.validate_errors.
  rewrite title_required_test, !length_guard by lia.
  rewrite !app_nil_iff, !if_singleton_nil.
  rewrite negb_false_iff, !Z.ltb_ge.
  assert (truthy_str (trim (TaskType.title x)) = true ↔ trim (TaskType.title x) ≠ "")
    as -> by (destruct (trim (TaskType.title x)); split; done).
  assert (truthy_str (TaskType.priority x)
            && negb (includes PRIORITY_LEVELS (TaskType.priority x)) = false ↔
          TaskType.priority x = "" ∨ TaskType.priority x ∈ PRIORITY_LEVELS) as ->.
  { rewrite <- includes_elem_of. destruct (TaskType.priority x) eqn:Ep; simpl.
    - split; [by left | done].
    - rewrite negb_false_iff. split; [by right | by intros [?|?]]. }
  assert ((if truthy_str (TaskType.dueDate x)
           then match date_parse (TaskType.dueDate x) with
                | Some _ => []
                | None => ["Invalid due date format"]
                end
           else []) = [] ↔
          TaskType.dueDate x = "" ∨ is_Some (date_parse (TaskType.dueDate x))) as ->.
  { destruct (TaskType.dueDate x) eqn:Ed; simpl.
    - split; [by left | done].
    - destruct (date_parse _) as [d|]; split; try done.
      + intros _. right. by eexists.
      + intros [?|[? ?]]; done. }
  tauto.
Qed.

(** X1.  [validate()] accepts a task exactly when its title is not
    blank and has at most 100 characters, its description at most 500,
    its assignee at most 50, its priority is empty or one of the three
    levels, and its due date is empty or parses. *)
Theorem TaskType_isValid_iff (x : TaskType.t) :
  TaskType.isValid x = true ↔
  trim (TaskType.title x) ≠ "" ∧
  str_length (TaskType.title x) ≤ 100 ∧
  str_length (TaskType.description x) ≤ 500 ∧
  (TaskType.priority x = "" ∨ TaskType.priority x ∈ PRIORITY_LEVELS) ∧
  str_length (TaskType.assignee x) ≤ 50 ∧
  (TaskType.dueDate x = "" ∨ is_Some (date_parse (TaskType.dueDate x))).
Proof. by rewrite TaskType_isValid_nil, TaskType_validate_errors_nil. Qed.

End TaskValidity.

Lemma ColumnType_isValid_nil (x : ColumnType.t) :
  ColumnType.isValid x = true ↔ ColumnType.validate_errors x = [].
Proof. unfold ColumnType.isValid. by destruct (ColumnType.validate_errors x). Qed.

(** When [validate()] of a column pushes no error. *)
Lemma ColumnType_validate_errors_nil (x : ColumnType.t) :
  ColumnType.validate_errors x = [] ↔
  trim (ColumnType.title x) ≠ "" ∧
  str_length (ColumnType.title x) ≤ 50 ∧
  (ColumnType.color x = "" ∨ ColumnType.color x ∈ COLUMN_COLORS) ∧
  (length (ColumnType.taskIds x) ≤ 100)%nat.
Proof.
  unfold ColumnType.validate_errors.
  rewrite title_required_test, !length_guard by lia.
  rewrite !app_nil_iff, !if_singleton_nil.
  rewrite negb_false_iff, !Z.ltb_ge.
  assert (truthy_str (trim (ColumnType.title x)) = true ↔ trim (ColumnType.title x) ≠ "")
    as -> by (destruct (trim (ColumnType.title x)); split; done).
  assert (truthy_str (ColumnType.color x)
            && negb (includes COLUMN_COLORS (ColumnType.color x)) = false ↔
          ColumnType.color x = "" ∨ ColumnType.color x ∈ COLUMN_COLORS) as ->.
  { rewrite <- includes_elem_of. destruct (ColumnType.color x) eqn:Ep; simpl.
    - split; [by left | done].
    - rewrite negb_false_iff. split; [by right | by intros [?|?]]. }
  split; [intros (? & ? & ? & ?) | intros (? & ? & ? & ?)]; split_and!; try done; lia.
Qed.

(** X2.  [validate()] accepts a column exactly when its title is not
    blank and has at most 50 characters, its color is empty or in the
    palette, and it lists at most 100 tasks. *)
Theorem ColumnType_isValid_iff (x : ColumnType.t) :
  ColumnType.isValid x = true ↔
  trim (ColumnType.title x) ≠ "" ∧
  str_length (ColumnType.title x) ≤ 50 ∧
  (ColumnType.color x = "" ∨ ColumnType.color x ∈ COLUMN_COLORS) ∧
  (length (ColumnType.taskIds x) ≤ 100)%nat.
Proof. by rewrite ColumnType_isValid_nil, ColumnType_validate_errors_nil. Qed.

(** ** The methods of a column *)

Lemma ColumnType_update_Ok (x : ColumnType.t) (u : ColumnType.updates) (now : string)
    (y : ColumnType.t) :
  ColumnType.update x u now = Ok y →
  ColumnType.isValid y = true ∧
  y = ColumnType.mk (default (ColumnType.id x) (ColumnType.u_id u))
                    (default (ColumnType.title x) (ColumnType.u_title u))
                    (default (ColumnType.color x) (ColumnType.u_color u))
                    (default (ColumnType.taskIds x) (ColumnType.u_taskIds u))
                    (default (ColumnType.createdAt x) (ColumnType.u_createdAt u))
                    now
                    (default (ColumnType.order x) (ColumnType.u_order u)).
Proof.
  unfold ColumnType.update. destruct (ColumnType.isValid _) eqn:Hvalid; [|done].
  by intros [= <-].
Qed.

Lemma without_app_fresh (l : list string) (x : string) :
  x ∉ l → without (l ++ [x]) x = l.
Proof.
  intros Hx. unfold without. rewrite List.filter_app. simpl.
  rewrite String.eqb_refl. simpl. rewrite app_nil_r.
  induction l as [|y l IH]; [done|]. simpl.
  apply not_elem_of_cons in Hx as [Hne Hx].
  apply not_eq_sym, String.eqb_neq in Hne. rewrite Hne. simpl. by rewrite IH.
Qed.

(** X3.  [addTask(taskId)] of a column never lists an identifier twice
    and never lists more than [validate()] allows: the column it returns
    lists [taskId], is duplicate-free if the column was, lists at most
    100 identifiers if the column did, and adding [taskId] to it again
    returns it unchanged. *)
Theorem ColumnType_addTask_returns (x y : ColumnType.t) (taskId now : string) :
  ColumnType_addTask x taskId now = Returns y →
  taskId ∈ ColumnType.taskIds y ∧
  (NoDup (ColumnType.taskIds x) → NoDup (ColumnType.taskIds y)) ∧
  ((length (ColumnType.taskIds x) ≤ 100)%nat → (length (ColumnType.taskIds y) ≤ 100)%nat) ∧
  ∀ later, ColumnType_addTask y taskId later = Returns y.
Proof.
  unfold ColumnType_addTask. destruct (truthy_str taskId) eqn:Hid; simpl; [|done].
  destruct (includes (ColumnType.taskIds x) taskId) eqn:Hin.
  - intros [= <-]. apply includes_elem_of in Hin as Hin'.
    split_and!; [done..|]. intros later. by rewrite Hin.
  - destruct (ColumnType.update _ _ _) as [z|e] eqn:Hupd; [|done].
    intros [= <-]. apply ColumnType_update_Ok in Hupd as [Hvalid ->]. simpl.
    apply includes_not_elem_of in Hin.
    assert (taskId ∈ (ColumnType.taskIds x ++ [taskId])%list) as Hlast
      by (apply elem_of_app; right; by left).
    split_and!.
    + done.
    + intros Hnodup. apply NoDup_app. split_and!; [done| |apply NoDup_singleton].
      intros t Ht ->%list_elem_of_singleton. done.
    + intros _. apply ColumnType_isValid_nil, ColumnType_validate_errors_nil in Hvalid as (_ & _ & _ & Hlen). done.
    + intros later. apply includes_elem_of in Hlast. by rewrite Hlast.
Qed.

Lemma ColumnType_addTask_returns_witness :
  ∃ y, ColumnType_addTask column_abc "d" "t1" = Returns y ∧
       ColumnType.taskIds y = ["a"; "b"; "c"; "d"] ∧
       ColumnType_addTask y "d" "t2" = Returns y.
Proof.
  eexists. split; [reflexivity|]. split; [reflexivity|].
  by apply (ColumnType_addTask_returns column_abc _ "d" "t1").
Defined.

Lemma ColumnType_validate_errors_tasks (c : ColumnType.t) :
  trim (ColumnType.title c) ≠ "" →
  str_length (ColumnType.title c) ≤ 50 →
  ColumnType.color c = "" ∨ ColumnType.color c ∈ COLUMN_COLORS →
  ColumnType.validate_errors c =
    if 100 <? Z.of_nat (length (ColumnType.taskIds c))
    then ["Column cannot contain more than 100 tasks"] else [].
Proof.
  intros Ht Hlen Hcolor. unfold ColumnType.validate_errors.
  rewrite title_required_test, !length_guard by lia.
  assert (truthy_str (trim (ColumnType.title c)) = true) as ->
    by by destruct (trim (ColumnType.title c)).
  assert ((50 <? str_length (ColumnType.title c)) = false) as -> by by apply Z.ltb_ge.
  assert (truthy_str (ColumnType.color c)
            && negb (includes COLUMN_COLORS (ColumnType.color c)) = false) as ->.
  { destruct Hcolor as [->|Hc%includes_elem_of]; [done|]. rewrite Hc.
    by rewrite andb_false_r. }
  done.
Qed.

(** X4.  [addTask] with the empty identifier throws; on a column that
    passes [validate()] and lists exactly 100 identifiers, [addTask] of
    a new identifier throws the validation error of [update()]; on one
    that lists fewer it appends the identifier. *)
Theorem ColumnType_addTask_bounds (x : ColumnType.t) (taskId now : string) :
  ColumnType_addTask x "" now = RaisesText "Task ID must be a valid string" ∧
  (ColumnType.isValid x = true → taskId ≠ "" → taskId ∉ ColumnType.taskIds x →
   if bool_decide (length (ColumnType.taskIds x) < 100)%nat
   then ColumnType_addTask x taskId now
        = Returns (set_taskIds x (ColumnType.taskIds x ++ [taskId]) now)
   else ColumnType_addTask x taskId now
        = Raises (InvalidColumnData ["Column cannot contain more than 100 tasks"])).
Proof.
  split; [done|]. intros Hvalid Hid Hnew%includes_not_elem_of.
  unfold ColumnType_addTask. rewrite Hnew.
  assert (truthy_str taskId = true) as -> by by destruct taskId. simpl.
  apply ColumnType_isValid_nil, ColumnType_validate_errors_nil in Hvalid as (Ht & Hlen & Hcolor & Htasks).
  unfold ColumnType.update. cbn -[ColumnType.isValid ColumnType.validate_errors].
  fold (set_taskIds x (ColumnType.taskIds x ++ [taskId]) now).
  case_bool_decide as Hroom.
  - assert (ColumnType.isValid (set_taskIds x (ColumnType.taskIds x ++ [taskId]) now) = true)
      as ->; [|done].
    apply ColumnType_isValid_nil, ColumnType_validate_errors_nil. simpl. rewrite length_app. simpl.
    split_and!; [done..|lia].
  - assert ((length (ColumnType.taskIds x) = 100)%nat) as Hfull by lia.
    unfold ColumnType.isValid.
    rewrite (ColumnType_validate_errors_tasks
               (set_taskIds x (ColumnType.taskIds x ++ [taskId]) now)) by done.
    cbn [set_taskIds ColumnType.taskIds]. by rewrite length_app, Hfull.
Qed.

Lemma ColumnType_addTask_bounds_witness :
  ColumnType_addTask column_abc "d" "t1"
  = Returns (set_taskIds column_abc ["a"; "b"; "c"; "d"] "t1").
Proof.
  apply (ColumnType_addTask_bounds column_abc "d" "t1").
  - reflexivity.
  - discriminate.
  - vm_compute. intros Hin.
    by repeat (apply elem_of_cons in Hin as [Heq|Hin]; [discriminate|]);
      apply elem_of_nil in Hin.
Defined.

(** X5.  [removeTask] undoes [addTask]: when [addTask(taskId)] appended
    a new identifier, [removeTask(taskId)] on the result returns a column
    with the original [taskIds]; and what [removeTask] returns never
    lists [taskId]. *)
Theorem ColumnType_removeTask_addTask (x y : ColumnType.t) (taskId now later : string) :
  taskId ∉ ColumnType.taskIds x →
  ColumnType_addTask x taskId now = Returns y →
  ColumnType_removeTask y taskId later = Ok (set_taskIds y (ColumnType.taskIds x) later) ∧
  ∀ z, ColumnType_removeTask y taskId later = Ok z → taskId ∉ ColumnType.taskIds z.
Proof.
  intros Hnew Hadd. unfold ColumnType_addTask in Hadd.
  destruct (truthy_str taskId); simpl in Hadd; [|done].
  apply includes_not_elem_of in Hnew as Hnew'. rewrite Hnew' in Hadd.
  destruct (ColumnType.update _ _ _) as [y'|e] eqn:Hupd; [|done].
  injection Hadd as <-. apply ColumnType_update_Ok in Hupd as [Hvalid ->].
  simpl in Hvalid. unfold ColumnType_removeTask. simpl.
  rewrite without_app_fresh by done.
  assert (ColumnType.update
            (ColumnType.mk (ColumnType.id x) (ColumnType.title x) (ColumnType.color x)
               (ColumnType.taskIds x ++ [taskId]) (ColumnType.createdAt x) now
               (ColumnType.order x))
            (ColumnType.mkUpdates None None None (Some (ColumnType.taskIds x)) None None)
            later
          = Ok (ColumnType.mk (ColumnType.id x) (ColumnType.title x) (ColumnType.color x)
                  (ColumnType.taskIds x) (ColumnType.createdAt x) later
                  (ColumnType.order x))) as Hrem.
  { unfold ColumnType.update. cbn -[ColumnType.isValid ColumnType.validate_errors].
    match goal with |- (if ColumnType.isValid ?c then _ else _) = _ =>
      assert (ColumnType.isValid c = true) as ->; [|done] end.
    apply ColumnType_isValid_nil, ColumnType_validate_errors_nil in Hvalid as (? & ? & ? & Hlen). simpl in *.
    apply ColumnType_isValid_nil, ColumnType_validate_errors_nil. simpl. rewrite length_app in Hlen. simpl in Hlen.
    split_and!; [done..|lia]. }
  split; [exact Hrem|].
  intros z. rewrite Hrem. intros [= <-]. done.
Qed.

Lemma ColumnType_removeTask_addTask_witness :
  ∃ y, ColumnType_addTask column_abc "d" "t1" = Returns y ∧
       ColumnType_removeTask y "d" "t2" = Ok (set_taskIds y ["a"; "b"; "c"] "t2").
Proof.
  eexists. split; [reflexivity|].
  apply (ColumnType_removeTask_addTask column_abc _ "d" "t1" "t2"); [|reflexivity].
  vm_compute. intros Hin.
  by repeat (apply elem_of_cons in Hin as [Heq|Hin]; [discriminate|]);
    apply elem_of_nil in Hin.
Defined.

Lemma indexOf_lookup (l : list string) (x : string) (i : nat) :
  indexOf l x = Some i → l !! i = Some x.
Proof.
  revert i. induction l as [|y l IH]; intros i; [done|]. simpl.
  destruct (String.eqb y x) eqn:E.
  - intros [= <-]. apply String.eqb_eq in E. by subst.
  - destruct (indexOf l x) as [j|]; [|done]. simpl. intros [= <-]. simpl. by apply IH.
Qed.

(** X6.  Whatever the index, [moveTask(taskId, newIndex)] of a column
    returns a rearrangement of its [taskIds]: no identifier is lost,
    added or repeated. *)
Theorem ColumnType_moveTask_permutation (x y : ColumnType.t) (taskId : string)
    (newIndex : Z) (now : string) :
  ColumnType.moveTask x taskId newIndex now = Ok y →
  ColumnType.taskIds y ≡ₚ ColumnType.taskIds x ∧
  (NoDup (ColumnType.taskIds x) → NoDup (ColumnType.taskIds y)).
Proof.
  unfold ColumnType.moveTask. destruct (includes _ _); simpl; [|done].
  destruct (indexOf (ColumnType.taskIds x) taskId) as [i|] eqn:Hi; [|done].
  intros Hupd. apply ColumnType_update_Ok in Hupd as [_ ->]. simpl.
  assert (splice_insert (delete i (ColumnType.taskIds x)) newIndex taskId
          ≡ₚ ColumnType.taskIds x) as Hperm.
  { unfold splice_insert.
    rewrite <- Permutation_middle, take_drop.
    symmetry. apply delete_Permutation. by apply indexOf_lookup. }
  split; [done|]. intros Hnodup. by rewrite Hperm.
Qed.

Lemma ColumnType_moveTask_permutation_witness :
  ∃ y, ColumnType.moveTask column_abc "a" 5 "t1" = Ok y ∧
       ColumnType.taskIds y = ["b"; "c"; "a"] ∧
       ColumnType.taskIds y ≡ₚ ["a"; "b"; "c"].
Proof.
  eexists. split; [reflexivity|]. split; [reflexivity|].
  by apply (ColumnType_moveTask_permutation column_abc _ "a" 5 "t1").
Defined.

(** X7.  Of the four columns of [createDefaultSet()], the last three
    pass [validate()].  The first, 'To Do', carries a color outside the
    palette: it fails [validate()], and [update()] of it throws 'Invalid
    column data: ...' for every set of updates that leaves the color. *)
Theorem ColumnFactory_createDefaultSet_validity (now : string) :
  ∃ todo rest, ColumnFactory_createDefaultSet now = todo :: rest ∧
    Forall (λ c, ColumnType.isValid c = true) rest ∧
    ColumnType.isValid todo = false ∧
    ∀ u later, ColumnType.u_color u = None →
      ∃ errors, ColumnType.update todo u later = Throw (InvalidColumnData errors) ∧
                "Invalid column color" ∈ errors.
Proof.
  eexists _, _. split; [reflexivity|]. split_and!.
  - repeat constructor.
  - reflexivity.
  - intros u later Hu. unfold ColumnType.update. cbn zeta.
    set (y := ColumnType.mk _ _ _ _ _ _ _).
    assert ("Invalid column color" ∈ ColumnType.validate_errors y) as Hin.
    { unfold ColumnType.validate_errors, y. rewrite Hu.
      cbn [ColumnType.color default from_option id ColumnType_titled].
      rewrite !elem_of_app. right. right. left.
      change (truthy_str "bg-slate-100" && negb (includes COLUMN_COLORS "bg-slate-100"))
        with true. by left. }
    unfold ColumnType.isValid. destruct (ColumnType.validate_errors y) eqn:Herrs.
    + by apply elem_of_nil in Hin.
    + by eexists.
Qed.

Lemma ColumnFactory_createDefaultSet_validity_witness :
  ∃ todo, head (ColumnFactory_createDefaultSet "t0") = Some todo ∧
    ∃ errors,
      ColumnType.update todo (ColumnType.mkUpdates None (Some "Backlog") None None None None)
        "t1" = Throw (InvalidColumnData errors).
Proof.
  destruct (ColumnFactory_createDefaultSet_validity "t0") as (todo & rest & Hset & _ & _ & Hu).
  exists todo. split; [by rewrite Hset|].
  destruct (Hu (ColumnType.mkUpdates None (Some "Backlog") None None None None) "t1" eq_refl)
    as (errors & Hthrow & _).
  by exists errors.
Defined.

(** ** Identifiers and [isValidId] *)

Lemma append_nil_l (s : string) : "" ++ s = s.
Proof. reflexivity. Qed.

Lemma append_cons (a : ascii) (s1 s2 : string) : String a s1 ++ s2 = String a (s1 ++ s2).
Proof. reflexivity. Qed.

Ltac simpl_append := rewrite ?append_cons, ?append_nil_l in *.

Lemma append_eq_empty (s1 s2 : string) : s1 ++ s2 = "" → s1 = "" ∧ s2 = "".
Proof. destruct s1; simpl_append; [done | discriminate]. Qed.

Lemma nullable_matches (r : Regex.t) : Regex.nullable r = true ↔ matches r "".
Proof.
  induction r as [| |f|r1 IH1 r2 IH2|r1 IH1 r2 IH2|r IH]; simpl.
  - split; [done | inversion 1].
  - split; [constructor | done].
  - split; [done | inversion 1].
  - rewrite andb_true_iff, IH1, IH2. split.
    + intros [H1 H2]. by apply (matches_seq _ _ "" "").
    + inversion 1 as [| |? ? s1 s2 H1 H2| | | |]; subst.
      match goal with Heq : _ ++ _ = "" |- _ => by apply append_eq_empty in Heq as [-> ->] end.
  - rewrite orb_true_iff, IH1, IH2. split.
    + intros [?|?]; [by apply matches_alt_l | by apply matches_alt_r].
    + inversion 1; subst; [by left | by right].
  - split; [constructor | done].
Qed.

Lemma matches_star_nonempty (r : Regex.t) (a : ascii) (s : string) :
  matches (Regex.Star r) (String a s) →
  ∃ s1 s2, s = s1 ++ s2 ∧ matches r (String a s1) ∧ matches (Regex.Star r) s2.
Proof.
  intros Hm. remember (Regex.Star r) as r' eqn:Hr. remember (String a s) as t eqn:Ht.
  revert a s Ht.
  induction Hm as [| | | | | |r0 s1 s2 H1 _ H2 IH2]; intros c u Ht; try discriminate.
  injection Hr as ->. destruct s1 as [|b s1]; simpl_append.
  - by apply IH2.
  - injection Ht as <- <-. by exists s1, s2.
Qed.

Lemma derive_matches (r : Regex.t) (a : ascii) (s : string) :
  matches (Regex.derive a r) s ↔ matches r (String a s).
Proof.
  revert s. induction r as [| |f|r1 IH1 r2 IH2|r1 IH1 r2 IH2|r IH]; intros s; simpl.
  - split; inversion 1.
  - split; inversion 1.
  - destruct (f a) eqn:Hf; split.
    + inversion 1; subst. by constructor.
    + inversion 1; subst. constructor.
    + inversion 1.
    + inversion 1; subst. congruence.
  - assert (matches (Regex.Seq (Regex.derive a r1) r2) s ↔
            ∃ s1 s2, s = s1 ++ s2 ∧ matches r1 (String a s1) ∧ matches r2 s2) as Hseq.
    { split.
      - inversion 1 as [| |? ? s1 s2 H1 H2| | | |]; subst. exists s1, s2.
        split; [done|]. split; [by apply IH1 | done].
      - intros (s1 & s2 & -> & H1 & H2). constructor; [by apply IH1 | done]. }
    assert (matches (Regex.Seq r1 r2) (String a s) ↔
            (∃ s1 s2, s = s1 ++ s2 ∧ matches r1 (String a s1) ∧ matches r2 s2) ∨
            (matches r1 "" ∧ matches r2 (String a s))) as Hfull.
    { split.
      - inversion 1 as [| |? ? s1 s2 H1 H2| | | |]; subst.
        match goal with Heq : _ ++ _ = String _ _ |- _ => rename Heq into Heq' end.
        destruct s1 as [|b s1]; simpl_append.
        + right. subst. done.
        + injection Heq' as <- <-. left. by exists s1, s2.
      - intros [(s1 & s2 & -> & H1 & H2)|[H1 H2]].
        + by apply (matches_seq _ _ (String a s1) s2).
        + by apply (matches_seq _ _ "" (String a s)). }
    rewrite Hfull. destruct (Regex.nullable r1) eqn:Hn.
    + split.
      * inversion 1; subst; [left; by apply Hseq | right].
        split; [by apply nullable_matches | by apply IH2].
      * intros [Hl|[_ Hr]]; [apply matches_alt_l; by apply Hseq|].
        apply matches_alt_r. by apply IH2.
    + rewrite Hseq. split; [by left|]. intros [?|[Hnull _]]; [done|].
      apply nullable_matches in Hnull. congruence.
  - split.
    + inversion 1; subst; [apply matches_alt_l; by apply IH1 | apply matches_alt_r; by apply IH2].
    + inversion 1; subst; [apply matches_alt_l; by apply IH1 | apply matches_alt_r; by apply IH2].
  - split.
    + inversion 1 as [| |? ? s1 s2 H1 H2| | | |]; subst.
      apply (matches_star_cons _ (String a s1) s2); [by apply IH | done].
    + intros (s1 & s2 & -> & H1 & H2)%matches_star_nonempty.
      constructor; [by apply IH | done].
Qed.

(** The matcher decides the denotation. *)
Lemma test_matches (r : Regex.t) (s : string) : Regex.test r s = true ↔ matches r s.
Proof.
  revert r. induction s as [|a s IH]; intros r; simpl.
  - apply nullable_matches.
  - rewrite IH. apply derive_matches.
Qed.

Lemma matches_literal (w s : string) : matches (Regex.literal w) s ↔ s = w.
Proof.
  revert s. induction w as [|a w IH]; intros s; simpl.
  - split; [by inversion 1 | intros ->; constructor].
  - split.
    + inversion 1 as [| |? ? s1 s2 H1 H2| | | |]; subst.
      inversion H1; subst. apply Ascii.eqb_eq in H3 as <-. simpl_append. f_equal.
      by apply IH.
    + intros ->. apply (matches_seq _ _ (String a "") w).
      * constructor. apply Ascii.eqb_refl.
      * by apply IH.
Qed.

Lemma matches_word_star (s : string) :
  matches (Regex.Star (Regex.Char is_word_char)) s ↔ all_word_chars s = true.
Proof.
  split.
  - intros Hm. remember (Regex.Star (Regex.Char is_word_char)) as r eqn:Hr.
    induction Hm as [| | | | | |r0 s1 s2 H1 _ H2 IH2]; try discriminate; [done|].
    injection Hr as ->. inversion H1; subst. simpl_append. simpl. rewrite IH2 by done.
    by rewrite andb_true_r.
  - induction s as [|a s IH]; simpl; [constructor|].
    intros [Ha Hs]%andb_true_iff.
    apply (matches_star_cons _ (String a "") s); [by constructor | by apply IH].
Qed.

Lemma matches_word_plus (s : string) :
  matches (Regex.plus (Regex.Char is_word_char)) s ↔ is_word s = true.
Proof.
  unfold Regex.plus, is_word. split.
  - inversion 1 as [| |? ? s1 s2 H1 H2| | | |]; subst. inversion H1; subst.
    simpl_append. simpl.
    apply matches_word_star in H2. by rewrite H2, andb_true_r.
  - destruct s as [|a s]; [done|]. simpl. intros [Ha Hs]%andb_true_iff.
    apply (matches_seq _ _ (String a "") s); [by constructor | by apply matches_word_star].
Qed.

(** What the pattern of [isValidId] denotes. *)
Lemma matches_VALID_ID_PATTERN (s : string) :
  matches VALID_ID_PATTERN s ↔
  ∃ prefix w1 w2, s = prefix ++ "-" ++ w1 ++ "-" ++ w2 ∧
                  (prefix = "id" ∨ prefix = "task" ∨ prefix = "column") ∧
                  is_word w1 = true ∧ is_word w2 = true.
Proof.
  unfold VALID_ID_PATTERN. split.
  - inversion 1 as [| |? ? p s' Hp Hs'| | | |]; subst.
    inversion Hs' as [| |? ? d1 s'' Hd1 Hs''| | | |]; subst.
    inversion Hs'' as [| |? ? w1 s3 Hw1 Hs3| | | |]; subst.
    inversion Hs3 as [| |? ? d2 w2 Hd2 Hw2| | | |]; subst.
    apply (matches_literal "-") in Hd1 as ->, Hd2 as ->.
    apply matches_word_plus in Hw1, Hw2.
    exists p, w1, w2. split_and!; [done| |done..].
    inversion Hp as [| | |? ? ? Hid|? ? ? Hrest| |]; subst.
    + left. by apply (matches_literal "id").
    + inversion Hrest; subst; [right; left; by apply (matches_literal "task")|].
      right; right. by apply (matches_literal "column").
  - intros (p & w1 & w2 & -> & Hp & Hw1 & Hw2).
    constructor.
    + destruct Hp as [-> | [-> | ->]].
      * apply matches_alt_l. by apply matches_literal.
      * apply matches_alt_r, matches_alt_l. by apply matches_literal.
      * apply matches_alt_r, matches_alt_r. by apply matches_literal.
    + constructor; [by apply matches_literal|].
      constructor; [by apply matches_word_plus|].
      constructor; [by apply matches_literal | by apply matches_word_plus].
Qed.

Lemma count_dashes_app (s1 s2 : string) :
  count_dashes (s1 ++ s2) = (count_dashes s1 + count_dashes s2)%nat.
Proof. induction s1 as [|a s1 IH]; simpl_append; simpl; [done|]. rewrite IH. lia. Qed.

Lemma count_dashes_word (s : string) : all_word_chars s = true → count_dashes s = 0%nat.
Proof.
  induction s as [|a s IH]; simpl; [done|]. intros [Ha Hs]%andb_true_iff.
  rewrite IH by done. destruct (Ascii.eqb a "-") eqn:E; [|done].
  apply Ascii.eqb_eq in E. by subst.
Qed.

(** X8.  [isValidId] takes a text of the form prefix-word-word.  It
    rejects every identifier [generateTaskId] and [generateColumnId]
    produce, whatever the time stamp and the random part, because theirs
    has a third hyphen; and of what [generateId] produces from a time
    stamp of letters and digits it accepts exactly those whose random
    part is a non-empty text of letters and digits. *)
Theorem isValidId_generated_ids (timestamp random : string) :
  isValidId (idGenerator.generateTaskId timestamp random) = false ∧
  isValidId (idGenerator.generateColumnId timestamp random) = false ∧
  (is_word timestamp = true →
   isValidId (idGenerator.generateId timestamp random) = is_word random).
Proof.
  assert (∀ s, (3 ≤ count_dashes s)%nat → isValidId s = false) as Hreject.
  { intros s Hs. unfold isValidId. destruct (truthy_str s); [simpl|done].
    apply not_true_is_false. intros Ht%test_matches%matches_VALID_ID_PATTERN.
    destruct Ht as (p & w1 & w2 & -> & Hp & [_ Hw1]%andb_true_iff & [_ Hw2]%andb_true_iff).
    rewrite !count_dashes_app, (count_dashes_word w1), (count_dashes_word w2) in Hs by done.
    destruct Hp as [-> | [-> | ->]]; simpl in Hs; lia. }
  split_and!.
  - apply Hreject. unfold idGenerator.generateTaskId, idGenerator.generateId.
    simpl_append. simpl. rewrite !count_dashes_app. simpl_append. simpl. lia.
  - apply Hreject. unfold idGenerator.generateColumnId, idGenerator.generateId.
    simpl_append. simpl. rewrite !count_dashes_app. simpl_append. simpl. lia.
  - clear Hreject. intros Hts. unfold isValidId.
    change (truthy_str (idGenerator.generateId timestamp random)) with true. cbn [negb].
    destruct (is_word random) eqn:Hr.
    + apply test_matches, matches_VALID_ID_PATTERN.
      exists "id", timestamp, random. split_and!; [done | by left | done..].
    + apply not_true_is_false. intros Ht%test_matches%matches_VALID_ID_PATTERN.
      destruct Ht as (p & w1 & w2 & Heq & Hp & Hw1 & Hw2).
      assert (count_dashes w1 = 0%nat ∧ count_dashes w2 = 0%nat ∧
              count_dashes timestamp = 0%nat) as (Hc1 & Hc2 & Hct).
      { apply andb_true_iff in Hw1 as [_ ?], Hw2 as [_ ?], Hts as [_ ?].
        split_and!; by apply count_dashes_word. }
      assert (p = "id") as ->.
      { destruct Hp as [-> | [-> | ->]]; [done|discriminate..]. }
      unfold idGenerator.generateId in Heq. simpl_append. injection Heq as Heq.
      assert (∀ a b c d : string, count_dashes a = 0%nat → count_dashes c = 0%nat →
                a ++ String "-" b = c ++ String "-" d → a = c ∧ b = d) as Hsplit.
      { induction a as [|x a IH]; intros b [|y c] d Ha Hc Hacbd; simpl_append; simpl in *.
        * by injection Hacbd as ->.
        * injection Hacbd as <- _. simpl in Hc. done.
        * injection Hacbd as -> _. simpl in Ha. done.
        * injection Hacbd as -> Hrest.
          destruct (Ascii.eqb y "-"); [done|].
          destruct (IH b c d Ha Hc Hrest) as [-> ->]. done. }
      apply Hsplit in Heq as [_ ->]; [|done..]. congruence.
Qed.

Lemma isValidId_generated_ids_witness :
  isValidId (idGenerator.generateId "mhj4x2a0" "k3f9q1z7b") = true.
Proof.
  destruct (isValidId_generated_ids "mhj4x2a0" "k3f9q1z7b") as (_ & _ & Hid).
  by rewrite Hid.
Defined.

(** ** How the store's operations compose *)

Lemma truthy_str_nonempty (s : string) : s ≠ "" → truthy_str s = true.
Proof. by destruct s. Qed.

Section StoreComposition.
Context `{JsDate}.

(** X9.  [deleteTask] undoes [addTask]: after a task was added under an
    unused identifier to an existing column, deleting that identifier
    gives back the [tasks] dictionary, the column order and every
    column's [taskIds] as they were; only the column's [updatedAt] and
    the board's [lastModified] differ. *)
Theorem deleteTask_addTask (b : Board) (c : string) (col : ColumnType.t)
    (d : TaskFactory.formData) (i now later : string) :
  columns b !! c = Some col → c ≠ "" → fresh_id b i →
  TaskType.isValid (TaskFactory.createFromForm (TaskFactory.with_id d i) now) = true →
  ∃ b1, addTask c d i now b = Ok b1 ∧
    ∀ entries, enumerates entries (columns b1) →
      deleteTask true entries i later b1 =
        Ok (mkBoard (tasks b)
                    (<[c := set_taskIds col (ColumnType.taskIds col) later]> (columns b))
                    (columnOrder b) later).
Proof.
  intros Hc Hne (Hti & _ & _ & Hfresh) Hvalid.
  eexists. split.
  { unfold addTask, updateBoardData. rewrite Hvalid, (dict_get_Some _ _ _ Hc).
    reflexivity. }
  intros entries Henum. cbn [columns set_lastModified] in Henum.
  set (col1 := set_taskIds col (ColumnType.taskIds col ++ [i]) now) in *.
  unfold deleteTask, updateBoardData. cbn [negb].
  rewrite (findSourceColumn_owner entries _ i c col1 Henum).
  - cbn -[truthy_str]. rewrite (truthy_str_nonempty c Hne). cbn [negb].
    rewrite lookup_insert_eq. cbn -[without].
    rewrite delete_insert_id by done. rewrite insert_insert_eq.
    unfold col1. cbn [set_taskIds ColumnType.taskIds ColumnType.id ColumnType.title
                      ColumnType.color ColumnType.createdAt ColumnType.order].
    rewrite without_app_fresh by (by apply (Hfresh c col)). done.
  - apply lookup_insert_eq.
  - unfold col1. simpl. apply elem_of_app. right. by left.
  - intros c' col' Hc' Hi. destruct (decide (c' = c)) as [->|Hne']; [done|].
    rewrite lookup_insert_ne in Hc' by done. by destruct (Hfresh c' col' Hc').
Qed.

End StoreComposition.

Lemma deleteTask_addTask_witness :
  deleteTask true (map_to_list (columns board_one_task)) task_1 "t3" board_one_task
  = Ok (mkBoard ∅ {[ column_1 := todo_column [] "t3" ]} [column_1] "t3").
Proof.
  destruct (deleteTask_addTask (H:=utc_runtime) board_todo column_1 (todo_column [] "t1")
              write_spec_form task_1 "t2" "t3") as (b1 & Hadd & Hdel).
  - reflexivity.
  - discriminate.
  - split_and!; [reflexivity | reflexivity | |].
    + intros [Heq|Hin]%elem_of_cons; [discriminate | by apply elem_of_nil in Hin].
    + intros c col Hc. cbn [board_todo columns] in Hc.
      apply lookup_singleton_Some in Hc as [_ <-]. apply not_elem_of_nil.
  - reflexivity.
  - assert (b1 = board_one_task) as ->.
    { assert (addTask (H:=utc_runtime) column_1 write_spec_form task_1 "t2" board_todo
              = Ok board_one_task) as Hrun by (vm_compute; reflexivity).
      congruence. }
    rewrite (Hdel _ (enumerates_map_to_list _)). vm_compute. reflexivity.
Defined.

(** X10.  A move between two columns: when column [s] is the one column
    that lists task [t] and [g] is another existing column, [moveTask(t,
    g)] removes [t] from [s], puts it last in [g], and leaves [tasks],
    the column order and every other column as they were; afterwards [g]
    is the one column that lists [t]. *)
Theorem moveTask_between_columns (b : Board) (entries : list (string * ColumnType.t))
    (t s g now : string) (scol gcol : ColumnType.t) :
  enumerates entries (columns b) →
  columns b !! s = Some scol → t ∈ ColumnType.taskIds scol → s ≠ "" →
  (∀ c', owns b c' t → c' = s) →
  columns b !! g = Some gcol → g ≠ s →
  ∃ b', moveTask entries t g now b = Ok b' ∧
    tasks b' = tasks b ∧ columnOrder b' = columnOrder b ∧
    columns b' !! s = Some (set_taskIds scol (without (ColumnType.taskIds scol) t) now) ∧
    columns b' !! g = Some (set_taskIds gcol (ColumnType.taskIds gcol ++ [t]) now) ∧
    (∀ c', c' ≠ s → c' ≠ g → columns b' !! c' = columns b !! c') ∧
    owns b' g t ∧ (∀ c', owns b' c' t → c' = g).
Proof.
  intros Henum Hs Hts Hne Huniq Hg Hgs.
  eexists. split.
  { unfold moveTask, updateBoardData.
    rewrite (findSourceColumn_owner entries (columns b) t s scol Henum Hs Hts).
    - cbn -[truthy_str String.eqb]. rewrite (truthy_str_nonempty s Hne). cbn [negb].
      assert (String.eqb s g = false) as -> by (apply String.eqb_neq; congruence).
      rewrite Hs, (dict_get_Some _ _ _ Hg). reflexivity.
    - intros c' col' Hc' Ht'. apply Huniq. by exists col'. }
  cbn [set_lastModified tasks columns columnOrder].
  split_and!; [done | done | | | | |].
  - rewrite lookup_insert_ne by done. apply lookup_insert_eq.
  - apply lookup_insert_eq.
  - intros c' Hcs Hcg. by rewrite !lookup_insert_ne.
  - eexists. split; [apply lookup_insert_eq|]. simpl. apply elem_of_app. right. by left.
  - intros c' (col' & Hc' & Hin). simpl in Hc'.
    destruct (decide (c' = g)) as [->|Hcg]; [done|].
    rewrite lookup_insert_ne in Hc' by done.
    destruct (decide (c' = s)) as [->|Hcs].
    + rewrite lookup_insert_eq in Hc'. injection Hc' as <-. simpl in Hin.
      apply elem_of_without in Hin as [_ Hin]. done.
    + rewrite lookup_insert_ne in Hc' by done. destruct Hcs. apply Huniq. by exists col'.
Qed.

(** A board with the task in the first of two columns. *)
Lemma moveTask_between_columns_witness :
  let b := mkBoard {[ task_1 := TaskType.mk "" "Write spec" "" "medium" "" "" "t2" "t2" ]}
                   {[ column_1 := todo_column [task_1] "t2";
                      column_2 := todo_column [] "t1" ]}
                   [column_1; column_2] "t3" in
  ∃ b', moveTask (map_to_list (columns b)) task_1 column_2 "t4" b = Ok b' ∧
        columns b' !! column_1 = Some (todo_column [] "t4") ∧
        columns b' !! column_2 = Some (todo_column [task_1] "t4").
Proof.
  intros b.
  destruct (moveTask_between_columns b (map_to_list (columns b)) task_1 column_1 column_2
              "t4" (todo_column [task_1] "t2") (todo_column [] "t1"))
    as (b' & Hrun & _ & _ & Hs & Hg & _).
  - apply enumerates_map_to_list.
  - vm_compute. reflexivity.
  - by left.
  - discriminate.
  - intros c' (col & Hc & Hin). unfold b in Hc. cbn [columns] in Hc.
    destruct (decide (c' = column_1)) as [->|Hne]; [done|].
    rewrite lookup_insert_ne in Hc by done.
    apply lookup_singleton_Some in Hc as [_ <-]. by apply elem_of_nil in Hin.
  - vm_compute. reflexivity.
  - discriminate.
  - exists b'. split_and!; [done | by rewrite Hs | by rewrite Hg].
Defined.



(** ** The store: cascades, frames and what it does not check *)

(** X12.  [deleteColumn] of an existing column, once confirmed, removes
    the column, its identifier from the order, and exactly the tasks the
    column lists; the other columns and tasks stay as they were.  When
    the user declines, the board is unchanged. *)
Theorem deleteColumn_cascade (b : Board) (c now : string) (col : ColumnType.t) :
  columns b !! c = Some col →
  deleteColumn false c now b = Ok b ∧
  ∃ b', deleteColumn true c now b = Ok b' ∧
    columns b' !! c = None ∧ (c ∉ columnOrder b') ∧
    (∀ c', c' ≠ c → columns b' !! c' = columns b !! c') ∧
    (∀ c', c' ≠ c → c' ∈ columnOrder b' ↔ c' ∈ columnOrder b) ∧
    (∀ t, t ∈ ColumnType.taskIds col → tasks b' !! t = None) ∧
    (∀ t, t ∉ ColumnType.taskIds col → tasks b' !! t = tasks b !! t).
Proof.
  intros Hc. unfold deleteColumn, updateBoardData. rewrite (dict_get_Some _ _ _ Hc).
  simpl.
  split; [done|]. eexists. split; [done|]. simpl. split_and!.
  - apply lookup_delete_eq.
  - intros Hin. apply elem_of_without in Hin as [_ Hne]. done.
  - intros c' Hne. by apply lookup_delete_ne.
  - intros c' Hne. rewrite elem_of_without. tauto.
  - intros t Ht. rewrite lookup_delete_all. by rewrite bool_decide_eq_true_2.
  - intros t Ht. rewrite lookup_delete_all. by rewrite bool_decide_eq_false_2.
Qed.

Lemma deleteColumn_cascade_witness :
  deleteColumn true column_1 "t3" board_one_task = Ok (mkBoard ∅ ∅ [] "t3").
Proof.
  destruct (deleteColumn_cascade board_one_task column_1 "t3" (todo_column [task_1] "t2"))
    as (_ & b' & Hrun & _); [reflexivity|].
  rewrite Hrun. vm_compute in Hrun. injection Hrun as <-. vm_compute. reflexivity.
Defined.

(** X13.  A task that no column lists cannot be deleted, whether or not
    [tasks] holds it: a confirmed [deleteTask] throws 'Task ... not
    found in any column' and the board stays as it was. *)
Theorem deleteTask_unlisted (b : Board) (entries : list (string * ColumnType.t))
    (t now : string) :
  enumerates entries (columns b) → (∀ c, ¬ owns b c t) →
  deleteTask true entries t now b = Throw (TaskNotInAnyColumn t) ∧
  commit b (deleteTask true entries t now b) = b.
Proof.
  intros Henum Hnone.
  assert (deleteTask true entries t now b = Throw (TaskNotInAnyColumn t)) as Hrun.
  { unfold deleteTask, updateBoardData. cbn [negb].
    destruct (findSourceColumn entries t) as [c|] eqn:Hfind; [|done].
    apply (findSourceColumn_Some entries (columns b)) in Hfind as (col & Hc & Ht); [|done].
    destruct (Hnone c). by exists col. }
  by rewrite Hrun.
Qed.

(** A stored task whose column has dropped it from its list. *)
Lemma deleteTask_unlisted_witness :
  let b := mkBoard {[ task_1 := TaskType.mk "" "Write spec" "" "medium" "" "" "t2" "t2" ]}
                   {[ column_1 := todo_column [] "t3" ]} [column_1] "t3" in
  deleteTask true (map_to_list (columns b)) task_1 "t4" b
  = Throw (TaskNotInAnyColumn task_1).
Proof.
  intros b. apply (deleteTask_unlisted b (map_to_list (columns b)) task_1 "t4").
  - apply enumerates_map_to_list.
  - intros c (col & Hc & Hin). unfold b in Hc. cbn [columns] in Hc.
    apply lookup_singleton_Some in Hc as [_ <-]. by apply elem_of_nil in Hin.
Defined.

Section StoreFrames.
Context `{JsDate}.

(** X14.  When [updateTask] returns, the task under the identifier
    passes [validate()] and carries the operation's instant as
    [updatedAt]; the other tasks, the set of task identifiers, the
    columns and the column order are as before.  When it throws, for a
    stored task, the error is 'Invalid task data: ...' and the board is
    as before. *)
Theorem updateTask_frame (b : Board) (t now : string) (x : TaskType.t)
    (u : TaskType.updates) :
  tasks b !! t = Some x →
  match updateTask t u now b with
  | Ok b' =>
      columns b' = columns b ∧ columnOrder b' = columnOrder b ∧
      lastModified b' = now ∧
      (∀ t', is_Some (tasks b' !! t') ↔ is_Some (tasks b !! t')) ∧
      (∀ t', t' ≠ t → tasks b' !! t' = tasks b !! t') ∧
      ∃ y, tasks b' !! t = Some y ∧ TaskType.isValid y = true ∧
           TaskType.updatedAt y = now
  | Throw e => ∃ errors, e = InvalidTaskData errors ∧ errors ≠ []
  end.
Proof.
  intros Ht. unfold updateTask, updateBoardData. rewrite (dict_get_Some _ _ _ Ht).
  unfold TaskType.update. cbn [TaskType.fromObject]. cbn zeta.
  set (y := TaskType.mk _ _ _ _ _ _ _ _).
  destruct (TaskType.isValid y) eqn:Hvalid; simpl.
  - split_and!; [done..| | |].
    + intros t'. destruct (decide (t' = t)) as [->|Hne].
      * rewrite lookup_insert_eq, Ht. by split.
      * by rewrite lookup_insert_ne.
    + intros t' Hne. by rewrite lookup_insert_ne.
    + exists y. by rewrite lookup_insert_eq.
  - eexists. split; [done|]. unfold TaskType.isValid in Hvalid.
    by destruct (TaskType.validate_errors y).
Qed.

End StoreFrames.

Lemma updateTask_frame_witness :
  ∃ b', updateTask (H:=utc_runtime) task_1
          (TaskType.mkUpdates None (Some "Write the spec") None None None None None)
          "t3" board_one_task = Ok b' ∧
        columns b' = columns board_one_task.
Proof.
  pose proof (updateTask_frame (H:=utc_runtime) board_one_task task_1 "t3"
                (TaskType.mk "" "Write spec" "" "medium" "" "" "t2" "t2")
                (TaskType.mkUpdates None (Some "Write the spec") None None None None None)
                eq_refl) as Hframe.
  destruct (updateTask _ _ _ _) as [b'|e] eqn:Hrun.
  - exists b'. split; [done|]. by destruct Hframe as (-> & _).
  - vm_compute in Hrun. discriminate.
Defined.

Section StoreValidity.
Context `{JsDate}.

(** X15.  Every operation of the store other than an import keeps the
    stored tasks valid: if each task of the board passes [validate()]
    before the operation returns, each does afterwards. *)
Theorem store_keeps_tasks_valid (o : operation) (b b' : Board) :
  is_import o = false → performs o b b' → every_task_valid b → every_task_valid b'.
Proof.
  intros Himp Hrun Hvalid t x Hx. destruct o; simpl in Hrun; try done.
  - apply addTask_Ok in Hrun as (col & _ & Htask & ->). simpl in Hx.
    destruct (decide (t = generatedId)) as [->|Hne].
    + rewrite lookup_insert_eq in Hx. by injection Hx as <-.
    + rewrite lookup_insert_ne in Hx by done. by apply (Hvalid t).
  - apply updateTask_Ok in Hrun as (new & _ & Hupd & ->). simpl in Hx.
    destruct (decide (t = taskId)) as [->|Hne].
    + rewrite lookup_insert_eq in Hx. injection Hx as <-.
      unfold TaskType.update in Hupd.
      destruct (TaskType.isValid _) eqn:Hok; [|done]. by injection Hupd as <-.
    + rewrite lookup_insert_ne in Hx by done. by apply (Hvalid t).
  - destruct Hrun as (entries & _ & Hrun). destruct confirmed.
    + apply deleteTask_Ok in Hrun as (c & col & _ & _ & ->). simpl in Hx.
      apply lookup_delete_Some in Hx as [_ Hx]. by apply (Hvalid t).
    + unfold deleteTask in Hrun. simpl in Hrun. injection Hrun as <-. by apply (Hvalid t).
  - destruct Hrun as (entries & Henum & Hrun).
    apply (moveTask_Ok _ _ _ _ _ _ Henum) in Hrun
      as (c & col & _ & _ & [[_ ->] | (_ & tc & _ & ->)]); by apply (Hvalid t).
  - apply addColumn_Ok in Hrun as [_ ->]. by apply (Hvalid t).
  - apply updateColumn_Ok in Hrun as (new & _ & _ & ->). by apply (Hvalid t).
  - destruct confirmed.
    + apply deleteColumn_Ok in Hrun as (_ & ->). simpl in Hx.
      rewrite lookup_delete_all in Hx. case_bool_decide; [done|]. by apply (Hvalid t).
    + unfold deleteColumn in Hrun. destruct (dict_get (columns b) columnId); [| |done];
        simpl in Hrun; injection Hrun as <-; by apply (Hvalid t).
  - unfold reorderColumns, updateBoardData in Hrun. simpl in Hrun.
    injection Hrun as <-. by apply (Hvalid t).
  - destruct confirmed; unfold clearBoard, updateBoardData in Hrun; simpl in Hrun;
      injection Hrun as <-; [done|]. by apply (Hvalid t).
Qed.

End StoreValidity.

Lemma store_keeps_tasks_valid_witness : every_task_valid (H:=utc_runtime) board_one_task.
Proof.
  apply (store_keeps_tasks_valid (H:=utc_runtime)
           (AddTask column_1 write_spec_form task_1 "t2") board_todo board_one_task).
  - reflexivity.
  - vm_compute. reflexivity.
  - intros t x Hx. done.
Defined.

Section ColumnLimit.
Context `{JsDate}.

(** X16.  The store's [addTask] does not apply the column limit: on a
    column that already lists 100 tasks or more it still appends the new
    task.  The column it leaves fails [validate()], and from then on
    every [updateColumn] of it that does not replace [taskIds] throws
    'Invalid column data: ...'. *)
Theorem addTask_exceeds_column_limit (b : Board) (c : string) (col : ColumnType.t)
    (d : TaskFactory.formData) (i now : string) :
  columns b !! c = Some col → (100 ≤ length (ColumnType.taskIds col))%nat →
  TaskType.isValid (TaskFactory.createFromForm (TaskFactory.with_id d i) now) = true →
  ∃ b1 col1, addTask c d i now b = Ok b1 ∧ columns b1 !! c = Some col1 ∧
    ColumnType.taskIds col1 = (ColumnType.taskIds col ++ [i])%list ∧
    ColumnType.isValid col1 = false ∧
    ∀ u later, ColumnType.u_taskIds u = None →
      ∃ errors, updateColumn c u later b1 = Throw (InvalidColumnData errors) ∧
                "Column cannot contain more than 100 tasks" ∈ errors.
Proof.
  intros Hc Hfull Hvalid.
  exists (mkBoard (<[i := TaskFactory.createFromForm (TaskFactory.with_id d i) now]> (tasks b))
            (<[c := set_taskIds col (ColumnType.taskIds col ++ [i]) now]> (columns b))
            (columnOrder b) now),
         (set_taskIds col (ColumnType.taskIds col ++ [i]) now).
  assert (∀ x : ColumnType.t,
            (100 < length (ColumnType.taskIds x))%nat →
            "Column cannot contain more than 100 tasks" ∈ ColumnType.validate_errors x)
    as Hlimit.
  { intros x Hx. unfold ColumnType.validate_errors.
    assert ((100 <? Z.of_nat (length (ColumnType.taskIds x))) = true) as ->
      by (apply Z.ltb_lt; lia).
    rewrite !elem_of_app. do 3 right. by left. }
  split_and!.
  - unfold addTask, updateBoardData. by rewrite Hvalid, (dict_get_Some _ _ _ Hc).
  - apply lookup_insert_eq.
  - done.
  - unfold ColumnType.isValid.
    pose proof (Hlimit (set_taskIds col (ColumnType.taskIds col ++ [i]) now)) as Hin.
    destruct (ColumnType.validate_errors _); [|done].
    exfalso. eapply not_elem_of_nil, Hin. simpl. rewrite length_app. simpl. lia.
  - intros u later Hu. unfold updateColumn, updateBoardData.
    cbn [columns]. rewrite (dict_get_Some _ c _ (lookup_insert_eq _ _ _)).
    unfold ColumnType.update. cbn [ColumnType.fromObject]. cbn zeta.
    set (y := ColumnType.mk _ _ _ _ _ _ _).
    assert ("Column cannot contain more than 100 tasks" ∈ ColumnType.validate_errors y)
      as Hin.
    { apply Hlimit. unfold y. rewrite Hu. simpl. rewrite length_app. simpl. lia. }
    unfold ColumnType.isValid. destruct (ColumnType.validate_errors y) eqn:Herrs.
    + by apply elem_of_nil in Hin.
    + eexists. split; [done|]. done.
Qed.

End ColumnLimit.

Lemma addTask_exceeds_column_limit_witness :
  ∃ b1, addTask (H:=utc_runtime) column_1 write_spec_form task_1 "t2" board_full = Ok b1 ∧
        ∃ errors,
          updateColumn column_1
            (ColumnType.mkUpdates None (Some "Backlog") None None None None) "t3" b1
          = Throw (InvalidColumnData errors).
Proof.
  destruct (addTask_exceeds_column_limit (H:=utc_runtime) board_full column_1 column_full
              write_spec_form task_1 "t2")
    as (b1 & col1 & Hadd & _ & _ & _ & Hupd).
  - reflexivity.
  - vm_compute. lia.
  - reflexivity.
  - exists b1. split; [done|].
    destruct (Hupd (ColumnType.mkUpdates None (Some "Backlog") None None None None) "t3"
                eq_refl) as (errors & Hthrow & _).
    by exists errors.
Defined.

(** ** Statistics *)

Lemma count_task_lookup (acc : gmap string tally) (q p : string) :
  count_task acc q !! p = if String.eqb q p then count_once p (acc !! p) else acc !! p.
Proof.
  unfold count_task, count_once. destruct (String.eqb_spec q p) as [->|Hne].
  - destruct (acc !! p) as [[n|name ones]|] eqn:Hp; rewrite ?lookup_insert_eq; [done..|].
    destruct (String.eqb p "__proto__"); [done|].
    destruct (is_prototype_name p); by rewrite lookup_insert_eq.
  - destruct (acc !! q) as [[n|name ones]|]; rewrite ?lookup_insert_ne by done; [done..|].
    destruct (String.eqb q "__proto__"); [done|].
    destruct (is_prototype_name q); by rewrite lookup_insert_ne.
Qed.

Lemma tasksByPriority_fold (values : list TaskType.t) (acc : gmap string tally)
    (p : string) :
  fold_left (λ acc task, count_task acc (TaskType.priority task)) values acc !! p
  = Nat.iter (count_priority p values) (count_once p) (acc !! p).
Proof.
  revert acc. unfold count_priority.
  induction values as [|x values IH]; intros acc; cbn [fold_left List.filter]; [done|].
  rewrite IH, count_task_lookup.
  destruct (String.eqb (TaskType.priority x) p); [|done].
  cbn [length]. by rewrite Nat.iter_succ_r.
Qed.

Lemma count_once_iter (n : nat) (p : string) :
  Nat.iter n (count_once p) None
  = if (n =? 0)%nat then None
    else if String.eqb p "__proto__" then None
    else if is_prototype_name p then Some (MemberText p n)
    else Some (Count (Z.of_nat n)).
Proof.
  induction n as [|n IH]; [done|].
  change (Nat.iter (S n) (count_once p) None)
    with (count_once p (Nat.iter n (count_once p) None)).
  rewrite IH.
  destruct n as [|n]; cbn [Nat.eqb].
  - unfold count_once. destruct (String.eqb p "__proto__"); [done|].
    by destruct (is_prototype_name p).
  - destruct (String.eqb p "__proto__") eqn:Hp; [unfold count_once; by rewrite Hp|].
    destruct (is_prototype_name p); cbn [count_once]; [done|].
    do 2 f_equal. lia.
Qed.

Lemma count_priority_zero (b : Board) (p : string) :
  count_priority p (task_values b) ≠ 0%nat ↔
  ∃ t x, tasks b !! t = Some x ∧ TaskType.priority x = p.
Proof.
  unfold count_priority. split.
  - intros Hn. destruct (List.filter _ _) as [|x rest] eqn:Hf; [done|].
    assert (x ∈ List.filter (λ x, String.eqb (TaskType.priority x) p) (task_values b))
      as Hx by (rewrite Hf; by left).
    apply list_elem_of_In, filter_In in Hx as [Hx Hp%String.eqb_eq].
    apply list_elem_of_In in Hx. unfold task_values in Hx.
    apply list_elem_of_fmap in Hx as ([t x'] & -> & Hx).
    apply elem_of_map_to_list in Hx. by exists t, x'.
  - intros (t & x & Hx & Hp).
    assert (x ∈ List.filter (λ x, String.eqb (TaskType.priority x) p) (task_values b))
      as Hin.
    { apply list_elem_of_In, filter_In. split; [|by apply String.eqb_eq].
      apply list_elem_of_In. unfold task_values. apply list_elem_of_fmap.
      exists (t, x). split; [done|]. by apply elem_of_map_to_list. }
    intros Hzero. destruct (List.filter _ _); [by apply elem_of_nil in Hin | done].
Qed.

Lemma length_filter_le_implied {A} (P Q : A → bool) (l : list A) :
  (∀ x, P x = true → Q x = true) →
  (length (List.filter P l) ≤ length (List.filter Q l))%nat.
Proof.
  intros Himp. induction l as [|x l IH]; [done|]. simpl.
  destruct (P x) eqn:HP.
  - rewrite (Himp x HP). simpl. lia.
  - destruct (Q x); simpl; lia.
Qed.

Lemma utc_start_of_day_monotone (x y : Z) :
  x ≤ y → start_of_day (JsDate:=utc_runtime) x ≤ start_of_day (JsDate:=utc_runtime) y.
Proof.
  intros Hxy. cbn [start_of_day utc_runtime].
  pose proof (Z.div_le_mono x y MS_PER_DAY eq_refl Hxy) as Hdiv.
  rewrite (Z.mod_eq x MS_PER_DAY), (Z.mod_eq y MS_PER_DAY) by done.
  unfold MS_PER_DAY in *. lia.
Qed.

Section Statistics.
Context `{JsDate}.

(** X17.  [getBoardStats().tasksByPriority], for a priority that is not
    the name of a member of [Object.prototype], has a property exactly
    when some task carries the priority, and its value is the number of
    such tasks.  For a priority named like such a member the value is
    the member's text followed by one ['1'] for each task, not a count,
    and ['__proto__'] never gets a property.  [totalTasks] is the number
    of tasks the counts run over. *)
Theorem getBoardStats_tasksByPriority (b : Board) (today : Z) (p : string) :
  let stats := getBoardStats b today in
  let n := count_priority p (task_values b) in
  (n ≠ 0%nat ↔ ∃ t x, tasks b !! t = Some x ∧ TaskType.priority x = p) ∧
  tasksByPriority stats !! p
    = (if (n =? 0)%nat then None
       else if String.eqb p "__proto__" then None
       else if is_prototype_name p then Some (MemberText p n)
       else Some (Count (Z.of_nat n))) ∧
  totalTasks stats = length (task_values b).
Proof.
  cbv zeta. cbn [getBoardStats tasksByPriority totalTasks]. split_and!.
  - apply count_priority_zero.
  - by rewrite tasksByPriority_fold, lookup_empty, count_once_iter.
  - unfold task_values. by rewrite length_fmap, length_map_to_list.
Qed.

(** X18.  With a [setHours(0, 0, 0, 0)] that keeps the order of
    instants, every task for which [isOverdue()] is true passes the
    filter of [getBoardStats], so [overdueTasks] is at least the number
    of such tasks. *)
Theorem getBoardStats_counts_overdue_tasks (b : Board) (today : Z) :
  (∀ x y, x ≤ y → start_of_day x ≤ start_of_day y) →
  (∀ task, TaskType.isOverdue task today = true → stats_overdue today task = true) ∧
  (count_isOverdue b today ≤ overdueTasks (getBoardStats b today))%nat.
Proof.
  intros Hmono.
  assert (∀ task, TaskType.isOverdue task today = true → stats_overdue today task = true)
    as Himp.
  { intros task. unfold TaskType.isOverdue, stats_overdue.
    destruct (truthy_str (TaskType.dueDate task)); simpl; [|done].
    destruct (date_parse (TaskType.dueDate task)) as [due|]; simpl; [|done].
    rewrite !Z.ltb_lt. intros Hlt.
    destruct (Z.lt_ge_cases due today) as [?|Hge]; [done|].
    specialize (Hmono _ _ Hge). lia. }
  split; [done|]. unfold count_isOverdue. cbn [getBoardStats overdueTasks].
  by apply length_filter_le_implied.
Qed.

End Statistics.

Lemma getBoardStats_counts_overdue_tasks_witness :
  (count_isOverdue (H:=utc_runtime) board_due_today noon_2026_11_03
   ≤ overdueTasks (getBoardStats (H:=utc_runtime) board_due_today noon_2026_11_03))%nat.
Proof.
  apply (getBoardStats_counts_overdue_tasks (H:=utc_runtime) board_due_today
           noon_2026_11_03 utc_start_of_day_monotone).
Defined.

(** ** The forms and the store *)

Lemma or_default_empty (s : string) : or_default (Some s) "" = s.
Proof. by destruct s. Qed.

Lemma or_default_truthy (s dflt : string) : s ≠ "" → or_default (Some s) dflt = s.
Proof. by destruct s. Qed.

Lemma length_nil_eqb {A} (l : list A) : Nat.eqb (length l) 0 = true ↔ l = [].
Proof. by destruct l. Qed.

Lemma title_form_test (s : string) (n : Z) (e1 e2 : string * string) :
  (if negb (truthy_str (trim s)) then [e1]
   else if n <? str_length s then [e2] else []) = [] ↔
  trim s ≠ "" ∧ str_length s ≤ n.
Proof.
  destruct (trim s) eqn:Et; simpl.
  - split; [done | by intros [? _]].
  - destruct (n <? str_length s) eqn:Elen.
    + apply Z.ltb_lt in Elen. split; [done | intros [_ ?]; lia].
    + apply Z.ltb_ge in Elen. done.
Qed.

Section Forms.
Context `{JsDate}.

(** When [validate()] of the add-task form sets no error. *)
Lemma AddTaskModal_validate_true (f : AddTaskModal.formData) (today : Z) :
  AddTaskModal.validate f today = true ↔
  trim (AddTaskModal.title f) ≠ "" ∧
  str_length (AddTaskModal.title f) ≤ 100 ∧
  str_length (AddTaskModal.description f) ≤ 500 ∧
  str_length (AddTaskModal.assignee f) ≤ 50 ∧
  (AddTaskModal.dueDate f = "" ∨
   ∃ due, date_parse (AddTaskModal.dueDate f) = Some due ∧ start_of_day today ≤ due).
Proof.
  unfold AddTaskModal.validate, AddTaskModal.newErrors.
  rewrite length_nil_eqb, !length_guard by lia.
  rewrite !app_nil_iff, title_form_test, !if_singleton_nil, !Z.ltb_ge.
  assert ((if truthy_str (AddTaskModal.dueDate f)
           then match date_parse (AddTaskModal.dueDate f) with
                | Some d => if d <? start_of_day today
                            then [("dueDate", "Due date cannot be in the past")] else []
                | None => [("dueDate", "Invalid date format")]
                end
           else []) = [] ↔
          AddTaskModal.dueDate f = "" ∨
          ∃ due, date_parse (AddTaskModal.dueDate f) = Some due ∧ start_of_day today ≤ due)
    as ->; [|tauto].
  destruct (AddTaskModal.dueDate f) eqn:Ed; simpl.
  - split; [by left | done].
  - destruct (date_parse _) as [d|].
    + destruct (d <? start_of_day today) eqn:Elt.
      * apply Z.ltb_lt in Elt. split; [done|]. intros [?|(due & [= <-] & ?)]; [done | lia].
      * apply Z.ltb_ge in Elt. split; [|done]. intros _. right. by exists d.
    + split; [done|]. intros [?|(due & ? & _)]; done.
Qed.

(** When [validate()] of the task editor sets no error. *)
Lemma TaskEditor_validate_true (f : AddTaskModal.formData) :
  TaskEditor.validate f = true ↔
  trim (AddTaskModal.title f) ≠ "" ∧
  str_length (AddTaskModal.title f) ≤ 100 ∧
  str_length (AddTaskModal.description f) ≤ 500 ∧
  str_length (AddTaskModal.assignee f) ≤ 50 ∧
  (AddTaskModal.dueDate f = "" ∨ is_Some (date_parse (AddTaskModal.dueDate f))).
Proof.
  unfold TaskEditor.validate, TaskEditor.newErrors.
  rewrite length_nil_eqb, !length_guard by lia.
  rewrite !app_nil_iff, title_form_test, !if_singleton_nil, !Z.ltb_ge.
  assert ((if truthy_str (AddTaskModal.dueDate f)
           then match date_parse (AddTaskModal.dueDate f) with
                | Some _ => []
                | None => [("dueDate", "Invalid date format")]
                end
           else []) = [] ↔
          AddTaskModal.dueDate f = "" ∨ is_Some (date_parse (AddTaskModal.dueDate f)))
    as ->; [|tauto].
  destruct (AddTaskModal.dueDate f) eqn:Ed; simpl.
  - split; [by left | done].
  - destruct (date_parse _) as [d|]; split; try done.
    + intros _. right. by eexists.
    + intros [?|[? ?]]; done.
Qed.

(** The task [addTask] builds from an accepted add-task form. *)
Lemma AddTaskModal_task (f : AddTaskModal.formData) (i now : string) :
  trim (AddTaskModal.title f) ≠ "" →
  TaskFactory.createFromForm (TaskFactory.with_id (AddTaskModal.taskData f) i) now
  = TaskType.mk "" (AddTaskModal.title f) (AddTaskModal.description f)
                (if truthy_str (AddTaskModal.priority f)
                 then AddTaskModal.priority f else PRIORITY_MEDIUM)
                (AddTaskModal.assignee f) (AddTaskModal.dueDate f) now now.
Proof.
  intros Ht. unfold TaskFactory.createFromForm, TaskFactory.with_id, AddTaskModal.taskData.
  cbn [TaskFactory.f_title TaskFactory.f_description TaskFactory.f_priority
       TaskFactory.f_assignee TaskFactory.f_dueDate].
  rewrite !or_default_empty. done.
Qed.

(** X19.  A form the add-task dialog accepts is stored by [addTask]
    when its priority is one of the three levels or empty (then it
    becomes 'medium') and the column exists: the dialog closes, the new
    task carries the form's texts and the column lists it last.  With any
    other priority the dialog shows 'Invalid priority level' and the
    board is untouched. *)
Theorem AddTaskModal_handleSubmit_addTask (f : AddTaskModal.formData)
    (c i now : string) (today : Z) (b : Board) :
  AddTaskModal.validate f today = true →
  let submit :=
    AddTaskModal.handleSubmit f c today (λ columnId data, addTask columnId data i now b) in
  (∀ col, AddTaskModal.priority f = "" ∨ AddTaskModal.priority f ∈ PRIORITY_LEVELS →
     columns b !! c = Some col →
     submit = AddTaskModal.Closed
       (mkBoard (<[i := TaskType.mk "" (AddTaskModal.title f) (AddTaskModal.description f)
                          (if truthy_str (AddTaskModal.priority f)
                           then AddTaskModal.priority f else PRIORITY_MEDIUM)
                          (AddTaskModal.assignee f) (AddTaskModal.dueDate f) now now]>
                   (tasks b))
                (<[c := set_taskIds col (ColumnType.taskIds col ++ [i]) now]> (columns b))
                (columnOrder b) now)) ∧
  (AddTaskModal.priority f ≠ "" → AddTaskModal.priority f ∉ PRIORITY_LEVELS →
     submit = AddTaskModal.SubmitError "Invalid priority level").
Proof.
  intros Hform. pose proof Hform as (Ht & Hlen & Hdesc & Hass & Hdue)%AddTaskModal_validate_true.
  cbv zeta. unfold AddTaskModal.handleSubmit. rewrite Hform. cbn [negb].
  unfold addTask. rewrite (AddTaskModal_task f i now Ht).
  set (task := TaskType.mk _ _ _ _ _ _ _ _).
  split.
  - intros col Hprio Hc.
    assert (TaskType.isValid task = true) as ->.
    { apply TaskType_isValid_nil, TaskType_validate_errors_nil. unfold task. simpl.
      split_and!; [done..| | done |].
      - right. destruct (AddTaskModal.priority f) as [|a p] eqn:Ep; cbn [truthy_str].
        + apply includes_elem_of. reflexivity.
        + by destruct Hprio.
      - destruct Hdue as [?|(due & -> & _)]; [by left | right; by eexists]. }
    cbn [negb]. unfold updateBoardData. rewrite (dict_get_Some _ _ _ Hc). done.
  - intros Hne Hnot.
    assert (TaskType.validate_errors task = ["Invalid priority level"]) as Herrs.
    { unfold TaskType.validate_errors, task.
      cbn [TaskType.title TaskType.description TaskType.priority TaskType.assignee
           TaskType.dueDate].
      rewrite title_required_test, !length_guard by lia.
      assert (truthy_str (trim (AddTaskModal.title f)) = true) as ->
        by by destruct (trim (AddTaskModal.title f)).
      assert ((100 <? str_length (AddTaskModal.title f)) = false) as -> by by apply Z.ltb_ge.
      assert ((500 <? str_length (AddTaskModal.description f)) = false) as ->
        by by apply Z.ltb_ge.
      assert ((50 <? str_length (AddTaskModal.assignee f)) = false) as ->
        by by apply Z.ltb_ge.
      apply includes_not_elem_of in Hnot.
      destruct (AddTaskModal.priority f) as [|a p]; [done|]. cbn [truthy_str].
      rewrite Hnot. cbn [negb andb].
      destruct Hdue as [->|(due & -> & _)]; [reflexivity|].
      by destruct (truthy_str (AddTaskModal.dueDate f)). }
    unfold TaskType.isValid. rewrite Herrs. reflexivity.
Qed.

(** X20.  What the task editor saves through its card reaches
    [updateTask] under the card's [task.id].  When the editor accepts the
    form, its priority is empty or one of the three levels, and the store
    holds a task under that identifier, the update returns: the stored
    task takes the five texts of the form, keeps its [id] and
    [createdAt], and gets the instant as [updatedAt]. *)
Theorem TaskEditor_handleSave_updateTask (f : AddTaskModal.formData) (task x : TaskType.t)
    (now : string) (b : Board) :
  TaskEditor.validate f = true →
  AddTaskModal.priority f = "" ∨ AddTaskModal.priority f ∈ PRIORITY_LEVELS →
  tasks b !! TaskType.id task = Some x →
  TaskEditor.handleSave f
    (TaskCard.handleEdit task (λ taskId updates, updateTask taskId updates now b))
  = Some (Ok (mkBoard
                (<[TaskType.id task :=
                     TaskType.mk (TaskType.id x) (AddTaskModal.title f)
                                 (AddTaskModal.description f) (AddTaskModal.priority f)
                                 (AddTaskModal.assignee f) (AddTaskModal.dueDate f)
                                 (TaskType.createdAt x) now]> (tasks b))
                (columns b) (columnOrder b) now)).
Proof.
  intros Hform Hprio Hx.
  pose proof Hform as (Ht & Hlen & Hdesc & Hass & Hdue)%TaskEditor_validate_true.
  unfold TaskEditor.handleSave, TaskCard.handleEdit. rewrite Hform.
  unfold updateTask, updateBoardData. rewrite (dict_get_Some _ _ _ Hx).
  cbn [TaskType.fromObject].
  unfold TaskType.update, TaskEditor.updatedData. cbn [default from_option id
    TaskType.u_id TaskType.u_title TaskType.u_description TaskType.u_priority
    TaskType.u_assignee TaskType.u_dueDate TaskType.u_createdAt].
  set (y := TaskType.mk _ _ _ _ _ _ _ _).
  assert (TaskType.isValid y = true) as ->; [|done].
  apply TaskType_isValid_nil, TaskType_validate_errors_nil. unfold y. simpl.
  split_and!; done.
Qed.

End Forms.

Lemma AddTaskModal_handleSubmit_addTask_witness :
  AddTaskModal.handleSubmit (H:=utc_runtime) write_spec_entry column_1 noon_2026_11_03
    (λ columnId data, addTask (H:=utc_runtime) columnId data task_1 "t2" board_todo)
  = AddTaskModal.Closed board_one_task.
Proof.
  destruct (AddTaskModal_handleSubmit_addTask (H:=utc_runtime) write_spec_entry column_1
              task_1 "t2" noon_2026_11_03 board_todo eq_refl) as [Hadd _].
  rewrite (Hadd (todo_column [] "t1")).
  - vm_compute. reflexivity.
  - right. apply includes_elem_of. reflexivity.
  - reflexivity.
Defined.

Lemma TaskEditor_handleSave_updateTask_witness :
  let card := TaskType.mk task_1 "Write spec" "" "medium" "" "" "t2" "t2" in
  is_Some (TaskEditor.handleSave (H:=utc_runtime)
             (AddTaskModal.mkForm "Write the spec" "" "high" "" "2026-11-03")
             (TaskCard.handleEdit card
                (λ taskId updates,
                   updateTask (H:=utc_runtime) taskId updates "t3" board_one_task))).
Proof.
  intros card.
  rewrite (TaskEditor_handleSave_updateTask (H:=utc_runtime)
             (AddTaskModal.mkForm "Write the spec" "" "high" "" "2026-11-03") card
             (TaskType.mk "" "Write spec" "" "medium" "" "" "t2" "t2") "t3" board_one_task).
  - by eexists.
  - reflexivity.
  - right. apply includes_elem_of. reflexivity.
  - reflexivity.
Defined.

(** X21.  A form the add-column dialog accepts is always stored by
    [addColumn]: the dialog closes and the board has the new column, with
    the form's title and color, no task and [order] 0, last in the
    column order. *)
Theorem AddColumnModal_handleSubmit_addColumn (f : AddColumnModal.formData)
    (i now : string) (b : Board) :
  AddColumnModal.validate f = true →
  AddColumnModal.handleSubmit f (λ data, addColumn data i now b)
  = AddTaskModal.Closed
      (mkBoard (tasks b)
               (<[i := ColumnType.mk "" (AddColumnModal.title f) (AddColumnModal.color f)
                                     [] now now 0]> (columns b))
               (columnOrder b ++ [i]) now).
Proof.
  intros Hform. unfold AddColumnModal.handleSubmit. rewrite Hform. cbn [negb].
  unfold AddColumnModal.validate, AddColumnModal.newErrors in Hform.
  rewrite length_nil_eqb, app_nil_iff, title_form_test, if_singleton_nil in Hform.
  destruct Hform as ((Ht & Hlen) & Hcolor). apply negb_false_iff in Hcolor.
  assert (AddColumnModal.color f ≠ "") as Hne by (intros Heq; by rewrite Heq in Hcolor).
  unfold addColumn, ColumnFactory.createFromForm, ColumnFactory.with_id_order,
    AddColumnModal.columnData.
  cbn [ColumnFactory.f_title ColumnFactory.f_color].
  rewrite or_default_empty, (or_default_truthy _ _ Hne).
  set (column := ColumnType.mk _ _ _ _ _ _ _).
  assert (ColumnType.isValid column = true) as ->; [|done].
  apply ColumnType_isValid_nil, ColumnType_validate_errors_nil. unfold column. simpl.
  split_and!; [done | done | | lia]. right. by apply includes_elem_of.
Qed.

Lemma AddColumnModal_handleSubmit_addColumn_witness :
  AddColumnModal.handleSubmit (AddColumnModal.mkForm "To Do" "bg-gray-100")
    (λ data, addColumn data column_1 "t1" (emptyBoard "t0"))
  = AddTaskModal.Closed board_todo.
Proof.
  rewrite (AddColumnModal_handleSubmit_addColumn (AddColumnModal.mkForm "To Do" "bg-gray-100")
             column_1 "t1" (emptyBoard "t0") eq_refl).
  vm_compute. reflexivity.
Defined.

Section Cards.
Context `{JsDate}.

(** X22.  The card of a task that [addTask] stored hands the empty
    string to its callbacks, because that is the task's [id]; with the
    store's operations as callbacks, and a board that holds and lists
    nothing under the empty string, editing throws 'Task  not found' and
    deleting throws 'Task  not found in any column'. *)
Theorem TaskCard_of_added_task (b b1 : Board) (c i now later : string)
    (d : TaskFactory.formData) (u : TaskType.updates)
    (entries : list (string * ColumnType.t)) :
  addTask c d i now b = Ok b1 → i ≠ "" →
  tasks b !! "" = None → (∀ c', ¬ owns b c' "") →
  enumerates entries (columns b1) →
  ∃ task, tasks b1 !! i = Some task ∧
    TaskCard.handleEdit task (λ taskId updates, updateTask taskId updates later b1) u
      = Throw (TaskNotFound "") ∧
    TaskCard.handleDelete task true (λ taskId, deleteTask true entries taskId later b1)
      = Some (Throw (TaskNotInAnyColumn "")).
Proof.
  intros Hadd Hi Hempty Hunlisted Henum.
  apply addTask_Ok in Hadd as (col & Hc & _ & ->). cbn zeta in *.
  eexists. split; [apply lookup_insert_eq|].
  unfold TaskCard.handleEdit, TaskCard.handleDelete.
  cbn [TaskFactory.createFromForm TaskType.id].
  assert (findSourceColumn entries "" = None) as Hfind.
  { destruct (findSourceColumn entries "") as [c'|] eqn:Hfind; [exfalso|done].
    apply (findSourceColumn_Some entries _ "" c' Henum) in Hfind as (col' & Hc' & Hin).
    cbn [columns] in Hc'. destruct (decide (c' = c)) as [->|Hne].
    - rewrite lookup_insert_eq in Hc'. injection Hc' as <-. simpl in Hin.
      apply elem_of_app in Hin as [Hin|Heq%list_elem_of_singleton]; [|by destruct Hi].
      destruct (Hunlisted c). by exists col.
    - rewrite lookup_insert_ne in Hc' by done.
      destruct (Hunlisted c'). by exists col'. }
  split_and!.
  - unfold updateTask, updateBoardData. cbn [tasks].
    rewrite (dict_get_plain _ "" eq_refl), lookup_insert_ne by done. by rewrite Hempty.
  - unfold deleteTask, updateBoardData. cbn [negb]. by rewrite Hfind.
Qed.

End Cards.

Lemma TaskCard_of_added_task_witness :
  ∃ task, tasks board_one_task !! task_1 = Some task ∧
    TaskCard.handleEdit task
      (λ taskId updates, updateTask (H:=utc_runtime) taskId updates "t3" board_one_task)
      (TaskType.mkUpdates None (Some "Write the spec") None None None None None)
    = Throw (TaskNotFound "").
Proof.
  destruct (TaskCard_of_added_task (H:=utc_runtime) board_todo board_one_task column_1
              task_1 "t2" "t3" write_spec_form
              (TaskType.mkUpdates None (Some "Write the spec") None None None None None)
              (map_to_list (columns board_one_task)))
    as (task & Htask & Hedit & _).
  - vm_compute. reflexivity.
  - discriminate.
  - reflexivity.
  - intros c' (col & Hc & Hin). cbn [board_todo columns] in Hc.
    apply lookup_singleton_Some in Hc as [_ <-]. by apply elem_of_nil in Hin.
  - apply enumerates_map_to_list.
  - by exists task.
Defined.

Section Columns.
Context `{JsDate}.

(** X23.  The column component of a column that [addColumn] stored
    hands the empty string to its callbacks, because that is the
    column's [id].  With the store's operations as callbacks, on a board
    with no column under the empty string, saving an acceptable new
    title, deleting the column and adding a valid task to it all throw
    'Column  not found'. *)
Theorem Column_of_added_column (b b1 : Board) (d : ColumnFactory.formData)
    (i now later : string) :
  addColumn d i now b = Ok b1 → i ≠ "" → columns b !! "" = None →
  ∃ column, columns b1 !! i = Some column ∧ ColumnType.id column = "" ∧
    (∀ title, trim title ≠ "" → str_length (trim title) ≤ 50 →
       Column.handleSaveTitle column title
         (λ columnId updates, updateColumn columnId updates later b1)
       = Column.Edited (Throw (ColumnNotFound ""))) ∧
    Column.handleDeleteColumn column true
      (λ columnId, deleteColumn true columnId later b1)
    = Some (Throw (ColumnNotFound "")) ∧
    (∀ data taskId,
       TaskType.isValid
         (TaskFactory.createFromForm (TaskFactory.with_id data taskId) later) = true →
       Column.addTaskClicked column (λ columnId, addTask columnId data taskId later b1)
       = Throw (ColumnNotFound "")).
Proof.
  intros Hadd Hi Hempty. apply addColumn_Ok in Hadd as [_ ->]. cbn zeta.
  eexists. split; [apply lookup_insert_eq|]. split; [reflexivity|].
  assert (∀ form instant, ColumnType.id (ColumnFactory.createFromForm form instant) = "")
    as Hid by done.
  split_and!.
  - intros title Ht Hlen. unfold Column.handleSaveTitle. cbv zeta.
    assert (truthy_str (trim title) = true) as -> by by destruct (trim title).
    assert ((50 <? str_length (trim title)) = false) as -> by by apply Z.ltb_ge.
    cbn [negb]. unfold updateColumn, updateBoardData. cbn [columns]. rewrite Hid.
    rewrite (dict_get_plain _ "" eq_refl), lookup_insert_ne by done. by rewrite Hempty.
  - unfold Column.handleDeleteColumn, deleteColumn. cbn [columns]. rewrite Hid.
    rewrite (dict_get_plain _ "" eq_refl), lookup_insert_ne by done. by rewrite Hempty.
  - intros data taskId Hvalid. unfold Column.addTaskClicked, addTask, updateBoardData.
    rewrite Hvalid. cbn [negb columns]. rewrite Hid.
    rewrite (dict_get_plain _ "" eq_refl), lookup_insert_ne by done. by rewrite Hempty.
Qed.

End Columns.

Lemma Column_of_added_column_witness :
  ∃ column, columns board_todo !! column_1 = Some column ∧
    Column.handleSaveTitle column "Backlog"
      (λ columnId updates, updateColumn columnId updates "t2" board_todo)
    = Column.Edited (Throw (ColumnNotFound "")).
Proof.
  destruct (Column_of_added_column (H:=utc_runtime) (emptyBoard "t0") board_todo todo_form
              column_1 "t1" "t2") as (column & Hcolumn & _ & Htitle & _).
  - vm_compute. reflexivity.
  - discriminate.
  - reflexivity.
  - exists column. split; [done|]. apply Htitle; [discriminate | vm_compute; discriminate].
Defined.

(** ** Persistence *)

Lemma prop_lookup_set_ne (k k' : string) (props : list (string * value)) (v : value) :
  k ≠ k' → prop_lookup k (prop_set props k' v) = prop_lookup k props.
Proof. intros Hne. rewrite prop_lookup_set. by destruct (String.eqb_spec k' k). Qed.

Lemma get_stamped (props : list (string * value)) (k k' : string) (v : value) :
  k ≠ k' → get (JObj (prop_set props k' v)) k = get (JObj props) k.
Proof. intros Hne. unfold get. by rewrite prop_lookup_set_ne. Qed.

Section Persistence.
Context `{JsJSON} `{JsJSONText} `{JsLocalStorage}.

(** X24.  What the store saves is what it starts with the next time:
    when [localStorage] takes the text and [JSON.parse] reads back what
    [JSON.stringify] wrote, then after [saveBoardData] of a board object
    with truthy [tasks], [columns] and [lastModified] and an array as
    [columnOrder], the save reports success, [loadBoardData()] returns
    the saved object with its [lastSaved] stamp, and the first state of
    [useKanban()] has the four properties as they were saved. *)
Theorem saved_board_is_first_state (props : list (string * value)) (now later : string)
    (store : gmap string string) :
  let saved := JObj (prop_set props "lastSaved" (JStr now)) in
  storage_available = true →
  storage_accepts store KANBAN_DATA (JSON_stringify saved) = true →
  JSON_parse (JSON_stringify saved) = inr saved →
  (∀ k, k ∈ ["tasks"; "columns"; "columnOrder"; "lastModified"] →
        ∃ v, prop_lookup k props = Some v ∧ truthy v = true) →
  has_columnOrder_array (JObj props) = true →
  let store' := useLocalStorage.useKanbanStorage_saveBoardData (JObj props) now store in
  Storage.saveBoardData (JObj props) now store = (true, store') ∧
  Storage.loadBoardData store' = saved ∧
  useLocalStorage.useKanbanStorage_initial store' = saved ∧
  ∃ first, useKanban_initial (useLocalStorage.useKanbanStorage_initial store') later
             = Ok (JObj first) ∧
           ∀ k, k ∈ ["tasks"; "columns"; "columnOrder"; "lastModified"] →
                prop_lookup k first = prop_lookup k props.
Proof.
  intros saved Havail Hroom Hparse Hprops Harray store'.
  destruct (Hprops "tasks") as (t & Ht & Htt); [set_solver|].
  destruct (Hprops "columns") as (c & Hc & Hct); [set_solver|].
  destruct (Hprops "columnOrder") as (co & Hco & Hcot); [set_solver|].
  destruct (Hprops "lastModified") as (lm & Hlm & Hlmt); [set_solver|].
  assert (Storage.load KANBAN_DATA store' = saved) as Hload.
  { unfold store', useLocalStorage.useKanbanStorage_saveBoardData, Storage.save,
      Storage.load.
    cbn [own_props Storage.serialized]. fold saved.
    rewrite Havail, Hroom. cbn [andb snd negb]. by rewrite lookup_insert_eq, Hparse. }
  assert (useLocalStorage.useKanbanStorage_initial store' = saved) as Hfirst.
  { unfold useLocalStorage.useKanbanStorage_initial, useLocalStorage.initial.
    by rewrite Hload. }
  split_and!.
  - unfold store', useLocalStorage.useKanbanStorage_saveBoardData, Storage.saveBoardData,
      Storage.save. cbn [own_props Storage.serialized]. fold saved.
    by rewrite Havail, Hroom.
  - unfold Storage.loadBoardData, StorageService.loadBoardData. rewrite Hload.
    unfold saved. cbn [truthy negb]. rewrite !get_stamped by done.
    unfold get. rewrite Ht, Hc, Hco. cbn [default from_option id]. rewrite Htt, Hct.
    unfold has_columnOrder_array, field in Harray. rewrite Hco in Harray.
    by destruct co.
  - done.
  - rewrite Hfirst. unfold useKanban_initial, saved.
    rewrite !get_stamped by done.
    unfold get. rewrite Ht, Hc, Hco, Hlm. cbn [default from_option id mbind result_bind].
    unfold or_value. rewrite Htt, Hct, Hcot, Hlmt.
    eexists. split; [done|]. intros k Hk.
    repeat (apply elem_of_cons in Hk as [->|Hk]; [by rewrite ?Ht, ?Hc, ?Hco, ?Hlm|]).
    by apply elem_of_nil in Hk.
Qed.

(** X25.  The store starts with the empty board when [localStorage]
    cannot be used, holds nothing under the board's key, or holds a text
    there that does not parse: the first state has no task, no column,
    an empty column order, and the present instant as [lastModified]. *)
Theorem first_state_without_saved_board (store : gmap string string) (now : string) :
  storage_available = false ∨ store !! KANBAN_DATA = None ∨
  (∃ text msg, store !! KANBAN_DATA = Some text ∧ JSON_parse text = inl msg) →
  useKanban_initial (useLocalStorage.useKanbanStorage_initial store) now
  = Ok (JObj [("tasks", JObj []); ("columns", JObj []); ("columnOrder", JArr []);
              ("lastModified", JStr now)]).
Proof.
  intros Hnone.
  assert (Storage.load KANBAN_DATA store = JNull) as Hload.
  { unfold Storage.load.
    destruct Hnone as [-> | [Hk | (text & msg & Hk & Hp)]]; [done | |].
    - rewrite Hk. by destruct storage_available.
    - rewrite Hk, Hp. by destruct storage_available. }
  unfold useLocalStorage.useKanbanStorage_initial, useLocalStorage.initial.
  rewrite Hload. reflexivity.
Qed.

(** X26.  [loadBoardData()] returns [null] or the stored object itself,
    and in the second case the object has truthy [tasks] and [columns]
    and an array as [columnOrder], so [importBoardData] accepts it. *)
Theorem loadBoardData_null_or_importable (store : gmap string string) (now : string) :
  let data := Storage.loadBoardData store in
  data = JNull ∨
  (data = Storage.load KANBAN_DATA store ∧
   has_tasks_and_columns data = true ∧ has_columnOrder_array data = true ∧
   importBoardData data now = Ok (stamp (stamp data now) now)).
Proof.
  cbv zeta. unfold Storage.loadBoardData, StorageService.loadBoardData.
  destruct (Storage.load KANBAN_DATA store) as [| |bv|n|s|items|props] eqn:Hload;
    cbn -[prop_lookup]; try by left.
  - destruct bv; by left.
  - destruct (negb (n =? 0)); by left.
  - destruct (truthy_str s); by left.
  - unfold has_tasks_and_columns, has_columnOrder_array, importBoardData, field, get.
    cbn -[prop_lookup].
    destruct (prop_lookup "tasks" props) as [t|] eqn:Ht; cbn -[prop_lookup]; [|by left].
    destruct (truthy t) eqn:Htt; cbn -[prop_lookup]; [|by left].
    destruct (prop_lookup "columns" props) as [c|] eqn:Hc; cbn -[prop_lookup]; [|by left].
    destruct (truthy c) eqn:Hct; cbn -[prop_lookup]; [|by left].
    destruct (prop_lookup "columnOrder" props) as [[]|] eqn:Hco; cbn -[prop_lookup];
      try by left.
    right. rewrite ?Ht, ?Hc, ?Hco. cbn -[prop_lookup stamp]. rewrite ?Htt, ?Hct. done.
Qed.

(** X27.  Import reads back what export wrote: when [JSON.parse] reads
    back the envelope that [JSON.stringify] printed, [importFromJSON] of
    [exportToJSON(boardData)] succeeds with [boardData] itself, version
    '1.0' and the instant of the export, provided [boardData] has truthy
    [tasks] and [columns]; the import handler then makes it the state,
    with [lastModified] stamped. *)
Theorem importFromJSON_exportToJSON (boardData state : value) (now later : string) :
  let envelope :=
    JObj [("version", JStr "1.0"); ("exportedAt", JStr now); ("data", boardData)] in
  JSON_parse (JSON_stringify_pretty envelope) = inr envelope →
  has_tasks_and_columns boardData = true →
  ImportExportService.importFromJSON (ImportExportService_exportToJSON boardData now)
    = ImportExportService.Success boardData (JStr "1.0") (JStr now) ∧
  handleImport (ImportExportService_exportToJSON boardData now) true later state
    = stamp (stamp boardData later) later.
Proof.
  intros envelope Hparse Hshape.
  assert (ImportExportService.importFromJSON (ImportExportService_exportToJSON boardData now)
          = ImportExportService.Success boardData (JStr "1.0") (JStr now)) as Himport.
  { unfold ImportExportService.importFromJSON, ImportExportService.importFromJSON_try,
      ImportExportService_exportToJSON. fold envelope. rewrite Hparse.
    unfold has_tasks_and_columns, field in Hshape.
    destruct boardData as [| | | | | |props]; try done.
    destruct (prop_lookup "tasks" props) as [t|] eqn:Ht; [|done].
    destruct (prop_lookup "columns" props) as [c|] eqn:Hc; [|done].
    apply andb_prop in Hshape as [Htt Hct].
    simpl. rewrite Ht. simpl. rewrite Htt. simpl. rewrite Hc. simpl. by rewrite Hct. }
  split; [done|]. unfold handleImport. rewrite Himport.
  unfold importBoardData. unfold has_tasks_and_columns, field in Hshape.
  destruct boardData as [| | | | | |props]; try done.
  destruct (prop_lookup "tasks" props) as [t|] eqn:Ht; [|done].
  destruct (prop_lookup "columns" props) as [c|] eqn:Hc; [|done].
  apply andb_prop in Hshape as [Htt Hct].
  cbn -[prop_lookup stamp]. rewrite Ht. cbn -[prop_lookup stamp]. rewrite Htt.
  cbn -[prop_lookup stamp]. rewrite Hc. cbn -[prop_lookup stamp]. by rewrite Hct.
Qed.

(** X28.  After [clearAllData()] neither the board nor the preferences
    can be loaded, whatever was stored and whether or not [localStorage]
    can be used, and the store starts with the empty board; what is
    stored under other keys stays. *)
Theorem clearAllData_forgets (store : gmap string string) (now : string) :
  let cleared := snd (Storage.clearAllData store) in
  fst (Storage.clearAllData store) = true ∧
  Storage.loadBoardData cleared = JNull ∧
  Storage.loadUserPreferences cleared = JNull ∧
  useKanban_initial (useLocalStorage.useKanbanStorage_initial cleared) now
    = Ok (JObj [("tasks", JObj []); ("columns", JObj []); ("columnOrder", JArr []);
                ("lastModified", JStr now)]) ∧
  (∀ k, k ≠ KANBAN_DATA → k ≠ USER_PREFERENCES → cleared !! k = store !! k).
Proof.
  cbv zeta.
  unfold useLocalStorage.useKanbanStorage_initial, useLocalStorage.initial,
    Storage.clearAllData, Storage.loadBoardData, Storage.loadUserPreferences,
    Storage.remove, Storage.load.
  destruct storage_available; cbn [fst snd negb]; [|by split_and!].
  rewrite (lookup_delete_ne _ USER_PREFERENCES KANBAN_DATA) by done.
  rewrite !lookup_delete_eq. split_and!; [done..|].
  intros k Hb Hp. by rewrite !lookup_delete_ne.
Qed.

End Persistence.

Lemma saved_board_is_first_state_witness :
  Storage.loadBoardData (H:=SampleJSON.json) (H1:=roomy_storage)
    (useLocalStorage.useKanbanStorage_saveBoardData (H0:=SampleJSON.text) (H1:=roomy_storage)
       board_one_task_object "t5" ∅)
  = JObj (prop_set (own_props board_one_task_object) "lastSaved" (JStr "t5")).
Proof.
  apply (saved_board_is_first_state (H:=SampleJSON.json) (H0:=SampleJSON.text)
           (H1:=roomy_storage) (own_props board_one_task_object) "t5" "t6" ∅).
  - reflexivity.
  - vm_compute. reflexivity.
  - vm_compute. reflexivity.
  - intros k Hk.
    repeat (apply elem_of_cons in Hk as [->|Hk]; [eexists; split; reflexivity|]).
    by apply elem_of_nil in Hk.
  - reflexivity.
Defined.

Lemma first_state_without_saved_board_witness :
  useKanban_initial
    (useLocalStorage.useKanbanStorage_initial (H:=SampleJSON.json) (H1:=roomy_storage)
       {[ KANBAN_DATA := "{not json" ]}) "t1"
  = Ok (JObj [("tasks", JObj []); ("columns", JObj []); ("columnOrder", JArr []);
              ("lastModified", JStr "t1")]).
Proof.
  apply (first_state_without_saved_board (H:=SampleJSON.json) (H1:=roomy_storage)).
  right. right. exists "{not json", "Unexpected token in JSON".
  split; [reflexivity | vm_compute; reflexivity].
Defined.

Lemma importFromJSON_exportToJSON_witness :
  ImportExportService.importFromJSON (H:=SampleJSON.json)
    (ImportExportService_exportToJSON (H:=SampleJSON.text) board_one_task_object "t9")
  = ImportExportService.Success board_one_task_object (JStr "1.0") (JStr "t9").
Proof.
  apply (importFromJSON_exportToJSON (H:=SampleJSON.json) (H0:=SampleJSON.text)
           board_one_task_object JNull "t9" "t10").
  - vm_compute. reflexivity.
  - reflexivity.
Defined.

Lemma clearAllData_forgets_witness :
  snd (Storage.clearAllData (H1:=roomy_storage)
         {[ KANBAN_DATA := "{}"; "theme" := "dark" ]}) !! "theme" = Some "dark".
Proof.
  destruct (clearAllData_forgets (H:=SampleJSON.json) (H1:=roomy_storage)
              {[ KANBAN_DATA := "{}"; "theme" := "dark" ]} "t1") as (_ & _ & _ & _ & Hkeep).
  by rewrite (Hkeep "theme").
Defined.

(** ** The auto-save timer *)








(** ** The drag state *)

(** X30.  Over any sequence of drag events from the first state, a drag
    type is set exactly when an item is being dragged, and after a drop
    or a reset nothing is dragged or hovered.  A card's drag start marks
    the card's [task.id] as dragged.  A validated drop leaves the first
    state whether or not it is allowed, and calls [onDrop] only when
    [canDrop] allows it. *)
Theorem useDragDrop_state (events : list useDragDrop.event) :
  let st := useDragDrop.run events useDragDrop.initial in
  (is_Some (useDragDrop.draggedItem st) ↔ is_Some (useDragDrop.dragType st)) ∧
  (∀ before last, events = (before ++ [last])%list →
     (last = useDragDrop.Reset ∨ ∃ f i t, last = useDragDrop.Drop f i t) →
     ∀ x, useDragDrop.isDragging st x = false ∧ useDragDrop.isDraggedOver st x = false) ∧
  (∀ task,
     useDragDrop.isDragging
       (TaskCard.handleDragStart task
          (λ taskId, useDragDrop.handleDragStart taskId (Some useDragDrop.DRAG_TYPE_TASK) st))
       (TaskType.id task) = true) ∧
  (∀ canDrop hasOnDrop itemId targetId,
     snd (useDragDrop.validated_handleDrop canDrop hasOnDrop itemId targetId st)
       = useDragDrop.initial ∧
     (canDrop itemId targetId (useDragDrop.dragType st) = false →
      fst (useDragDrop.validated_handleDrop canDrop hasOnDrop itemId targetId st)
        = inr (itemId, targetId, useDragDrop.dragType st))).
Proof.
  cbv zeta. split_and!.
  - assert (∀ st, (is_Some (useDragDrop.draggedItem st) ↔ is_Some (useDragDrop.dragType st)) →
              is_Some (useDragDrop.draggedItem (useDragDrop.run events st))
              ↔ is_Some (useDragDrop.dragType (useDragDrop.run events st))) as Hrun.
    { unfold useDragDrop.run. induction events as [|e events IH]; intros st Hst; [done|].
      simpl. apply IH. destruct e; simpl; [|done..].
      split; intros _; by eexists. }
    apply Hrun. simpl. split; intros [? ?]; done.
  - intros before last -> Hlast x. unfold useDragDrop.run. rewrite fold_left_app. simpl.
    destruct Hlast as [->|(f & i & t & ->)]; done.
  - intros task. unfold TaskCard.handleDragStart, useDragDrop.isDragging. simpl.
    by apply bool_decide_eq_true_2.
  - intros canDrop hasOnDrop itemId targetId. unfold useDragDrop.validated_handleDrop.
    by destruct (canDrop _ _ _).
Qed.

Lemma useDragDrop_state_witness :
  useDragDrop.isDragging
    (useDragDrop.run [useDragDrop.DragStart "a" None; useDragDrop.DragOver "c";
                      useDragDrop.Drop true "a" "c"] useDragDrop.initial) "a" = false.
Proof.
  destruct (useDragDrop_state [useDragDrop.DragStart "a" None; useDragDrop.DragOver "c";
                               useDragDrop.Drop true "a" "c"]) as (_ & Hdone & _).
  apply (Hdone [useDragDrop.DragStart "a" None; useDragDrop.DragOver "c"]
               (useDragDrop.Drop true "a" "c") eq_refl).
  right. by exists true, "a", "c".
Defined.
